(** * Resume relevance system: the evaluation pipeline

    A shallow embedding of the scoring engine, the semantic matcher, the
    skill extractor and the urgency detector of the job-description parser
    (app/core/ai_pipeline), with the properties of the specification stated
    and proved over it.  The last part adds the skill-gap analysis of the
    feedback generator, the weight validation of the request schema
    (app/schemas/matching.py), the years of experience of the resume parser
    and the required skills of the job-description parser, and properties
    of the pipeline as a whole.

    Conventions of the embedding.
    - Python [float] values are embedded as exact rationals [Q]; equalities
      between scores are stated with [==] and the decimal literals of the
      source are kept as they are written ([0.35], [0.01], ...).  Where
      the outcome turns on the rounding of the arithmetic, as the tolerance
      test of the weight validation does, the code is embedded once more
      over IEEE 754 binary64 values (module [Binary64]).
    - Python [str] values are embedded as [string]; texts are taken to be
      ASCII, so [str.lower] only touches the letters A-Z.
    - [Optional[T]] is [option T]; Python truthiness ([if x], [x or d]) is
      written out per type.
    - A raised exception is the [Raise] branch of [result]. *)

From Stdlib Require Import QArith Qminmax Qround Qabs Lqa Lia ZArith.
From Stdlib Require Import String Ascii List Bool Permutation DecimalString.
From Stdlib Require PrimFloat FloatOps SpecFloat.
Import ListNotations.

Set Implicit Arguments.

Local Open Scope Q_scope.

(* ===================================================================== *)
(** ** Python built-ins used by the pipeline *)
(* ===================================================================== *)

Module Py.

(** [min(a, b)] and [max(a, b)]: the first argument is kept unless the
    second is strictly smaller (resp. larger). *)
Definition min (a b : Q) : Q := if Qlt_le_dec b a then b else a.
Definition max (a b : Q) : Q := if Qlt_le_dec a b then b else a.

(** A count ([len(...)]) used in float arithmetic. *)
Definition of_nat (n : nat) : Q := inject_Z (Z.of_nat n).

(** Float comparisons [x >= y], [x < y], [x > y] as tests. *)
Definition ge (x y : Q) : bool := if Qlt_le_dec x y then false else true.
Definition lt (x y : Q) : bool := if Qlt_le_dec x y then true else false.
Definition gt (x y : Q) : bool := lt y x.

(** [sum(xs)] over floats and [np.mean(xs)] on a non-empty list. *)
Definition sum (xs : list Q) : Q := fold_left Qplus xs 0.
Definition mean (xs : list Q) : Q := sum xs / of_nat (length xs).

(** [round(x, 1)]: to one decimal place, ties to the even neighbour. *)
Definition round_half_even (x : Q) : Z :=
  let f := Qfloor x in
  let r := x - inject_Z f in
  if Qlt_le_dec r (1 # 2) then f
  else if Qlt_le_dec (1 # 2) r then (f + 1)%Z
  else if Z.even f then f else (f + 1)%Z.

Definition round1 (x : Q) : Q := inject_Z (round_half_even (x * 10)) / 10.

(** *** Strings *)

Definition lower_ascii (c : ascii) : ascii :=
  let n := nat_of_ascii c in
  if ((65 <=? n) && (n <=? 90))%nat then ascii_of_nat (n + 32) else c.

Fixpoint lower (s : string) : string :=
  match s with
  | EmptyString => EmptyString
  | String c s' => String (lower_ascii c) (lower s')
  end.

(** [sub in s] for strings. *)
Fixpoint contains (sub s : string) : bool :=
  if prefix sub s then true
  else match s with
       | EmptyString => false
       | String _ s' => contains sub s'
       end.

(** [any(k in s for k in ks)]. *)
Definition any_in (ks : list string) (s : string) : bool :=
  existsb (fun k => contains k s) ks.

(** [s.find(sub)]: index of the first occurrence, [-1] when absent. *)
Fixpoint find_from (i : Z) (sub s : string) : Z :=
  if prefix sub s then i
  else match s with
       | EmptyString => (-1)%Z
       | String _ s' => find_from (i + 1) sub s'
       end.
Definition find (s sub : string) : Z := find_from 0 sub s.

(** [s.count(sub)]: non-overlapping occurrences, scanning from the left. *)
Fixpoint count_from (skip : nat) (sub s : string) : nat :=
  match s with
  | EmptyString =>
      match sub with EmptyString => 1%nat | _ => 0%nat end
  | String _ s' =>
      match skip with
      | S k => count_from k sub s'
      | O => if prefix sub s
             then S (count_from (Nat.pred (String.length sub)) sub s')
             else count_from 0 sub s'
      end
  end.
Definition count (s sub : string) : nat := count_from 0 sub s.

(** [s[start:stop]] with Python's treatment of negative and
    out-of-range indices. *)
Definition clamp_index (len i : Z) : Z :=
  if (i <? 0)%Z then Z.max (i + len) 0 else Z.min i len.

Definition slice (s : string) (start stop : Z) : string :=
  let len := Z.of_nat (String.length s) in
  let a := clamp_index len start in
  let b := clamp_index len stop in
  substring (Z.to_nat a) (Z.to_nat (b - a)) s.

(** [sep.join(xs)]. *)
Fixpoint join (sep : string) (xs : list string) : string :=
  match xs with
  | [] => EmptyString
  | [x] => x
  | x :: rest => (x ++ sep ++ join sep rest)%string
  end.

(** [s.split()]: maximal runs of non-whitespace characters. *)
Definition is_space (c : ascii) : bool :=
  let n := nat_of_ascii c in
  ((n =? 32) || ((9 <=? n) && (n <=? 13)) || ((28 <=? n) && (n <=? 31)))%nat.

Fixpoint split_acc (cur : string) (s : string) : list string :=
  match s with
  | EmptyString =>
      match cur with EmptyString => [] | _ => [cur] end
  | String c s' =>
      if is_space c
      then match cur with
           | EmptyString => split_acc EmptyString s'
           | _ => cur :: split_acc EmptyString s'
           end
      else split_acc (cur ++ String c EmptyString) s'
  end.
Definition split (s : string) : list string := split_acc EmptyString s.

(** [s.strip()]: whitespace removed at both ends. *)
Fixpoint lstrip (s : string) : string :=
  match s with
  | EmptyString => EmptyString
  | String c s' => if is_space c then lstrip s' else s
  end.

Fixpoint rstrip (s : string) : string :=
  match s with
  | EmptyString => EmptyString
  | String c s' =>
      match rstrip s' with
      | EmptyString => if is_space c then EmptyString
                       else String c EmptyString
      | t => String c t
      end
  end.

Definition strip (s : string) : string := rstrip (lstrip s).

(** Truthiness of a [str] and of an [Optional[str]]. *)
Definition truthy (s : string) : bool :=
  match s with EmptyString => false | _ => true end.
Definition truthy_opt (o : option string) : bool :=
  match o with Some s => truthy s | None => false end.

(** [x or d] on an optional list. *)
Definition or_nil (A : Type) (o : option (list A)) : list A :=
  match o with Some l => l | None => [] end.

(** [x in xs] on a list of strings. *)
Definition mem (x : string) (xs : list string) : bool :=
  existsb (String.eqb x) xs.

(** [str(n)] for a non-negative integer. *)
Definition str_of_nat (n : nat) : string :=
  NilEmpty.string_of_uint (Nat.to_uint n).

End Py.

(* ===================================================================== *)
(** ** Exceptions *)
(* ===================================================================== *)

Inductive exn : Type :=
| ValueError : exn.

(** The specification names the [ValueError] raised by weight validation
    [InvalidWeights]. *)
Definition InvalidWeights : exn := ValueError.

Inductive result (A : Type) : Type :=
| Ok : A -> result A
| Raise : exn -> result A.
Arguments Ok {A} _.
Arguments Raise {A} _.

Definition bind {A B : Type} (r : result A) (k : A -> result B) : result B :=
  match r with
  | Ok a => k a
  | Raise e => Raise e
  end.

Notation "x <- r ;; k" := (bind r (fun x => k))
  (at level 61, r at next level, right associativity).

Local Open Scope string_scope.
Local Open Scope Q_scope.

(* ===================================================================== *)
(** ** Data model (dataclasses of the pipeline) *)
(* ===================================================================== *)

(** skill_extractor.py *)
Record ExtractedSkill : Type := mkExtractedSkill {
  name : string;
  category : string;
  confidence : Q;
  context : string;
  aliases : option (list string);
  proficiency_level : option string
}.

Record SkillProfile : Type := mkSkillProfile {
  technical_skills : list ExtractedSkill;
  soft_skills : list ExtractedSkill;
  domain_expertise : list ExtractedSkill;
  tools_platforms : list ExtractedSkill;
  certifications : list string;
  skill_categories : list (string * list string);
  total_skills_count : nat;
  skill_diversity_score : Q
}.

(** semantic_matcher.py *)
Record SkillMatch : Type := mkSkillMatch {
  skill_name : string;
  resume_skill : option string;
  jd_skill : string;
  match_type : string;
  match_confidence : Q;
  semantic_similarity : option Q
}.

Record SemanticMatchResult : Type := mkSemanticMatchResult {
  overall_similarity : Q;
  skill_matches : list SkillMatch;
  missing_skills : list string;
  additional_skills : list string;
  category_similarities : list (string * Q);
  embedding_similarity : Q;
  text_similarity : Q
}.

(** jd_parser.py *)
Record ParsedJobDescription : Type := mkParsedJobDescription {
  jd_title : string;
  jd_company : string;
  jd_location : option string;
  department : option string;
  job_type : option string;
  experience_required : option string;
  salary_range : option string;
  jd_summary : option string;
  responsibilities : option (list string);
  requirements : option (list string);
  preferred_qualifications : option (list string);
  required_skills : option (list string);
  preferred_skills : option (list string);
  required_experience_years : option Z;
  education_requirements : option (list string);
  benefits : option (list string);
  remote_allowed : bool;
  urgency_level : string;
  raw_content : string
}.

(** resume_parser.py *)
Record ContactInfo : Type := mkContactInfo {
  contact_name : option string;
  email : option string;
  phone : option string;
  linkedin : option string;
  github : option string;
  portfolio : option string;
  contact_location : option string
}.

Record Education : Type := mkEducation {
  degree : option string;
  institution : option string;
  edu_location : option string;
  graduation_year : option Z;
  gpa : option Q;
  relevant_courses : option (list string);
  honors : option (list string)
}.

Record WorkExperience : Type := mkWorkExperience {
  title : string;
  company : string;
  work_location : option string;
  start_date : option string;
  end_date : option string;
  duration_months : option Z;
  description : option (list string);
  technologies : option (list string);
  achievements : option (list string)
}.

Record Project : Type := mkProject {
  project_title : string;
  project_description : string;
  project_technologies : option (list string);
  url : option string;
  project_start_date : option string;
  project_end_date : option string
}.

Record ParsedResume : Type := mkParsedResume {
  contact_info : ContactInfo;
  summary : option string;
  skills : option (list string);
  education : option (list Education);
  work_experience : option (list WorkExperience);
  projects : option (list Project);
  resume_certifications : option (list string);
  languages : option (list string);
  awards : option (list string);
  total_experience_years : option Q;
  raw_text : string;
  parsing_confidence : Q
}.

(* ===================================================================== *)
(** ** scoring_engine.py *)
(* ===================================================================== *)

Module ScoringEngine.

Record ScoringWeights : Type := mkScoringWeights {
  hard_skills : Q;
  soft_skills_weight : Q;
  experience : Q;
  education_weight : Q;
  semantic_match : Q
}.

(** [ScoringWeights()] *)
Definition default_weights : ScoringWeights :=
  mkScoringWeights 0.35 0.15 0.25 0.15 0.10.

Definition weights_total (w : ScoringWeights) : Q :=
  hard_skills w + soft_skills_weight w + experience w
  + education_weight w + semantic_match w.

(** [ScoringWeights.validate], the sum and the test in exact arithmetic.
    The interpreter rounds both: at the tolerance itself (a total of 0.99
    or 1.01) the outcome is that of [Binary64.validate] below. *)
Definition validate (w : ScoringWeights) : result unit :=
  let total := weights_total w in
  if Qlt_le_dec 0.01 (Qabs (total - 1.0))
  then Raise ValueError
  else Ok tt.

Record DetailedScores : Type := mkDetailedScores {
  hard_skills_score : Q;
  soft_skills_score : Q;
  experience_score : Q;
  education_score : Q;
  semantic_match_score : Q;
  technical_skills_score : Q;
  domain_expertise_score : Q;
  tools_platforms_score : Q;
  years_experience_score : Q;
  experience_relevance_score : Q;
  education_level_score : Q;
  education_relevance_score : Q;
  skills_matched_count : nat;
  skills_required_count : nat;
  skills_missing_count : nat;
  skills_additional_count : nat;
  ds_parsing_confidence : Q;
  matching_confidence : Q;
  overall_confidence : Q
}.

Record FinalScore : Type := mkFinalScore {
  overall_score : Q;
  detailed_scores : DetailedScores;
  suitability : string;
  percentile_rank : option Q;
  confidence_level : string
}.

(** [app.config.settings]: the thresholds read by the engine. *)
Record Settings : Type := mkSettings {
  high_threshold : Q;
  medium_threshold : Q;
  low_threshold : Q
}.

Definition default_settings : Settings := mkSettings 80.0 60.0 40.0.

(** [self.thresholds] *)
Record Thresholds : Type := mkThresholds {
  high_score : Q;
  medium_score : Q;
  low_score : Q;
  experience_penalty_threshold : Q;
  education_boost_threshold : Q
}.

Record AdvancedScoringEngine : Type := mkEngine {
  weights : ScoringWeights;
  thresholds : Thresholds
}.

(** [AdvancedScoringEngine.__init__]; a dataclass instance is always
    truthy, so [weights or ScoringWeights()] only replaces [None]. *)
Definition init (settings : Settings) (w : option ScoringWeights)
  : result AdvancedScoringEngine :=
  let ws := match w with Some x => x | None => default_weights end in
  _ <- validate ws ;;
  Ok (mkEngine ws
        (mkThresholds (high_threshold settings) (medium_threshold settings)
                      (low_threshold settings) 0.5 0.8)).

(** [_identify_critical_skills] *)
Definition critical_keywords : list string :=
  ["required"; "must"; "essential"; "mandatory"].

Definition _identify_critical_skills (required : list string) : list string :=
  filter (fun skill => Py.any_in critical_keywords (Py.lower skill)) required.

(** [_calculate_hard_skills_score] *)
Definition _calculate_hard_skills_score
  (skill_profile : SkillProfile) (sm : SemanticMatchResult)
  (jd : ParsedJobDescription) : Q :=
  match required_skills jd with
  | None | Some [] => 0.5
  | Some required =>
      let total_required := length required in
      let matched_skills :=
        length (filter (fun m => Py.ge (match_confidence m) 0.7)
                       (skill_matches sm)) in
      let base_score :=
        if (0 <? total_required)%nat
        then Py.of_nat matched_skills / Py.of_nat total_required else 0 in
      let diversity_bonus := skill_diversity_score skill_profile * 0.2 in
      let high_confidence_matches :=
        length (filter (fun m => Py.ge (match_confidence m) 0.9)
                       (skill_matches sm)) in
      let confidence_bonus :=
        if (0 <? total_required)%nat
        then (Py.of_nat high_confidence_matches / Py.of_nat total_required)
             * 0.1
        else 0 in
      let critical_skills := _identify_critical_skills required in
      let missing_critical :=
        length (filter (fun s => Py.mem s (missing_skills sm))
                       critical_skills) in
      let critical_penalty :=
        match critical_skills with
        | [] => 0
        | _ => (Py.of_nat missing_critical
                / Py.of_nat (length critical_skills)) * 0.3
        end in
      let final_score :=
        base_score + diversity_bonus + confidence_bonus - critical_penalty in
      Py.max 0 (Py.min 1 final_score)
  end.

(** [_extract_soft_skills_from_jd] *)
Definition soft_skill_keywords : list string :=
  ["leadership"; "communication"; "teamwork"; "collaboration";
   "problem solving"; "analytical"; "creative"; "adaptable";
   "organized"; "detail-oriented"; "time management"; "interpersonal"].

Definition jd_combined_text (jd : ParsedJobDescription) : string :=
  let jd_text := Py.lower (raw_content jd) in
  let reqs := Py.lower (Py.join " " (Py.or_nil (requirements jd))) in
  (jd_text ++ " " ++ reqs)%string.

Definition _extract_soft_skills_from_jd (jd : ParsedJobDescription)
  : list string :=
  let combined_text := jd_combined_text jd in
  filter (fun skill => Py.contains skill combined_text) soft_skill_keywords.

(** [_calculate_soft_skills_score] *)
Definition _calculate_soft_skills_score
  (skill_profile : SkillProfile) (jd : ParsedJobDescription) : Q :=
  let jd_soft_skills := _extract_soft_skills_from_jd jd in
  match jd_soft_skills with
  | [] => match soft_skills skill_profile with [] => 0.3 | _ => 0.8 end
  | _ =>
      let resume_soft_skills :=
        map (fun s => Py.lower (name s)) (soft_skills skill_profile) in
      let matched_soft_skills :=
        length (filter (fun jd_skill =>
                          existsb
                            (fun resume_skill =>
                               Py.contains (Py.lower jd_skill) resume_skill)
                            resume_soft_skills)
                       jd_soft_skills) in
      let base_score :=
        Py.of_nat matched_soft_skills / Py.of_nat (length jd_soft_skills) in
      let variety_bonus :=
        Py.min (Py.of_nat (length (soft_skills skill_profile)) / 10) 0.2 in
      Py.min 1 (base_score + variety_bonus)
  end.

(** [x or d] on an optional float and an optional int: [None] and zero
    are both falsy. *)
Definition or_float (o : option Q) (d : Q) : Q :=
  match o with
  | Some x => if Qeq_bool x 0 then d else x
  | None => d
  end.

Definition or_int (o : option Z) (d : Z) : Z :=
  match o with
  | Some x => if (x =? 0)%Z then d else x
  | None => d
  end.

(** [_calculate_years_experience_score] *)
Definition _calculate_years_experience_score
  (resume : ParsedResume) (jd : ParsedJobDescription) : Q :=
  let candidate_years := or_float (total_experience_years resume) 0 in
  let required_years := inject_Z (or_int (required_experience_years jd) 2) in
  if Qlt_le_dec candidate_years required_years then
    let ratio := candidate_years / required_years in
    if Qlt_le_dec ratio 0.75 then
      if Qlt_le_dec ratio 0.5 then ratio * 0.5 else 0.6
    else 0.8
  else
    let base_score := 1.0 in
    if Qlt_le_dec (required_years * 1.5) candidate_years
    then Py.min 1.0 (base_score + 0.1)
    else base_score.

(** [set(xs)], [a.intersection(b)] and [a.union(b)] on sets of words,
    kept as duplicate-free lists. *)
Definition set_of (xs : list string) : list string := nodup string_dec xs.

Definition intersection (a b : list string) : list string :=
  filter (fun x => Py.mem x b) a.

Definition union (a b : list string) : list string :=
  nodup string_dec (a ++ b)%list.

(** [_calculate_title_relevance] *)
Definition _calculate_title_relevance (resume_title jd_title : string) : Q :=
  if negb (Py.truthy resume_title) || negb (Py.truthy jd_title) then 0.5
  else
    let resume_words := set_of (Py.split (Py.lower resume_title)) in
    let jd_words := set_of (Py.split (Py.lower jd_title)) in
    let common_words := intersection resume_words jd_words in
    let total_words := union resume_words jd_words in
    match total_words with
    | [] => 0
    | _ => Py.of_nat (length common_words) / Py.of_nat (length total_words)
    end.

(** [_calculate_industry_relevance] *)
Definition _calculate_industry_relevance (resume_company jd_company : string)
  : Q :=
  if negb (Py.truthy resume_company) || negb (Py.truthy jd_company) then 0.5
  else
    let resume_words := set_of (Py.split (Py.lower resume_company)) in
    let jd_words := set_of (Py.split (Py.lower jd_company)) in
    match intersection resume_words jd_words with
    | [] => 0.4
    | _ => 0.9
    end.

(** [_calculate_description_relevance] *)
Definition description_jd_keywords (jd : ParsedJobDescription) : list string :=
  (match required_skills jd with
   | None | Some [] => []
   | Some rs => map Py.lower rs
   end
   ++
   match responsibilities jd with
   | None | Some [] => []
   | Some resps => flat_map (fun resp => Py.split (Py.lower resp)) resps
   end)%list.

Definition _calculate_description_relevance
  (description_list : list string) (jd : ParsedJobDescription) : Q :=
  match description_list with
  | [] => 0.3
  | _ =>
      let description_text := Py.lower (Py.join " " description_list) in
      let jd_keywords := description_jd_keywords jd in
      match jd_keywords with
      | [] => 0.5
      | _ =>
          let matches :=
            length (filter (fun keyword => Py.contains keyword description_text)
                           jd_keywords) in
          Py.min 1.0 (Py.of_nat matches / Py.of_nat (length jd_keywords))
      end
  end.

(** [list.sort(reverse=True)] on floats. *)
Fixpoint insert_desc (x : Q) (l : list Q) : list Q :=
  match l with
  | [] => [x]
  | y :: l' => if Qlt_le_dec x y then y :: insert_desc x l' else x :: l
  end.

Definition sort_desc (l : list Q) : list Q := fold_right insert_desc [] l.

Section Clock.

(** [datetime.now().year] *)
Variable current_year : Z.

(** [range(current_year - 10, current_year + 1)] *)
Definition recent_years : list Z :=
  map (fun i => (current_year - 10 + Z.of_nat i)%Z) (seq 0 11).

Definition str_of_year (y : Z) : string :=
  NilEmpty.string_of_int (Z.to_int y).

(** [_calculate_recency_weight] *)
Definition _calculate_recency_weight (end_date : option string) : Q :=
  match end_date with
  | None => 1.0
  | Some d =>
      if negb (Py.truthy d)
         || Py.mem (Py.lower d) ["present"; "current"; "now"]
      then 1.0
      else
        match filter (fun year => Py.contains (str_of_year year) d)
                     recent_years with
        | year :: _ =>
            let years_ago := (current_year - year)%Z in
            Py.max 0.5 (1.0 - inject_Z years_ago * 0.1)
        | [] => 0.7
        end
  end.

(** [_calculate_experience_relevance_score] *)
Definition exp_relevance (jd : ParsedJobDescription) (exp : WorkExperience)
  : Q :=
  let title_relevance := _calculate_title_relevance (title exp) (jd_title jd) in
  let industry_relevance :=
    _calculate_industry_relevance (company exp) (jd_company jd) in
  let description_relevance :=
    _calculate_description_relevance (Py.or_nil (description exp)) jd in
  let recency_weight := _calculate_recency_weight (end_date exp) in
  (title_relevance * 0.4 + industry_relevance * 0.2
   + description_relevance * 0.4) * recency_weight.

Definition _calculate_experience_relevance_score
  (resume : ParsedResume) (jd : ParsedJobDescription) : Q :=
  match work_experience resume with
  | None | Some [] => 0.2
  | Some exps =>
      let relevance_scores := sort_desc (map (exp_relevance jd) exps) in
      match relevance_scores with
      | a :: b :: c :: _ => a * 0.5 + b * 0.3 + c * 0.2
      | [a; b] => a * 0.7 + b * 0.3
      | [a] => a
      | [] => 0
      end
  end.

(** [_calculate_experience_score] *)
Definition _calculate_experience_score
  (resume : ParsedResume) (jd : ParsedJobDescription) : Q :=
  let years_score := _calculate_years_experience_score resume jd in
  let relevance_score := _calculate_experience_relevance_score resume jd in
  years_score * 0.6 + relevance_score * 0.4.

End Clock.

(** [_extract_required_education_level] *)
Definition _extract_required_education_level (jd : ParsedJobDescription) : Z :=
  let combined_text := jd_combined_text jd in
  if Py.any_in ["phd"; "doctorate"; "doctoral"] combined_text then 5%Z
  else if Py.any_in ["master"; "mba"; "ms"; "ma"] combined_text then 4%Z
  else if Py.any_in ["bachelor"; "bs"; "ba"; "degree"] combined_text then 3%Z
  else if Py.any_in ["associate"] combined_text then 2%Z
  else 2%Z.

(** [_calculate_education_level_score] *)
Definition education_levels : list (string * Z) :=
  [("phd", 5%Z); ("doctorate", 5%Z); ("doctoral", 5%Z);
   ("master", 4%Z); ("mba", 4%Z); ("ms", 4%Z); ("ma", 4%Z);
   ("bachelor", 3%Z); ("bs", 3%Z); ("ba", 3%Z);
   ("associate", 2%Z);
   ("diploma", 1%Z); ("certificate", 1%Z)].

(** The inner loop: the first level name found in the degree decides. *)
Definition degree_level (max_level : Z) (edu : Education) : Z :=
  match degree edu with
  | Some d =>
      if Py.truthy d then
        let degree_lower := Py.lower d in
        match find (fun lv => Py.contains (fst lv) degree_lower)
                   education_levels with
        | Some (_, level_value) => Z.max max_level level_value
        | None => max_level
        end
      else max_level
  | None => max_level
  end.

Definition _calculate_education_level_score
  (education_list : list Education) (jd : ParsedJobDescription) : Q :=
  let max_level := fold_left degree_level education_list 0%Z in
  let required_level := _extract_required_education_level jd in
  if (required_level <=? max_level)%Z then 1.0
  else if (required_level - 1 <=? max_level)%Z then 0.8
  else 0.5.

(** [_extract_job_domain_keywords] *)
Definition domain_keywords : list (string * list string) :=
  [("software", ["software"; "programming"; "development"; "engineering";
                 "computer"]);
   ("data", ["data"; "analytics"; "science"; "machine learning";
             "statistics"]);
   ("marketing", ["marketing"; "digital"; "campaign"; "brand";
                  "advertising"]);
   ("finance", ["finance"; "accounting"; "financial"; "investment";
                "banking"]);
   ("sales", ["sales"; "business development"; "revenue"; "client";
              "customer"])].

Definition _extract_job_domain_keywords (jd : ParsedJobDescription)
  : list string :=
  let jd_text :=
    (Py.lower (jd_title jd) ++ " " ++ Py.lower (raw_content jd))%string in
  let relevant_keywords :=
    match find (fun dk => Py.any_in (snd dk) jd_text) domain_keywords with
    | Some (_, keywords) => keywords
    | None => []
    end in
  firstn 5 relevant_keywords.

(** [_calculate_education_relevance_score] *)
Definition degree_relevance (job_keywords : list string) (max_relevance : nat)
  (edu : Education) : nat :=
  match degree edu with
  | Some d =>
      if Py.truthy d then
        let degree_text := Py.lower d in
        let relevance :=
          length (filter (fun keyword => Py.contains keyword degree_text)
                         job_keywords) in
        Nat.max max_relevance relevance
      else max_relevance
  | None => max_relevance
  end.

Definition _calculate_education_relevance_score
  (education_list : list Education) (jd : ParsedJobDescription) : Q :=
  let job_keywords := _extract_job_domain_keywords jd in
  match job_keywords with
  | [] => 0.7
  | _ =>
      let max_relevance :=
        fold_left (degree_relevance job_keywords) education_list 0%nat in
      Py.min 1.0 (Py.of_nat max_relevance / Py.of_nat (length job_keywords))
  end.

(** [_calculate_education_score] *)
Definition _calculate_education_score
  (resume : ParsedResume) (jd : ParsedJobDescription) : Q :=
  match education resume with
  | None | Some [] => 0.3
  | Some edus =>
      let education_level_score := _calculate_education_level_score edus jd in
      let education_relevance_score :=
        _calculate_education_relevance_score edus jd in
      education_level_score * 0.6 + education_relevance_score * 0.4
  end.

(** [_calculate_semantic_score] *)
Definition _calculate_semantic_score (sm : SemanticMatchResult) : Q :=
  overall_similarity sm.

Section Engine.

Variable current_year : Z.
Variable self : AdvancedScoringEngine.

(** [_calculate_detailed_scores] *)
Definition _calculate_detailed_scores
  (resume : ParsedResume) (skill_profile : SkillProfile)
  (sm : SemanticMatchResult) (jd : ParsedJobDescription)
  (hard_skills_score soft_skills_score experience_score education_score
     semantic_score : Q) : DetailedScores :=
  let technical_skills_score :=
    Py.of_nat (length (technical_skills skill_profile)) / 10 * 100 in
  let domain_expertise_score :=
    Py.of_nat (length (domain_expertise skill_profile)) / 5 * 100 in
  let tools_platforms_score :=
    Py.of_nat (length (tools_platforms skill_profile)) / 8 * 100 in
  let years_experience_score :=
    _calculate_years_experience_score resume jd * 100 in
  let experience_relevance_score :=
    _calculate_experience_relevance_score current_year resume jd * 100 in
  let education_level_score :=
    _calculate_education_level_score (Py.or_nil (education resume)) jd * 100 in
  let education_relevance_score :=
    _calculate_education_relevance_score (Py.or_nil (education resume)) jd
    * 100 in
  let skills_matched := length (skill_matches sm) in
  let skills_required := length (Py.or_nil (required_skills jd)) in
  let skills_missing := length (missing_skills sm) in
  let skills_additional := length (additional_skills sm) in
  let parsing_confidence := parsing_confidence resume * 100 in
  let matching_confidence :=
    match skill_matches sm with
    | [] => 50
    | ms => Py.mean (map match_confidence ms) * 100
    end in
  let overall_confidence := (parsing_confidence + matching_confidence) / 2 in
  mkDetailedScores
    (Py.round1 (hard_skills_score * 100))
    (Py.round1 (soft_skills_score * 100))
    (Py.round1 (experience_score * 100))
    (Py.round1 (education_score * 100))
    (Py.round1 (semantic_score * 100))
    (Py.round1 (Py.min technical_skills_score 100))
    (Py.round1 (Py.min domain_expertise_score 100))
    (Py.round1 (Py.min tools_platforms_score 100))
    (Py.round1 years_experience_score)
    (Py.round1 experience_relevance_score)
    (Py.round1 education_level_score)
    (Py.round1 education_relevance_score)
    skills_matched skills_required skills_missing skills_additional
    (Py.round1 parsing_confidence)
    (Py.round1 matching_confidence)
    (Py.round1 overall_confidence).

(** [_determine_suitability] *)
Definition _determine_suitability (overall_score : Q) (ds : DetailedScores)
  : string :=
  let base_suitability :=
    if Py.ge overall_score (high_score (thresholds self)) then "High"
    else if Py.ge overall_score (medium_score (thresholds self)) then "Medium"
    else "Low" in
  let base_suitability :=
    if (skills_matched_count ds <? skills_missing_count ds)%nat then
      if (base_suitability =? "High")%string then "Medium"
      else if (base_suitability =? "Medium")%string then "Low"
      else base_suitability
    else base_suitability in
  let base_suitability :=
    if Py.ge (experience_score ds) 90
       || Py.ge (hard_skills_score ds) 95
       || Py.ge (education_score ds) 90
    then
      if (base_suitability =? "Low")%string && Py.ge overall_score 50
      then "Medium" else base_suitability
    else base_suitability in
  let base_suitability :=
    if Py.lt (overall_confidence ds) 60 then
      if (base_suitability =? "High")%string then "Medium"
      else base_suitability
    else base_suitability in
  base_suitability.

(** [_calculate_confidence_level] *)
Definition confidence_factors
  (resume : ParsedResume) (ds : DetailedScores) : list Q :=
  [ ds_parsing_confidence ds / 100;
    matching_confidence ds / 100;
    Py.min (Py.of_nat (skills_matched_count ds)
            / Py.of_nat (Nat.max (skills_required_count ds) 1)) 1.0;
    if Py.truthy_opt (email (contact_info resume)) then 1.0 else 0.5;
    match work_experience resume with
    | None | Some [] => 0.3
    | Some _ => 1.0
    end ].

Definition _calculate_confidence_level
  (resume : ParsedResume) (sm : SemanticMatchResult) (ds : DetailedScores)
  : string :=
  let avg_confidence := Py.mean (confidence_factors resume ds) in
  if Py.ge avg_confidence 0.8 then "high"
  else if Py.ge avg_confidence 0.6 then "medium"
  else "low".

(** [calculate_comprehensive_score] *)
Definition calculate_comprehensive_score
  (resume : ParsedResume) (skill_profile : SkillProfile)
  (sm : SemanticMatchResult) (jd : ParsedJobDescription) : FinalScore :=
  let hard_skills_score := _calculate_hard_skills_score skill_profile sm jd in
  let soft_skills_score := _calculate_soft_skills_score skill_profile jd in
  let experience_score := _calculate_experience_score current_year resume jd in
  let education_score := _calculate_education_score resume jd in
  let semantic_score := _calculate_semantic_score sm in
  let overall_score :=
    (hard_skills_score * hard_skills (weights self)
     + soft_skills_score * soft_skills_weight (weights self)
     + experience_score * experience (weights self)
     + education_score * education_weight (weights self)
     + semantic_score * semantic_match (weights self)) * 100 in
  let detailed_scores :=
    _calculate_detailed_scores resume skill_profile sm jd
      hard_skills_score soft_skills_score experience_score education_score
      semantic_score in
  let suitability := _determine_suitability overall_score detailed_scores in
  let confidence_level :=
    _calculate_confidence_level resume sm detailed_scores in
  mkFinalScore (Py.round1 overall_score) detailed_scores suitability None
               confidence_level.

End Engine.

(** The scoring step of the pipeline (matching_service.py): build the
    engine with the given weights, then score. *)
Definition Score (settings : Settings) (current_year : Z)
  (resume : ParsedResume) (skill_profile : SkillProfile)
  (sm : SemanticMatchResult) (jd : ParsedJobDescription)
  (w : option ScoringWeights) : result FinalScore :=
  scoring_engine <- init settings w ;;
  Ok (calculate_comprehensive_score current_year scoring_engine
        resume skill_profile sm jd).

(** *** The hard-skills formula and the suitability rules as the
    specification words them *)

Definition is_critical (skill : string) : bool :=
  existsb (fun kw => Py.contains kw (Py.lower skill))
          ["required"; "must"; "essential"; "mandatory"].

Definition count_if (A : Type) (p : A -> bool) (l : list A) : nat :=
  length (filter p l).

Definition hard_skills_spec
  (diversity : Q) (matches : list SkillMatch) (missing required : list string)
  : Q :=
  let n := Py.of_nat (length required) in
  let base := Py.of_nat (count_if (fun m => Py.ge (match_confidence m) 0.70)
                                  matches) / n in
  let high := Py.of_nat (count_if (fun m => Py.ge (match_confidence m) 0.90)
                                  matches) / n in
  let critical := filter is_critical required in
  let missing_critical := count_if (fun s => Py.mem s missing) critical in
  let penalty :=
    match critical with
    | [] => 0
    | _ => 0.3 * (Py.of_nat missing_critical / Py.of_nat (length critical))
    end in
  Qmax 0 (Qmin 1 (base + 0.2 * diversity + 0.1 * high - penalty)).

Inductive Suitability : Type := High | Medium | Low.

Definition suitability_name (s : Suitability) : string :=
  match s with High => "High" | Medium => "Medium" | Low => "Low" end.

Definition threshold_suitability (t : Thresholds) (overall : Q) : Suitability :=
  if Qle_bool (high_score t) overall then High
  else if Qle_bool (medium_score t) overall then Medium
  else Low.

(** Adjustment 1: more missing than matched skills downgrades one level. *)
Definition downgrade_on_missing (ds : DetailedScores) (s : Suitability)
  : Suitability :=
  if (skills_matched_count ds <? skills_missing_count ds)%nat then
    match s with High => Medium | Medium => Low | Low => Low end
  else s.

(** Adjustment 2: an exceptional component lifts Low to Medium when
    overall is at least 50. *)
Definition upgrade_on_exceptional (overall : Q) (ds : DetailedScores)
  (s : Suitability) : Suitability :=
  if Qle_bool 90 (experience_score ds)
     || Qle_bool 95 (hard_skills_score ds)
     || Qle_bool 90 (education_score ds)
  then match s with
       | Low => if Qle_bool 50 overall then Medium else Low
       | _ => s
       end
  else s.

(** Adjustment 3: low overall confidence turns High into Medium. *)
Definition downgrade_on_confidence (ds : DetailedScores) (s : Suitability)
  : Suitability :=
  if Qle_bool 60 (overall_confidence ds) then s
  else match s with High => Medium | _ => s end.

Definition suitability_spec (t : Thresholds) (overall : Q)
  (ds : DetailedScores) : Suitability :=
  downgrade_on_confidence ds
    (upgrade_on_exceptional overall ds
       (downgrade_on_missing ds (threshold_suitability t overall))).

(** *** Ranges *)

(** A component score, between 0 and 1. *)
Definition unit_range (x : Q) : Prop := 0 <= x <= 1.

(** A presentation score, between 0 and 100. *)
Definition percent (x : Q) : Prop := 0 <= x <= 100.

(** The five component scores and the seven sub-component scores. *)
Definition scores_in_range (ds : DetailedScores) : Prop :=
  percent (hard_skills_score ds) /\ percent (soft_skills_score ds)
  /\ percent (experience_score ds) /\ percent (education_score ds)
  /\ percent (semantic_match_score ds)
  /\ percent (technical_skills_score ds)
  /\ percent (domain_expertise_score ds)
  /\ percent (tools_platforms_score ds)
  /\ percent (years_experience_score ds)
  /\ percent (experience_relevance_score ds)
  /\ percent (education_level_score ds)
  /\ percent (education_relevance_score ds).

(** What the data model promises about the inputs the engine reads as
    numbers: years of experience are not negative and the overall
    similarity lies in [0,1]. *)
Definition valid_inputs (resume : ParsedResume) (sm : SemanticMatchResult)
  : Prop :=
  (forall y, total_experience_years resume = Some y -> 0 <= y)
  /\ 0 <= overall_similarity sm <= 1.

(** Non-negative weights whose sum does not exceed 1. *)
Definition weights_within_unit (w : ScoringWeights) : Prop :=
  0 <= hard_skills w /\ 0 <= soft_skills_weight w /\ 0 <= experience w
  /\ 0 <= education_weight w /\ 0 <= semantic_match w
  /\ weights_total w <= 1.

(** [weights or ScoringWeights()] *)
Definition effective_weights (w : option ScoringWeights) : ScoringWeights :=
  match w with Some x => x | None => default_weights end.

End ScoringEngine.

(* ===================================================================== *)
(** ** The weights as the interpreter holds them (binary64) *)
(* ===================================================================== *)

(** Whether a set of weights is accepted turns on a tolerance test at the
    last bit of a rounded sum, so weight validation is embedded a second
    time with the weights as IEEE 754 binary64 values and the operations
    of the source ([+], [-], [abs], [>]) as the binary64 operations; a
    decimal literal denotes the nearest binary64 value, as in Python. *)
Module Binary64.

Import PrimFloat.
#[local] Set Warnings "-inexact-float".
Local Open Scope float_scope.

Record ScoringWeights : Type := mkScoringWeights {
  hard_skills : float;
  soft_skills : float;
  experience : float;
  education : float;
  semantic_match : float
}.

(** [ScoringWeights()] *)
Definition default_weights : ScoringWeights :=
  mkScoringWeights 0.35 0.15 0.25 0.15 0.10.

(** [self.hard_skills + self.soft_skills + self.experience
     + self.education + self.semantic_match]: added from left to right,
    every addition rounded. *)
Definition weights_total (w : ScoringWeights) : float :=
  hard_skills w + soft_skills w + experience w + education w
  + semantic_match w.

(** [abs(total - 1.0) > 0.01] *)
Definition out_of_tolerance (total : float) : bool :=
  0.01 <? abs (total - 1.0).

(** [ScoringWeights.validate] *)
Definition validate (w : ScoringWeights) : result unit :=
  let total := weights_total w in
  if out_of_tolerance total then Raise ValueError else Ok tt.

Record AdvancedScoringEngine : Type := mkEngine {
  weights : ScoringWeights;
  thresholds : ScoringEngine.Thresholds
}.

(** [AdvancedScoringEngine.__init__] *)
Definition init (settings : ScoringEngine.Settings)
  (w : option ScoringWeights) : result AdvancedScoringEngine :=
  let ws := match w with Some x => x | None => default_weights end in
  _ <- validate ws ;;
  Ok (mkEngine ws
        (ScoringEngine.mkThresholds
           (ScoringEngine.high_threshold settings)
           (ScoringEngine.medium_threshold settings)
           (ScoringEngine.low_threshold settings) 0.5%Q 0.8%Q)).

Section Score.

(** The result of scoring and [calculate_comprehensive_score], whatever
    they are in binary64. *)
Variable FinalScore : Type.
Variable calculate_comprehensive_score :
  AdvancedScoringEngine -> ParsedResume -> SkillProfile ->
  SemanticMatchResult -> ParsedJobDescription -> FinalScore.

(** The scoring step of the pipeline (matching_service.py): build the
    engine with the given weights, then score. *)
Definition Score (settings : ScoringEngine.Settings)
  (resume : ParsedResume) (skill_profile : SkillProfile)
  (sm : SemanticMatchResult) (jd : ParsedJobDescription)
  (w : option ScoringWeights) : result FinalScore :=
  scoring_engine <- init settings w ;;
  Ok (calculate_comprehensive_score scoring_engine resume skill_profile
        sm jd).

End Score.

(** The rational number a finite binary64 value stands for ([None] for
    an infinity or a NaN). *)
Definition exact (x : float) : option Q :=
  match FloatOps.Prim2SF x with
  | SpecFloat.S754_zero _ => Some 0%Q
  | SpecFloat.S754_finite s m e =>
      let v := (inject_Z (Z.pos m) * Qpower 2 e)%Q in
      Some (if s then (- v)%Q else v)
  | SpecFloat.S754_infinity _ | SpecFloat.S754_nan => None
  end.

(** The sum of the five weights in exact arithmetic. *)
Definition exact_total (w : ScoringWeights) : option Q :=
  match exact (hard_skills w), exact (soft_skills w), exact (experience w),
        exact (education w), exact (semantic_match w) with
  | Some a, Some b, Some c, Some d, Some e => Some (a + b + c + d + e)%Q
  | _, _, _, _, _ => None
  end.

End Binary64.

(* ===================================================================== *)
(** ** semantic_matcher.py *)
(* ===================================================================== *)

Module SemanticMatcher.

(** [xs.index(x)]: position of the first occurrence. *)
Fixpoint index_of (x : string) (xs : list string) : option nat :=
  match xs with
  | [] => None
  | y :: xs' =>
      if (y =? x)%string then Some 0%nat
      else option_map S (index_of x xs')
  end.

(** [max(items, key=...)]: the first item whose key is maximal. *)
Definition max_by (A : Type) (key : A -> Z) (items : list A) : option A :=
  fold_left (fun best x =>
               match best with
               | None => Some x
               | Some b => if (key b <? key x)%Z then Some x else Some b
               end) items None.

(** [np.argmax(row)]: the first index holding the largest value. *)
Fixpoint argmax_from (i best_i : nat) (best : Q) (row : list Q) : nat :=
  match row with
  | [] => best_i
  | x :: row' =>
      if Qlt_le_dec best x then argmax_from (S i) i x row'
      else argmax_from (S i) best_i best row'
  end.

Definition argmax (row : list Q) : nat :=
  match row with
  | [] => 0%nat
  | x :: row' => argmax_from 1 0 x row'
  end.

(** The loaded sentence-embedding model, seen through the one quantity
    the matcher reads off it: the cosine similarity of the embeddings of
    two strings. *)
Record SentenceTransformer : Type := mkSentenceTransformer {
  cosine : string -> string -> Q
}.

Section Matcher.

(** [fuzz.token_sort_ratio] as [process.extractOne] applies it to a
    query and a choice: an integer score. *)
Variable token_sort_ratio : string -> string -> Z.

(** [self.sentence_transformer] ([None] when loading the model failed). *)
Variable sentence_transformer : option SentenceTransformer.

(** TF-IDF cosine similarity of two texts (scikit-learn). *)
Variable tfidf_cosine : string -> string -> Q.

(** [process.extractOne(query, choices, scorer=...)] *)
Definition extractOne (query : string) (choices : list string)
  : option (string * Z) :=
  max_by snd (map (fun c => (c, token_sort_ratio query c)) choices).

(** [_exact_match_skills] *)
Definition _exact_match_skills (resume_skills jd_skills : list string)
  : list SkillMatch :=
  let resume_lower := map Py.lower resume_skills in
  flat_map
    (fun jd_skill =>
       let jd_skill_lower := Py.lower jd_skill in
       match index_of jd_skill_lower resume_lower with
       | Some i =>
           match nth_error resume_skills i with
           | Some r =>
               [mkSkillMatch jd_skill (Some r) jd_skill "exact" 1.0 None]
           | None => []
           end
       | None => []
       end)
    jd_skills.

(** [_fuzzy_match_skills] *)
Definition _fuzzy_match_skills (resume_skills jd_skills : list string)
  (threshold : Z) : list SkillMatch :=
  flat_map
    (fun jd_skill =>
       match extractOne jd_skill resume_skills with
       | Some (choice, score) =>
           if (threshold <=? score)%Z then
             let confidence := inject_Z score / 100.0 in
             [mkSkillMatch jd_skill (Some choice) jd_skill "fuzzy"
                           confidence None]
           else []
       | None => []
       end)
    jd_skills.

(** [_semantic_match_skills] *)
Definition _semantic_match_skills (resume_skills jd_skills : list string)
  (threshold : Q) : list SkillMatch :=
  match sentence_transformer with
  | None => []
  | Some model =>
      flat_map
        (fun jd_skill =>
           let row := map (cosine model jd_skill) resume_skills in
           let best_match_idx := argmax row in
           match nth_error row best_match_idx,
                 nth_error resume_skills best_match_idx with
           | Some best_similarity, Some r =>
               if Py.ge best_similarity threshold then
                 [mkSkillMatch jd_skill (Some r) jd_skill "semantic"
                               best_similarity (Some best_similarity)]
               else []
           | _, _ => []
           end)
        jd_skills
  end.

(** [[m.resume_skill for m in ms if m.resume_skill]] *)
Definition present_resume_skills (ms : list SkillMatch) : list string :=
  flat_map (fun m => match resume_skill m with
                     | Some s => if Py.truthy s then [s] else []
                     | None => []
                     end) ms.

Definition not_in (xs : list string) (s : string) : bool :=
  negb (Py.mem s xs).

(** [_match_skills_comprehensive] *)
Definition _match_skills_comprehensive (resume_skills jd_skills : list string)
  : list SkillMatch :=
  let exact_matches := _exact_match_skills resume_skills jd_skills in
  let matches := exact_matches in
  let matched_resume_skills := present_resume_skills exact_matches in
  let matched_jd_skills := map jd_skill exact_matches in
  let unmatched_resume := filter (not_in matched_resume_skills) resume_skills in
  let unmatched_jd := filter (not_in matched_jd_skills) jd_skills in
  let fuzzy_matches := _fuzzy_match_skills unmatched_resume unmatched_jd 85 in
  let matches := (matches ++ fuzzy_matches)%list in
  let unmatched_resume :=
    filter (not_in (present_resume_skills fuzzy_matches)) unmatched_resume in
  let unmatched_jd :=
    filter (not_in (map jd_skill fuzzy_matches)) unmatched_jd in
  match sentence_transformer, unmatched_resume, unmatched_jd with
  | Some _, _ :: _, _ :: _ =>
      (matches ++ _semantic_match_skills unmatched_resume unmatched_jd 0.7)%list
  | _, _, _ => matches
  end.

(** [_calculate_jaccard_similarity] *)
Definition _calculate_jaccard_similarity (list1 list2 : list string) : Q :=
  let set1 := ScoringEngine.set_of (map Py.lower list1) in
  let set2 := ScoringEngine.set_of (map Py.lower list2) in
  let intersection := length (ScoringEngine.intersection set1 set2) in
  let union := length (ScoringEngine.union set1 set2) in
  if (0 <? union)%nat then Py.of_nat intersection / Py.of_nat union else 0.0.

(** [_calculate_category_similarities] *)
Definition _calculate_category_similarities
  (resume_skills : SkillProfile) (jd : ParsedJobDescription)
  : list (string * Q) :=
  let resume_technical := map name (technical_skills resume_skills) in
  let jd_technical := Py.or_nil (required_skills jd) in
  let similarities :=
    match jd_technical with
    | [] => []
    | _ => [("technical",
             _calculate_jaccard_similarity resume_technical jd_technical)]
    end in
  let resume_tools := map name (tools_platforms resume_skills) in
  let jd_tools :=
    filter (fun skill => Py.contains "cloud" (Py.lower skill)
                         || Py.contains "tool" (Py.lower skill))
           (Py.or_nil (required_skills jd)) in
  match jd_tools with
  | [] => similarities
  | _ =>
      (similarities
       ++ [("tools",
            _calculate_jaccard_similarity resume_tools jd_tools)])%list
  end.

(** [_calculate_embedding_similarity] *)
Definition _calculate_embedding_similarity (resume_text jd_text : string) : Q :=
  match sentence_transformer with
  | None => 0.0
  | Some model =>
      cosine model (Py.slice resume_text 0 2000) (Py.slice jd_text 0 2000)
  end.

(** [_calculate_tfidf_similarity] *)
Definition _calculate_tfidf_similarity (resume_text jd_text : string) : Q :=
  tfidf_cosine resume_text jd_text.

(** [_calculate_overall_similarity] *)
Definition _calculate_overall_similarity
  (skill_matches : list SkillMatch) (total_required_skills : nat)
  (embedding_similarity text_similarity : Q) : Q :=
  let skill_component :=
    if (0 <? total_required_skills)%nat then
      let skill_score :=
        Py.of_nat (length skill_matches) / Py.of_nat total_required_skills in
      let weighted_skill_score :=
        Py.sum (map match_confidence skill_matches)
        / Py.of_nat total_required_skills in
      Py.min ((skill_score + weighted_skill_score) / 2) 1.0
    else 0.0 in
  let semantic_component := embedding_similarity in
  let text_component := text_similarity in
  let overall_score :=
    skill_component * 0.40 + semantic_component * 0.35
    + text_component * 0.25 in
  Py.min overall_score 1.0.

(** [match_resume_to_jd] *)
Definition all_resume_skill_names (resume_skills : SkillProfile)
  : list string :=
  (map name (technical_skills resume_skills)
   ++ map name (soft_skills resume_skills)
   ++ map name (domain_expertise resume_skills)
   ++ map name (tools_platforms resume_skills))%list.

Definition match_resume_to_jd
  (resume_skills : SkillProfile) (jd : ParsedJobDescription)
  (resume_text jd_text : string) : SemanticMatchResult :=
  let all_resume_skills := all_resume_skill_names resume_skills in
  let jd_required_skills := Py.or_nil (required_skills jd) in
  let jd_preferred_skills := Py.or_nil (preferred_skills jd) in
  let all_jd_skills := (jd_required_skills ++ jd_preferred_skills)%list in
  let skill_matches :=
    _match_skills_comprehensive all_resume_skills all_jd_skills in
  let matched_jd_skills := map jd_skill skill_matches in
  let missing_skills :=
    filter (not_in matched_jd_skills) jd_required_skills in
  let additional_skills :=
    filter (not_in (present_resume_skills skill_matches)) all_resume_skills in
  let category_similarities :=
    _calculate_category_similarities resume_skills jd in
  let embedding_similarity :=
    _calculate_embedding_similarity resume_text jd_text in
  let text_similarity := _calculate_tfidf_similarity resume_text jd_text in
  let overall_similarity :=
    _calculate_overall_similarity skill_matches (length jd_required_skills)
      embedding_similarity text_similarity in
  mkSemanticMatchResult overall_similarity skill_matches missing_skills
    additional_skills category_similarities embedding_similarity
    text_similarity.

End Matcher.

(** *** Overall similarity as the specification words it *)

Definition coverage (matches : list SkillMatch) (required : nat) : Q :=
  Py.of_nat (length matches) / Py.of_nat required.

Definition weighted_coverage (matches : list SkillMatch) (required : nat) : Q :=
  Py.sum (map match_confidence matches) / Py.of_nat required.

Definition skill_component_spec (matches : list SkillMatch) (required : nat)
  : Q :=
  match required with
  | O => 0
  | _ => Qmin 1 ((coverage matches required
                  + weighted_coverage matches required) / 2)
  end.

Definition overall_similarity_spec (matches : list SkillMatch)
  (required : nat) (embedding_similarity text_similarity : Q) : Q :=
  Qmin 1 (0.40 * skill_component_spec matches required
          + 0.35 * embedding_similarity + 0.25 * text_similarity).

(** What every matching tier guarantees about the matches it emits. *)
Definition grounded (resume_skills jd_skills : list string) (m : SkillMatch)
  : Prop :=
  In (jd_skill m) jd_skills
  /\ forall r, resume_skill m = Some r -> In r resume_skills.

End SemanticMatcher.

(* ===================================================================== *)
(** ** Regular expressions (the fragment of [re] the extractor uses) *)
(* ===================================================================== *)

Module Re.

(** Patterns with at most one capturing group that is read ([group(1)]);
    [Plus] is greedy and backtracks, [Alt] tries its left side first. *)
Inductive regex : Type :=
| Lit : string -> regex
| Class : (ascii -> bool) -> regex
| Cat : regex -> regex -> regex
| Alt : regex -> regex -> regex
| Opt : regex -> regex
| Plus : regex -> regex
| Group : regex -> regex
| WordB : regex.

(** [\w] on ASCII text. *)
Definition is_word (c : ascii) : bool :=
  let n := nat_of_ascii c in
  (((48 <=? n) && (n <=? 57)) || ((65 <=? n) && (n <=? 90))
   || ((97 <=? n) && (n <=? 122)) || (n =? 95))%nat.

Definition word_at (text : string) (pos : nat) : bool :=
  match get pos text with Some c => is_word c | None => false end.

(** [\b] *)
Definition at_boundary (text : string) (pos : nat) : bool :=
  let before := match pos with O => false | S p => word_at text p end in
  negb (Bool.eqb before (word_at text pos)).

Fixpoint lit_at (ignorecase : bool) (s text : string) (pos : nat) : bool :=
  match s with
  | EmptyString => true
  | String c s' =>
      match get pos text with
      | Some d =>
          (if ignorecase
           then Ascii.eqb (Py.lower_ascii c) (Py.lower_ascii d)
           else Ascii.eqb c d)
          && lit_at ignorecase s' text (S pos)
      | None => false
      end
  end.

(** Span of group 1, when it took part in the match. *)
Definition capture : Type := option (nat * nat).
Definition cont : Type := nat -> capture -> option (nat * capture).

Record re_match : Type := mkMatch {
  m_start : nat;
  m_end : nat;
  m_group1 : capture
}.

Section Match.

Variable ignorecase : bool.
Variable text : string.

(** Backtracking matcher in continuation-passing style: [run r pos g k]
    matches [r] at [pos] and hands the end position to [k]. *)
Fixpoint run (r : regex) (pos : nat) (g : capture) (k : cont) {struct r}
  : option (nat * capture) :=
  match r with
  | Lit s =>
      if lit_at ignorecase s text pos
      then k (pos + String.length s)%nat g else None
  | Class p =>
      match get pos text with
      | Some c => if p c then k (S pos) g else None
      | None => None
      end
  | Cat a b => run a pos g (fun pos' g' => run b pos' g' k)
  | Alt a b =>
      match run a pos g k with
      | Some res => Some res
      | None => run b pos g k
      end
  | Opt a =>
      match run a pos g k with
      | Some res => Some res
      | None => k pos g
      end
  | Plus a =>
      (fix loop (fuel : nat) (pos : nat) (g : capture) {struct fuel} :=
         match fuel with
         | O => None
         | S fuel' =>
             run a pos g
               (fun pos' g' =>
                  if (pos' <=? pos)%nat then None
                  else match loop fuel' pos' g' with
                       | Some res => Some res
                       | None => k pos' g'
                       end)
         end) (S (String.length text)) pos g
  | Group a => run a pos g (fun pos' _ => k pos' (Some (pos, pos')))
  | WordB => if at_boundary text pos then k pos g else None
  end.

(** Leftmost, non-overlapping matches from left to right. *)
Fixpoint scan (r : regex) (fuel pos : nat) : list re_match :=
  match fuel with
  | O => []
  | S fuel' =>
      if (String.length text <? pos)%nat then []
      else match run r pos None (fun e g => Some (e, g)) with
           | Some (e, g) =>
               mkMatch pos e g
               :: scan r fuel' (if (e <=? pos)%nat then S pos else e)
           | None => scan r fuel' (S pos)
           end
  end.

(** [re.finditer(pattern, text)] *)
Definition finditer (r : regex) : list re_match :=
  scan r (S (String.length text)) 0.

(** [match.group()] and [match.group(1)] *)
Definition group0 (m : re_match) : string :=
  substring (m_start m) (m_end m - m_start m) text.

Definition group1 (m : re_match) : string :=
  match m_group1 m with
  | Some (a, b) => substring a (b - a) text
  | None => EmptyString
  end.

(** [re.sub(pattern, repl, text)], the replacement computed per match. *)
Fixpoint sub_from (repl : re_match -> string) (ms : list re_match)
  (pos : nat) : string :=
  match ms with
  | [] => substring pos (String.length text - pos) text
  | m :: ms' =>
      (substring pos (m_start m - pos) text ++ repl m
       ++ sub_from repl ms' (m_end m))%string
  end.

Definition sub (r : regex) (repl : re_match -> string) : string :=
  sub_from repl (finditer r) 0.

(** [re.split(pattern, text)] for a pattern without groups. *)
Fixpoint split_from (ms : list re_match) (pos : nat) : list string :=
  match ms with
  | [] => [substring pos (String.length text - pos) text]
  | m :: ms' =>
      substring pos (m_start m - pos) text :: split_from ms' (m_end m)
  end.

Definition split (r : regex) : list string := split_from (finditer r) 0.

End Match.

(** [a|b|c] *)
Definition alts (xs : list string) : regex :=
  match xs with
  | [] => Lit ""
  | x :: rest => fold_left (fun r s => Alt r (Lit s)) rest (Lit x)
  end.

Definition Star (r : regex) : regex := Opt (Plus r).
Definition one_of (cs : list ascii) : regex :=
  Class (fun c => existsb (Ascii.eqb c) cs).
Definition none_of (cs : list ascii) : regex :=
  Class (fun c => negb (existsb (Ascii.eqb c) cs)).
Definition space : regex := Class Py.is_space.
Definition word : regex := Class is_word.

Fixpoint seq_of (rs : list regex) : regex :=
  match rs with
  | [] => Lit ""
  | [r] => r
  | r :: rs' => Cat r (seq_of rs')
  end.

End Re.

(* ===================================================================== *)
(** ** skill_extractor.py *)
(* ===================================================================== *)

Module SkillExtractor.

(** *** Python [dict]: insertion-ordered, assignment to a present key
    keeps its position *)

Section Dict.

Variables K V : Type.
Variable eqb : K -> K -> bool.

Fixpoint dict_get (k : K) (d : list (K * V)) : option V :=
  match d with
  | [] => None
  | (k', v) :: d' => if eqb k' k then Some v else dict_get k d'
  end.

Fixpoint dict_set (k : K) (v : V) (d : list (K * V)) : list (K * V) :=
  match d with
  | [] => [(k, v)]
  | (k', v') :: d' =>
      if eqb k' k then (k', v) :: d' else (k', v') :: dict_set k v d'
  end.

End Dict.

(** *** [_load_skill_database] *)

Definition skill_database : list (string * list (string * list string)) :=
  [("programming_languages",
    [ ("python", ["python"; "py"; "python3"]);
      ("javascript", ["javascript"; "js"; "ecmascript"; "es6"; "es2015"]);
      ("java", ["java"; "jvm"]);
      ("typescript", ["typescript"; "ts"]);
      ("c++", ["c++"; "cpp"; "c plus plus"]);
      ("c#", ["c#"; "csharp"; "c sharp"]);
      ("php", ["php"; "php7"; "php8"]);
      ("ruby", ["ruby"; "rb"]);
      ("go", ["go"; "golang"]);
      ("rust", ["rust"; "rust-lang"]);
      ("kotlin", ["kotlin"; "kt"]);
      ("swift", ["swift"; "swift5"]);
      ("scala", ["scala"]);
      ("r", ["r programming"; "r language"]);
      ("matlab", ["matlab"]);
      ("perl", ["perl"]);
      ("bash", ["bash"; "shell scripting"; "bash scripting"]);
      ("powershell", ["powershell"; "ps1"]) ]);
   ("web_technologies",
    [ ("react", ["react"; "reactjs"; "react.js"]);
      ("angular", ["angular"; "angularjs"; "angular2+"]);
      ("vue", ["vue"; "vue.js"; "vuejs"]);
      ("html", ["html"; "html5"]);
      ("css", ["css"; "css3"; "cascading style sheets"]);
      ("sass", ["sass"; "scss"]);
      ("less", ["less css"]);
      ("bootstrap", ["bootstrap"; "bootstrap4"; "bootstrap5"]);
      ("tailwind", ["tailwind"; "tailwindcss"]);
      ("jquery", ["jquery"; "jquery ui"]);
      ("node.js", ["node.js"; "nodejs"; "node js"]);
      ("express", ["express"; "express.js"; "expressjs"]);
      ("django", ["django"; "django rest framework"]);
      ("flask", ["flask"; "flask-restful"]);
      ("spring", ["spring"; "spring boot"; "spring framework"]);
      ("laravel", ["laravel"; "laravel framework"]);
      ("rails", ["ruby on rails"; "rails"; "ror"]) ]);
   ("databases",
    [ ("mysql", ["mysql"; "my sql"]);
      ("postgresql", ["postgresql"; "postgres"; "psql"]);
      ("mongodb", ["mongodb"; "mongo"]);
      ("redis", ["redis"]);
      ("elasticsearch", ["elasticsearch"; "elastic search"; "elk stack"]);
      ("oracle", ["oracle database"; "oracle db"]);
      ("sqlite", ["sqlite"; "sqlite3"]);
      ("cassandra", ["cassandra"; "apache cassandra"]);
      ("dynamodb", ["dynamodb"; "dynamo db"]);
      ("neo4j", ["neo4j"; "graph database"]);
      ("influxdb", ["influxdb"; "time series database"]) ]);
   ("cloud_platforms",
    [ ("aws", ["aws"; "amazon web services"; "ec2"; "s3"; "lambda"; "rds"]);
      ("azure", ["azure"; "microsoft azure"]);
      ("gcp", ["gcp"; "google cloud platform"; "google cloud"]);
      ("kubernetes", ["kubernetes"; "k8s"]);
      ("docker", ["docker"; "containerization"]);
      ("terraform", ["terraform"; "infrastructure as code"]);
      ("ansible", ["ansible"; "configuration management"]);
      ("jenkins", ["jenkins"; "ci/cd"]);
      ("gitlab", ["gitlab"; "gitlab ci"]);
      ("circleci", ["circleci"; "circle ci"]) ]);
   ("data_science",
    [ ("pandas", ["pandas"; "pd"]);
      ("numpy", ["numpy"; "np"]);
      ("scikit-learn", ["scikit-learn"; "sklearn"; "sci-kit learn"]);
      ("tensorflow", ["tensorflow"; "tf"]);
      ("pytorch", ["pytorch"; "torch"]);
      ("keras", ["keras"]);
      ("matplotlib", ["matplotlib"; "pyplot"]);
      ("seaborn", ["seaborn"; "sns"]);
      ("plotly", ["plotly"; "plotly dash"]);
      ("jupyter", ["jupyter"; "jupyter notebook"; "ipython"]);
      ("apache spark", ["spark"; "apache spark"; "pyspark"]);
      ("hadoop", ["hadoop"; "hdfs"]);
      ("tableau", ["tableau"]);
      ("power bi", ["power bi"; "powerbi"]);
      ("r shiny", ["shiny"; "r shiny"]) ]);
   ("mobile_development",
    [ ("ios", ["ios development"; "ios"; "iphone development"]);
      ("android", ["android development"; "android"]);
      ("react native", ["react native"; "react-native"]);
      ("flutter", ["flutter"; "dart"]);
      ("xamarin", ["xamarin"]);
      ("cordova", ["cordova"; "phonegap"]);
      ("ionic", ["ionic framework"; "ionic"]) ]);
   ("devops_tools",
    [ ("git", ["git"; "version control"; "github"; "gitlab"]);
      ("svn", ["svn"; "subversion"]);
      ("maven", ["maven"; "apache maven"]);
      ("gradle", ["gradle"]);
      ("webpack", ["webpack"; "module bundler"]);
      ("npm", ["npm"; "node package manager"]);
      ("yarn", ["yarn package manager"; "yarn"]);
      ("pip", ["pip"; "python package installer"]) ]);
   ("soft_skills",
    [ ("leadership", ["leadership"; "team leadership"; "leading teams"]);
      ("communication", ["communication"; "public speaking"; "presentation"]);
      ("problem solving",
       ["problem solving"; "analytical thinking"; "troubleshooting"]);
      ("project management",
       ["project management"; "agile"; "scrum"; "kanban"]);
      ("teamwork", ["teamwork"; "collaboration"; "cross-functional teams"]);
      ("adaptability", ["adaptability"; "flexibility"; "learning agility"]);
      ("time management",
       ["time management"; "organization"; "prioritization"]);
      ("creativity", ["creativity"; "innovation"; "creative thinking"]);
      ("critical thinking", ["critical thinking"; "analysis"; "evaluation"]);
      ("mentoring", ["mentoring"; "coaching"; "training others"]) ])].

(** [self.skill_lookup]: lowercase term -> (canonical name, category). *)
Definition lookup_table : Type := list (string * (string * string)).

Definition add_skill (category : string) (d : lookup_table)
  (entry : string * list string) : lookup_table :=
  let (skill, aliases) := entry in
  fold_left (fun d alias => dict_set String.eqb (Py.lower alias)
                                     (skill, category) d)
            aliases
            (dict_set String.eqb (Py.lower skill) (skill, category) d).

Definition add_category (d : lookup_table)
  (entry : string * list (string * list string)) : lookup_table :=
  let (category, skills) := entry in
  fold_left (add_skill category) skills d.

Definition build_lookup (db : list (string * list (string * list string)))
  : lookup_table :=
  fold_left add_category db [].

Definition skill_lookup : lookup_table := build_lookup skill_database.

(** *** [_preprocess_text] *)

Definition bullets : list string :=
  let utf8 (a b c : nat) :=
    String (ascii_of_nat a) (String (ascii_of_nat b)
      (String (ascii_of_nat c) EmptyString)) in
  [utf8 226 128 162; utf8 226 150 170; utf8 226 150 171;
   utf8 226 151 166]%nat.

Definition _preprocess_text (text : string) : string :=
  let text :=
    Re.sub true text (Re.Cat (Re.Group (Re.Plus Re.word)) (Re.Lit ".js"))
           (fun m => (Re.group1 text m ++ ".js")%string) in
  let text :=
    Re.sub false text (Re.Cat (Re.Group (Re.Plus Re.word)) (Re.Lit "JS"))
           (fun m => (Re.group1 text m ++ ".js")%string) in
  let text := Re.sub true text (Re.Lit "HTML5") (fun _ => "HTML") in
  let text := Re.sub true text (Re.Lit "CSS3") (fun _ => "CSS") in
  let text :=
    Re.sub false text
           (Re.Alt (Re.one_of [","%char; ";"%char; "|"%char]) (Re.alts bullets))
           (fun _ => " ") in
  let text := Re.sub false text (Re.Plus Re.space) (fun _ => " ") in
  Py.strip text.

(** *** [_extract_context] *)

Definition _extract_context (text skill : string) (position : option Z)
  : string :=
  let position :=
    match position with
    | Some p => p
    | None => Py.find (Py.lower text) (Py.lower skill)
    end in
  if (position =? -1)%Z then ""
  else
    let start := Z.max 0 (position - 50) in
    let stop := Z.min (Z.of_nat (String.length text))
                      (position + Z.of_nat (String.length skill) + 50) in
    Py.strip (Py.slice text start stop).

(** *** [_calculate_dictionary_confidence] *)

Definition skill_sections : list string :=
  ["skills"; "technologies"; "experience"; "projects"].

(** The test of the loop over [skill_sections] for one section. *)
Definition in_section_window (skill_term text section : string) : bool :=
  Py.contains section text
  && Py.contains skill_term
       (Py.slice text (Py.find text section) (Py.find text section + 200)).

Definition _calculate_dictionary_confidence (skill_term text : string) : Q :=
  let base_confidence := 0.8 in
  let count := Py.count text (Py.lower skill_term) in
  let base_confidence :=
    if (1 <? count)%nat
    then base_confidence + Py.min (0.1 * (Py.of_nat count - 1)) 0.2
    else base_confidence in
  let base_confidence :=
    if existsb (in_section_window skill_term text) skill_sections
    then base_confidence + 0.1
    else base_confidence in
  Py.min base_confidence 1.0.

(** *** [_extract_skills_dictionary] *)

Definition _extract_skills_dictionary (text : string) : list ExtractedSkill :=
  let text_lower := Py.lower text in
  flat_map
    (fun entry : string * (string * string) =>
       let '(skill_term, (canonical_name, category)) := entry in
       if Py.contains skill_term text_lower then
         let context := _extract_context text skill_term None in
         let confidence :=
           _calculate_dictionary_confidence skill_term text_lower in
         [mkExtractedSkill canonical_name category confidence context
                           None None]
       else [])
    skill_lookup.

(** *** [_extract_skills_patterns] *)

Definition bounded_group (names : list string) (suffix : Re.regex) : Re.regex :=
  Re.seq_of [Re.WordB; Re.Group (Re.alts names); suffix; Re.WordB].

Definition prog_patterns : list Re.regex :=
  [ bounded_group ["python"; "java"; "javascript"; "typescript"; "c++"; "c#";
                   "php"; "ruby"; "go"; "rust"] (Re.Lit "");
    bounded_group ["kotlin"; "swift"; "scala"; "matlab"; "perl"; "bash";
                   "powershell"] (Re.Lit "") ].

Definition framework_patterns : list Re.regex :=
  [ bounded_group ["react"; "angular"; "vue"] (Re.Opt (Re.Lit ".js"));
    bounded_group ["django"; "flask"; "spring"; "express"]
      (Re.Opt (Re.Cat (Re.Plus Re.space) (Re.alts ["boot"; "framework"])));
    bounded_group ["tensorflow"; "pytorch"; "keras"; "scikit-learn"]
      (Re.Lit "") ].

Definition pattern_hits (text : string) (confidence : Q)
  (patterns : list Re.regex) : list ExtractedSkill :=
  flat_map
    (fun pattern =>
       flat_map
         (fun m =>
            let skill_name := Py.lower (Re.group1 text m) in
            match dict_get String.eqb skill_name skill_lookup with
            | Some (canonical_name, category) =>
                let context :=
                  _extract_context text skill_name
                                   (Some (Z.of_nat (Re.m_start m))) in
                [mkExtractedSkill canonical_name category confidence context
                                  None None]
            | None => []
            end)
         (Re.finditer true text pattern))
    patterns.

Definition _extract_skills_patterns (text : string) : list ExtractedSkill :=
  (pattern_hits text 0.9 prog_patterns
   ++ pattern_hits text 0.85 framework_patterns)%list.

(** *** [_extract_skills_nlp] *)

(** The spaCy pipeline, seen through what the extractor reads from a
    parsed document: the texts of its noun chunks and its named entities
    with their labels. *)
Record Language : Type := mkLanguage {
  noun_chunks : string -> list string;
  ents : string -> list (string * string)
}.

Definition lookup_hit (text phrase : string) (confidence : Q)
  : list ExtractedSkill :=
  match dict_get String.eqb phrase skill_lookup with
  | Some (canonical_name, category) =>
      [mkExtractedSkill canonical_name category confidence
                        (_extract_context text phrase None) None None]
  | None => []
  end.

Definition _extract_skills_nlp (nlp : option Language) (text : string)
  : list ExtractedSkill :=
  match nlp with
  | None => []
  | Some model =>
      (flat_map
         (fun chunk =>
            let phrase_text := Py.strip (Py.lower chunk) in
            if (3 <? length (Py.split phrase_text))%nat
               || (String.length phrase_text <? 3)%nat
            then []
            else lookup_hit text phrase_text 0.75)
         (noun_chunks model text)
       ++
       flat_map
         (fun ent : string * string =>
            let (ent_raw, label) := ent in
            if Py.mem label ["ORG"; "PRODUCT"]
            then lookup_hit text (Py.strip (Py.lower ent_raw)) 0.70
            else [])
         (ents model text))%list
  end.

(** *** [_extract_skills_contextual] *)

Definition newline : ascii := "010"%char.

Definition in_or_with (head : string) (first second : string) : Re.regex :=
  Re.Cat (Re.Lit head) (Re.alts [first; second]).

Definition plural (stem : string) : Re.regex :=
  Re.Cat (Re.Lit stem) (Re.Opt (Re.Lit "s")).

Definition skill_indicators : list Re.regex :=
  [ Re.seq_of
      [ Re.Alt (Re.Alt (Re.Alt (in_or_with "experience " "with" "in")
                               (in_or_with "proficient " "in" "with"))
                       (in_or_with "skilled " "in" "with"))
               (in_or_with "expertise " "in" "with");
        Re.Plus Re.space;
        Re.Group (Re.Plus (Re.none_of [","%char; "."%char; newline])) ];
    Re.seq_of
      [ Re.alts ["technologies:"; "skills:"; "tools:"];
        Re.Star Re.space;
        Re.Group (Re.Plus (Re.none_of ["."%char; newline])) ];
    Re.seq_of
      [ Re.alts ["worked with"; "used"; "implemented"; "developed using"];
        Re.Plus Re.space;
        Re.Group (Re.Plus (Re.none_of [","%char; "."%char; newline])) ];
    Re.seq_of
      [ Re.Alt (Re.Alt (Re.Alt (plural "programming language")
                               (plural "technologie"))
                       (plural "framework"))
               (plural "tool");
        Re.Lit ":";
        Re.Star Re.space;
        Re.Group (Re.Plus (Re.none_of ["."%char; newline])) ] ].

Definition _extract_skills_contextual (text : string) : list ExtractedSkill :=
  flat_map
    (fun pattern =>
       flat_map
         (fun m =>
            let skill_text := Py.strip (Re.group1 text m) in
            let potential_skills :=
              Re.split false skill_text
                (Re.one_of [","%char; ";"%char; "|"%char; "&"%char]) in
            flat_map
              (fun potential_skill =>
                 let clean_skill := Py.lower (Py.strip potential_skill) in
                 match dict_get String.eqb clean_skill skill_lookup with
                 | Some (canonical_name, category) =>
                     [mkExtractedSkill canonical_name category 0.80
                                       skill_text None None]
                 | None => []
                 end)
              potential_skills)
         (Re.finditer true text pattern))
    skill_indicators.

(** *** [_deduplicate_skills] *)

Definition skill_key : Type := (string * string)%type.

Definition key_eqb (a b : skill_key) : bool :=
  (fst a =? fst b)%string && (snd a =? snd b)%string.

Definition key_of (skill : ExtractedSkill) : skill_key :=
  (Py.lower (name skill), category skill).

Definition dedup_step (skill_dict : list (skill_key * ExtractedSkill))
  (skill : ExtractedSkill) : list (skill_key * ExtractedSkill) :=
  let key := key_of skill in
  match dict_get key_eqb key skill_dict with
  | None => dict_set key_eqb key skill skill_dict
  | Some kept =>
      if Py.gt (confidence skill) (confidence kept)
      then dict_set key_eqb key skill skill_dict
      else skill_dict
  end.

Definition _deduplicate_skills (skills : list ExtractedSkill)
  : list ExtractedSkill :=
  map snd (fold_left dedup_step skills []).

(** *** [_categorize_skills] *)

(** The bucket a skill is appended to. *)
Definition bucket_of (skill : ExtractedSkill) : string :=
  if (category skill =? "soft_skills")%string then "soft_skills"
  else if Py.mem (category skill) ["cloud_platforms"; "devops_tools"]
  then "tools_platforms"
  else if Py.mem (category skill) ["data_science"; "mobile_development"]
  then "domain_expertise"
  else "technical_skills".

Definition bucket_names : list string :=
  ["technical_skills"; "soft_skills"; "domain_expertise"; "tools_platforms"].

Definition _categorize_skills (skills : list ExtractedSkill)
  : list (string * list ExtractedSkill) :=
  map (fun bucket =>
         (bucket, filter (fun skill => (bucket_of skill =? bucket)%string)
                         skills))
      bucket_names.

(** [categorized_skills[key]] *)
Definition bucket (categorized : list (string * list ExtractedSkill))
  (key : string) : list ExtractedSkill :=
  match dict_get String.eqb key categorized with
  | Some skills => skills
  | None => []
  end.

(** *** [_extract_certifications] *)

Definition certified : Re.regex := Re.alts ["Certified"; "Certification"].

Definition cert_patterns : list Re.regex :=
  [ Re.seq_of [ Re.alts ["AWS"; "Azure"; "Google Cloud"; "GCP"];
                Re.Plus Re.space; certified ];
    Re.seq_of [ Re.alts ["PMP"; "CISSP"; "CISM"; "CISA"];
                Re.Star Re.space; Re.Opt certified ];
    Re.seq_of [ Re.alts ["Scrum Master"; "Product Owner"; "Agile"];
                Re.Star Re.space; certified ];
    Re.seq_of [ Re.alts ["Oracle"; "Microsoft"; "Cisco"; "CompTIA"];
                Re.Plus Re.space; Re.Plus Re.word; Re.Star Re.space;
                certified ] ].

Definition _extract_certifications (text : string) : list string :=
  flat_map (fun pattern =>
              map (fun m => Py.strip (Re.group0 text m))
                  (Re.finditer true text pattern))
           cert_patterns.

(** *** [_build_skill_profile] *)

Definition _build_skill_profile
  (categorized_skills : list (string * list ExtractedSkill))
  (original_text : string) : SkillProfile :=
  let skill_categories :=
    map (fun entry : string * list ExtractedSkill =>
           (fst entry, map name (snd entry)))
        categorized_skills in
  let total_categories :=
    length (filter (fun entry : string * list string =>
                      match snd entry with [] => false | _ => true end)
                   skill_categories) in
  let max_categories := 4 in
  let diversity_score :=
    Py.min (Py.of_nat total_categories / max_categories) 1.0 in
  let certifications := _extract_certifications original_text in
  mkSkillProfile
    (bucket categorized_skills "technical_skills")
    (bucket categorized_skills "soft_skills")
    (bucket categorized_skills "domain_expertise")
    (bucket categorized_skills "tools_platforms")
    certifications
    skill_categories
    (fold_left Nat.add (map (fun entry => length (snd entry))
                            categorized_skills) 0%nat)
    diversity_score.

(** *** [extract_skills] *)

Definition extract_skills (nlp : option Language) (text : string)
  : SkillProfile :=
  let cleaned_text := _preprocess_text text in
  let extracted_skills :=
    (_extract_skills_dictionary cleaned_text
     ++ _extract_skills_patterns cleaned_text
     ++ _extract_skills_nlp nlp cleaned_text
     ++ _extract_skills_contextual cleaned_text)%list in
  let unique_skills := _deduplicate_skills extracted_skills in
  let categorized_skills := _categorize_skills unique_skills in
  _build_skill_profile categorized_skills text.

(** All skills of a profile, bucket after bucket. *)
Definition profile_skills (p : SkillProfile) : list ExtractedSkill :=
  (technical_skills p ++ soft_skills p ++ domain_expertise p
   ++ tools_platforms p)%list.

(** Every entry of the deduplication dictionary is stored under the key of
    its skill. *)
Definition keyed (d : list (skill_key * ExtractedSkill)) : Prop :=
  Forall (fun e => fst e = key_of (snd e)) d.

(** Membership in one bucket of [_categorize_skills]. *)
Definition in_bucket (b : string) (skill : ExtractedSkill) : bool :=
  (bucket_of skill =? b)%string.

(** Every (category, canonical name, term) of the dictionary, a term being
    the canonical name itself or one of its aliases. *)
Definition database_terms : list (string * string * string) :=
  flat_map
    (fun cat : string * list (string * list string) =>
       flat_map
         (fun entry : string * list string =>
            map (fun term => (fst cat, fst entry, term))
                (fst entry :: snd entry))
         (snd cat))
    skill_database.

Definition term_eqb (a b : string * string * string) : bool :=
  let '(a1, a2, a3) := a in
  let '(b1, b2, b3) := b in
  ((a1 =? b1) && (a2 =? b2) && (a3 =? b3))%string.

(** The one term of the dictionary listed under two entries: gitlab, a
    canonical name of cloud_platforms and an alias of git. *)
Definition gitlab_term : string * string * string :=
  ("cloud_platforms", "gitlab", "gitlab").

(** Is [s] the skill that the dictionary entry [c] names? *)
Definition reported_as (c : string * string * string) (s : ExtractedSkill)
  : bool :=
  ((name s =? snd (fst c)) && (category s =? fst (fst c)))%string.

(** Does the dictionary strategy, run on the text that consists of just
    the term of [c], report the skill of [c]?  The colliding term is set
    aside. *)
Definition closure_check (c : string * string * string) : bool :=
  if term_eqb c gitlab_term then true
  else existsb (reported_as c)
               (_extract_skills_dictionary (_preprocess_text (snd c))).

(** Name and category of each skill of a profile. *)
Definition names_and_categories (p : SkillProfile) : list (string * string) :=
  map (fun s => (name s, category s)) (profile_skills p).

(** Number of non-empty buckets of a profile. *)
Definition nonempty_buckets (p : SkillProfile) : nat :=
  length (filter (fun l : list ExtractedSkill =>
                    match l with [] => false | _ => true end)
                 [technical_skills p; soft_skills p; domain_expertise p;
                  tools_platforms p]).

(** *** The dictionary confidence as the specification words it, with the
    per-occurrence boost left as a parameter *)

Definition occurrence_boost (per_occurrence : Q) (skill_term text : string)
  : Q :=
  Qmin 0.20
       (per_occurrence * Py.of_nat (Py.count text (Py.lower skill_term) - 1)).

(** A mention inside the 200 characters that start at the first
    occurrence of a section keyword. *)
Definition mention_in_window (skill_term text : string) : bool :=
  existsb (fun section =>
             match Py.find text section with
             | Zneg _ => false
             | start => Py.contains skill_term
                          (Py.slice text start (start + 200))
             end)
          ["skills"; "technologies"; "experience"; "projects"].

Definition dictionary_confidence_spec (per_occurrence : Q)
  (skill_term text : string) : Q :=
  Qmin 1.0 (0.80 + occurrence_boost per_occurrence skill_term text
            + (if mention_in_window skill_term text then 0.10 else 0)).

End SkillExtractor.

(* ===================================================================== *)
(** ** jd_parser.py *)
(* ===================================================================== *)

Module JobDescriptionParser.

(** [_clean_text] *)
Definition kept_punctuation : list ascii :=
  ["."; ","; ";"; ":"; "!"; "?"; "-"; "("; ")"]%char.

Definition _clean_text (text : string) : string :=
  let text := Re.sub false text (Re.Plus Re.space) (fun _ => " ") in
  let text :=
    Re.sub false text
      (Re.Class (fun c => negb (Re.is_word c || Py.is_space c
                                || existsb (Ascii.eqb c) kept_punctuation)))
      (fun _ => " ") in
  Py.strip text.

(** [_determine_urgency] *)
Definition urgent_keywords : list string :=
  ["urgent"; "immediate"; "asap"; "immediately"; "critical"].

Definition high_keywords : list string :=
  ["fast-paced"; "quickly"; "soon"; "rapid"].

Definition _determine_urgency (text : string) : string :=
  let text_lower := Py.lower text in
  if Py.any_in urgent_keywords text_lower then "high"
  else if Py.any_in high_keywords text_lower then "medium"
  else "low".

(** The [urgency_level] that [parse] stores for a raw posting. *)
Definition parsed_urgency_level (raw_content : string) : string :=
  _determine_urgency (_clean_text raw_content).

(** The rule as the specification words it, over given keyword sets. *)
Definition urgency_spec (high_set medium_set : list string) (text : string)
  : string :=
  if existsb (fun k => Py.contains k (Py.lower text)) high_set then "high"
  else if existsb (fun k => Py.contains k (Py.lower text)) medium_set
  then "medium"
  else "low".

End JobDescriptionParser.

(* ===================================================================== *)
(** ** Concrete inputs used to exercise the statements *)
(* ===================================================================== *)

Module Samples.

Import ScoringEngine.

Definition skill (n c : string) (conf : Q) : ExtractedSkill :=
  mkExtractedSkill n c conf "" None None.

Definition profile : SkillProfile :=
  mkSkillProfile [skill "python" "programming_languages" 0.9] [] [] []
                 [] [("technical_skills", ["python"]); ("soft_skills", []);
                     ("domain_expertise", []); ("tools_platforms", [])]
                 1 0.25.

Definition jd (required : list string) : ParsedJobDescription :=
  mkParsedJobDescription "Backend Engineer" "Acme" None None None None None
    None None None None (Some required) None None None None false "low" "".

Definition contact : ContactInfo :=
  mkContactInfo None (Some "a@b.io") None None None None None.

Definition resume : ParsedResume :=
  mkParsedResume contact None None None None None None None None None
                 "python" 1.0.

Definition exact (s : string) : SkillMatch :=
  mkSkillMatch s (Some s) s "exact" 1.0 None.

Definition semantic_match : SemanticMatchResult :=
  mkSemanticMatchResult 1.0 [exact "python"] [] [] [] 1.0 1.0.

(** Weights inside the accepted band whose sum exceeds 1. *)
Definition heavy_weights : ScoringWeights :=
  mkScoringWeights 1.0 0.008 0 0 0.

Definition this_year : Z := 2026.

Import PrimFloat.
#[local] Set Warnings "-inexact-float".

(** [heavy_weights] as the binary64 values its literals denote. *)
Definition heavy_weights64 : Binary64.ScoringWeights :=
  Binary64.mkScoringWeights 1.0 0.008 0 0 0.

End Samples.

(* ===================================================================== *)
(** ** feedback_generator.py (the parts that read the score and the
    match result) *)
(* ===================================================================== *)

Module FeedbackGenerator.

Import ScoringEngine.

(** [_extract_top_strengths] *)
Definition _extract_top_strengths (final_score : FinalScore) : list string :=
  let detailed := detailed_scores final_score in
  let strengths :=
    ((if Py.ge (hard_skills_score detailed) 80
      then ["strong technical skills"] else [])
     ++ (if Py.ge (experience_score detailed) 80
         then ["relevant experience"] else [])
     ++ (if Py.ge (education_score detailed) 80
         then ["solid educational background"] else [])
     ++ (if Py.ge (soft_skills_score detailed) 80
         then ["good interpersonal skills"] else [])
     ++ (if Py.ge (semantic_match_score detailed) 80
         then ["excellent job alignment"] else []))%list in
  match strengths with
  | [] => ["general qualifications"]
  | _ => strengths
  end.

(** [_get_learning_resource] *)
Definition resource_map : list (string * string) :=
  [("python", "Codecademy Python Course, Real Python tutorials");
   ("java", "Oracle Java Tutorials, Coursera Java Specialization");
   ("javascript", "MDN Web Docs, freeCodeCamp JavaScript curriculum");
   ("react", "React Official Tutorial, Scrimba React Course");
   ("aws", "AWS Training and Certification, A Cloud Guru");
   ("docker", "Docker Official Documentation, Docker Mastery course");
   ("kubernetes", "Kubernetes.io tutorials, CNCF training");
   ("machine learning", "Coursera ML Course, Kaggle Learn");
   ("data science", "DataCamp, edX Data Science MicroMasters");
   ("project management", "PMI certification, Coursera Project Management")].

Definition _get_learning_resource (skill : string) : string :=
  let skill_lower := Py.lower skill in
  match find (fun kr => Py.contains (fst kr) skill_lower) resource_map with
  | Some (_, resource) => resource
  | None => "Online courses on platforms like Coursera, Udemy, or Pluralsight"
  end.

(** [_analyze_skill_gaps]; the result dictionary in the order of its
    keys. *)
Definition _analyze_skill_gaps (sm : SemanticMatchResult)
  (jd : ParsedJobDescription) : list (string * list string) :=
  let required_skills := Py.or_nil (required_skills jd) in
  let preferred_skills := Py.or_nil (preferred_skills jd) in
  let critical_missing :=
    filter (fun skill => Py.mem skill required_skills) (missing_skills sm) in
  let nice_to_have :=
    filter (fun skill => negb (Py.mem skill required_skills)
                         && Py.mem skill preferred_skills)
           (missing_skills sm) in
  let learning_resources :=
    flat_map (fun skill =>
                let resource := _get_learning_resource skill in
                if Py.truthy resource
                then [(skill ++ ": " ++ resource)%string] else [])
             (firstn 3 (missing_skills sm)) in
  let alternative_skills :=
    map (fun additional_skill =>
           (additional_skill ++ " - leverage this existing skill")%string)
        (firstn 2 (additional_skills sm)) in
  [("critical_missing", critical_missing);
   ("nice_to_have", nice_to_have);
   ("learning_resources", learning_resources);
   ("alternative_skills", alternative_skills)].

(** [skill_gaps[key]] *)
Definition gap (gaps : list (string * list string)) (key : string)
  : list string :=
  match SkillExtractor.dict_get String.eqb key gaps with
  | Some l => l
  | None => []
  end.

End FeedbackGenerator.

(* ===================================================================== *)
(** ** schemas/matching.py and the weight set-up of matching_service.py *)
(* ===================================================================== *)

Module CustomWeights.

Import ScoringEngine.

(** A [Dict[str, float]] in insertion order. *)
Definition weight_dict : Type := list (string * Q).

Definition allowed_keys : list string :=
  ["hard_skills"; "soft_skills"; "experience"; "education"; "semantic_match"].

(** [EvaluationRequest.validate_weights], [sum(v.values())] and the test
    in exact arithmetic. *)
Definition validate_weights (v : option weight_dict)
  : result (option weight_dict) :=
  match v with
  | None => Ok None
  | Some d =>
      if negb (forallb (fun key => Py.mem key allowed_keys) (map fst d))
      then Raise ValueError
      else if negb (forallb (fun kv : string * Q =>
                               Py.ge (snd kv) 0 && Py.ge 1 (snd kv)) d)
      then Raise ValueError
      else if Qlt_le_dec 0.01 (Qabs (Py.sum (map snd d) - 1.0))
      then Raise ValueError
      else Ok (Some d)
  end.

(** What configuring the engine can raise: the [TypeError] of a keyword
    argument that is not a field of the dataclass, or an exception of the
    engine itself. *)
Inductive config_exn : Type :=
| UnexpectedKeyword : string -> config_exn
| EngineError : exn -> config_exn.

(** The fields of the dataclass [ScoringWeights]. *)
Definition field_names : list string :=
  ["hard_skills"; "soft_skills"; "experience"; "education"; "semantic_match"].

(** A constructor argument: the value given under the keyword, the
    default of the field otherwise. *)
Definition field (d : weight_dict) (key : string) (default : Q) : Q :=
  match SkillExtractor.dict_get String.eqb key d with
  | Some x => x
  | None => default
  end.

(** [ScoringWeights] applied to the keyword arguments of the dictionary. *)
Definition weights_from_dict (d : weight_dict)
  : config_exn + ScoringWeights :=
  match find (fun key => negb (Py.mem key field_names)) (map fst d) with
  | Some key => inl (UnexpectedKeyword key)
  | None =>
      inr (mkScoringWeights
             (field d "hard_skills" 0.35) (field d "soft_skills" 0.15)
             (field d "experience" 0.25) (field d "education" 0.15)
             (field d "semantic_match" 0.10))
  end.

(** [_run_matching_pipeline], from "Configure scoring weights" to the
    engine: an empty dictionary is falsy, like [None]. *)
Definition configure_weights (custom_weights : option weight_dict)
  : config_exn + ScoringWeights :=
  match custom_weights with
  | Some (e :: d) => weights_from_dict (e :: d)
  | _ => inr default_weights
  end.

Definition scoring_engine (settings : Settings)
  (custom_weights : option weight_dict)
  : config_exn + AdvancedScoringEngine :=
  match configure_weights custom_weights with
  | inl e => inl e
  | inr weights =>
      match init settings (Some weights) with
      | Ok engine => inr engine
      | Raise e => inl (EngineError e)
      end
  end.

(** The value stored under [key], 0 when absent. *)
Definition value_at (d : weight_dict) (key : string) : Q := field d key 0.

End CustomWeights.

(* ===================================================================== *)
(** ** resume_parser.py (the total years of experience) *)
(* ===================================================================== *)

Module ResumeParser.

(** [\d] on ASCII text, and [int] on a string of digits. *)
Definition is_digit (c : ascii) : bool :=
  let n := nat_of_ascii c in ((48 <=? n) && (n <=? 57))%nat.

Definition digit (c : ascii) : Z := Z.of_nat (nat_of_ascii c - 48).

Fixpoint int_from (acc : Z) (s : string) : Z :=
  match s with
  | EmptyString => acc
  | String c s' => int_from (acc * 10 + digit c) s'
  end.

Definition int (s : string) : Z := int_from 0 s.

(** [(19|20)\d{2}] *)
Definition year_pattern : Re.regex :=
  Re.seq_of [Re.alts ["19"; "20"]; Re.Class is_digit; Re.Class is_digit].

(** [_extract_year_from_date] *)
Definition _extract_year_from_date (date_str : option string) : option Z :=
  match date_str with
  | None => None
  | Some d =>
      if negb (Py.truthy d) || (Py.lower d =? "present")%string then None
      else
        match Re.finditer false d year_pattern with
        | year_match :: _ => Some (int (Re.group0 d year_match))
        | [] => None
        end
  end.

Section Clock.

(** [datetime.now().year] *)
Variable current_year : Z.

(** The body of the loop over the work experience; an [int] is truthy
    when it is not zero. *)
Definition add_months (total_months : Z) (exp : WorkExperience) : Z :=
  let start_year := _extract_year_from_date (start_date exp) in
  let end_year :=
    ScoringEngine.or_int (_extract_year_from_date (end_date exp))
                         current_year in
  match start_year with
  | Some start_year =>
      if negb (start_year =? 0)%Z && negb (end_year =? 0)%Z then
        let years_diff := (end_year - start_year)%Z in
        (total_months + Z.max 0 (years_diff * 12))%Z
      else total_months
  | None => total_months
  end.

(** [_calculate_total_experience] *)
Definition _calculate_total_experience (work_experience : list WorkExperience)
  : option Q :=
  match work_experience with
  | [] => None
  | _ =>
      let total_months := fold_left add_months work_experience 0%Z in
      if (0 <? total_months)%Z
      then Some (Py.round1 (inject_Z total_months / 12))
      else None
  end.

End Clock.

End ResumeParser.

(* ===================================================================== *)
(** ** jd_parser.py (the skills read off a job description) *)
(* ===================================================================== *)

Module JobSkills.

(** [str.upper] and [str.title] on ASCII text: [title] starts every run of
    letters with a capital and lowers the rest of it. *)
Definition is_lower (c : ascii) : bool :=
  let n := nat_of_ascii c in ((97 <=? n) && (n <=? 122))%nat.

Definition is_upper (c : ascii) : bool :=
  let n := nat_of_ascii c in ((65 <=? n) && (n <=? 90))%nat.

Definition upper_ascii (c : ascii) : ascii :=
  if is_lower c then ascii_of_nat (nat_of_ascii c - 32) else c.

Fixpoint upper (s : string) : string :=
  match s with
  | EmptyString => EmptyString
  | String c s' => String (upper_ascii c) (upper s')
  end.

Fixpoint title_from (previous_is_cased : bool) (s : string) : string :=
  match s with
  | EmptyString => EmptyString
  | String c s' =>
      if is_lower c || is_upper c then
        String (if previous_is_cased then Py.lower_ascii c
                else upper_ascii c)
               (title_from true s')
      else String c (title_from false s')
  end.

Definition title (s : string) : string := title_from false s.

(** [JobDescriptionParser.__init__]: the keyword sets. *)
Definition programming_languages : list string :=
  ["python"; "java"; "javascript"; "typescript"; "c++"; "c#"; "php";
   "ruby"; "go"; "rust"; "kotlin"; "swift"; "scala"; "r"; "matlab";
   "perl"; "bash"; "powershell"].

Definition frameworks_libraries : list string :=
  ["react"; "angular"; "vue"; "django"; "flask"; "spring"; "express";
   "node.js"; "tensorflow"; "pytorch"; "pandas"; "numpy"; "scipy";
   "bootstrap"; "jquery"; "laravel"; "rails"].

Definition databases : list string :=
  ["mysql"; "postgresql"; "mongodb"; "redis"; "elasticsearch";
   "oracle"; "sqlite"; "cassandra"; "dynamodb"; "neo4j"].

Definition cloud_tools : list string :=
  ["aws"; "azure"; "gcp"; "google cloud"; "kubernetes"; "docker";
   "jenkins"; "ansible"; "terraform"; "chef"; "puppet"].

(** A [set] of strings kept as a duplicate-free list; [skills.add(x)]. *)
Definition set_add (x : string) (skills : list string) : list string :=
  if Py.mem x skills then skills else (skills ++ [x])%list.

(** One loop of [_extract_required_skills]: every keyword found in the
    text adds its display form. *)
Definition add_found (combined_text : string) (test display : string -> string)
  (keywords skills : list string) : list string :=
  fold_left (fun skills keyword =>
               if Py.contains (test keyword) combined_text
               then set_add (display keyword) skills else skills)
            keywords skills.

Section SetOrder.

(** [list(skills)]: the elements of the set in the order in which Python
    happens to iterate over it, which the language leaves open. *)
Variable list_of_set : list string -> list string.

(** [_extract_required_skills] *)
Definition _extract_required_skills (text : string)
  (requirements : list string) : list string :=
  let combined_text := Py.lower text in
  let combined_text :=
    match requirements with
    | [] => combined_text
    | _ => (combined_text ++ " "
            ++ Py.lower (Py.join " " requirements))%string
    end in
  let skills := [] in
  let skills :=
    add_found combined_text (fun lang => lang) title
              programming_languages skills in
  let skills :=
    add_found combined_text Py.lower (fun framework => framework)
              frameworks_libraries skills in
  let skills :=
    add_found combined_text (fun db => db)
              (fun db => if (String.length db <=? 3)%nat then upper db
                         else title db)
              databases skills in
  let skills :=
    add_found combined_text Py.lower
              (fun tool => if Py.mem (Py.lower tool) ["aws"; "gcp"]
                           then upper tool else title tool)
              cloud_tools skills in
  list_of_set skills.

End SetOrder.

End JobSkills.

(* ===================================================================== *)
(** ** Notions used to state the properties *)
(* ===================================================================== *)

Module Notions.

Import ScoringEngine.

(** low < medium < high *)
Definition confidence_rank (level : string) : nat :=
  if (level =? "high")%string then 2
  else if (level =? "medium")%string then 1
  else 0.

(** The categories of the skill dictionary. *)
Definition known_categories : list string :=
  ["programming_languages"; "web_technologies"; "databases";
   "cloud_platforms"; "data_science"; "mobile_development"; "devops_tools";
   "soft_skills"].

(** The skill is an entry of the reverse lookup. *)
Definition listed (s : ExtractedSkill) : Prop :=
  In (name s, category s) (map snd SkillExtractor.skill_lookup).

(** The confidence a strategy may assign. *)
Definition confident (s : ExtractedSkill) : Prop :=
  0.7 <= confidence s <= 1.

(** Two skill names equal up to letter case. *)
Definition same_skill (a b : string) : Prop := Py.lower a = Py.lower b.

(** [candidate_years] and [required_years] as the years score reads
    them. *)
Definition candidate_years (resume : ParsedResume) : Q :=
  or_float (total_experience_years resume) 0.

Definition required_years (jd : ParsedJobDescription) : Q :=
  inject_Z (or_int (required_experience_years jd) 2).

(** The resume names an email and at least one work entry. *)
Definition has_email (resume : ParsedResume) : Prop :=
  Py.truthy_opt (email (contact_info resume)) = true.

Definition has_work (resume : ParsedResume) : Prop :=
  match work_experience resume with
  | None | Some [] => False
  | Some _ => True
  end.

(** Sample inputs. *)
Definition senior_resume : ParsedResume :=
  mkParsedResume Samples.contact None None None
    (Some [mkWorkExperience "Backend Engineer" "Acme" None None
                            (Some "Present") None None None None])
    None None None None (Some 6) "python" 1.0.

Definition long_job : WorkExperience :=
  mkWorkExperience "Backend Engineer" "Acme" None (Some "March 2018")
                   (Some "Present") None None None None.

Definition parsed_resume : ParsedResume :=
  mkParsedResume Samples.contact None None None (Some [long_job])
                 None None None None (Some 8.0) "python" 1.0.

Definition phd : Education :=
  mkEducation (Some "PhD in Computer Science") None None None None None None.

Definition constant_model : SemanticMatcher.SentenceTransformer :=
  SemanticMatcher.mkSentenceTransformer (fun _ _ => 0.5).

Definition python_skill : ExtractedSkill :=
  mkExtractedSkill "python" "programming_languages" 0.9 "python" None None.

Definition default_engine : AdvancedScoringEngine :=
  mkEngine default_weights (mkThresholds 80.0 60.0 40.0 0.5 0.8).

Definition strong_scores : DetailedScores :=
  mkDetailedScores 90 85 80 80 85 80 80 80 100 70 100 70 3 3 0 1 100 100 100.

End Notions.

(* ===================================================================== *)
(** * Properties *)
(* ===================================================================== *)

Unset Implicit Arguments.

(** ** Facts about the built-ins *)

Module PyFacts.

Lemma min_cases (a b : Q) :
  (b < a /\ Py.min a b = b) \/ (a <= b /\ Py.min a b = a).
Proof.
  unfold Py.min. destruct (Qlt_le_dec b a); [left | right]; split; auto.
Qed.

Lemma max_cases (a b : Q) :
  (a < b /\ Py.max a b = b) \/ (b <= a /\ Py.max a b = a).
Proof.
  unfold Py.max. destruct (Qlt_le_dec a b); [left | right]; split; auto.
Qed.

Lemma ge_Qle_bool (x y : Q) : Py.ge x y = Qle_bool y x.
Proof.
  unfold Py.ge. destruct (Qlt_le_dec x y) as [H | H].
  - symmetry. apply not_true_is_false. intro E.
    apply Qle_bool_iff in E. apply (Qlt_not_le _ _ H E).
  - symmetry. apply Qle_bool_iff. exact H.
Qed.

Lemma lt_Qle_bool (x y : Q) : Py.lt x y = negb (Qle_bool y x).
Proof.
  unfold Py.lt. destruct (Qlt_le_dec x y) as [H | H].
  - symmetry. apply negb_true_iff. apply not_true_is_false. intro E.
    apply Qle_bool_iff in E. apply (Qlt_not_le _ _ H E).
  - symmetry. apply negb_false_iff. apply Qle_bool_iff. exact H.
Qed.

Lemma ge_compat (x y y' : Q) : y == y' -> Py.ge x y = Py.ge x y'.
Proof. intros E. rewrite !ge_Qle_bool. rewrite E. reflexivity. Qed.

Lemma of_nat_nonneg (n : nat) : 0 <= Py.of_nat n.
Proof.
  unfold Py.of_nat. change 0 with (inject_Z 0). rewrite <- Zle_Qle. lia.
Qed.

Lemma of_nat_pos (n : nat) : (0 < n)%nat -> 0 < Py.of_nat n.
Proof.
  intros H. unfold Py.of_nat. change 0 with (inject_Z 0).
  rewrite <- Zlt_Qlt. lia.
Qed.

Lemma of_nat_le (n m : nat) : (n <= m)%nat -> Py.of_nat n <= Py.of_nat m.
Proof. intros H. unfold Py.of_nat. rewrite <- Zle_Qle. lia. Qed.

Lemma of_nat_pred (n : nat) :
  (1 <= n)%nat -> Py.of_nat (n - 1) == Py.of_nat n - 1.
Proof.
  intros H. unfold Py.of_nat.
  replace (Z.of_nat (n - 1)) with (Z.of_nat n - 1)%Z by lia.
  unfold Zminus. rewrite inject_Z_plus. reflexivity.
Qed.

(** A ratio of counts [k / n] with [k <= n]. *)
Lemma ratio_bounds (k n : nat) :
  (k <= n)%nat -> 0 <= Py.of_nat k / Py.of_nat n <= 1.
Proof.
  intros H. destruct n as [| n].
  - assert (k = 0%nat) by lia. subst. vm_compute. split; discriminate.
  - assert (Hn : 0 < Py.of_nat (S n)) by (apply of_nat_pos; lia).
    split.
    + apply Qle_shift_div_l; [exact Hn |]. rewrite Qmult_0_l.
      apply of_nat_nonneg.
    + apply Qle_shift_div_r; [exact Hn |]. rewrite Qmult_1_l.
      apply of_nat_le. exact H.
Qed.

Lemma ratio_nonneg (k n : nat) : 0 <= Py.of_nat k / Py.of_nat n.
Proof.
  destruct n as [| n].
  - unfold Qdiv. change (/ Py.of_nat 0) with 0. rewrite Qmult_0_r.
    apply Qle_refl.
  - apply Qle_shift_div_l; [apply of_nat_pos; lia |]. rewrite Qmult_0_l.
    apply of_nat_nonneg.
Qed.

Lemma filter_length_le (A : Type) (p : A -> bool) (l : list A) :
  (length (filter p l) <= length l)%nat.
Proof.
  induction l as [| x l IH]; simpl; [lia |]. destruct (p x); simpl; lia.
Qed.

End PyFacts.

(** Case analysis on every [min]/[max] of the goal and of the hypotheses;
    what is left is linear arithmetic. *)
Ltac split_py_min a b :=
  let x := fresh "m" in
  let H := fresh "Hm" in
  pose proof (PyFacts.min_cases a b) as H;
  set (x := Py.min a b) in *; clearbody x;
  destruct H as [[? ?] | [? ?]]; subst x.

Ltac split_py_max a b :=
  let x := fresh "m" in
  let H := fresh "Hm" in
  pose proof (PyFacts.max_cases a b) as H;
  set (x := Py.max a b) in *; clearbody x;
  destruct H as [[? ?] | [? ?]]; subst x.

Ltac split_qmin a b :=
  let x := fresh "m" in
  let H := fresh "Hm" in
  pose proof (Q.min_spec a b) as H;
  set (x := Qmin a b) in *; clearbody x;
  destruct H as [[? ?] | [? ?]].

Ltac split_qmax a b :=
  let x := fresh "m" in
  let H := fresh "Hm" in
  pose proof (Q.max_spec a b) as H;
  set (x := Qmax a b) in *; clearbody x;
  destruct H as [[? ?] | [? ?]].

(** Division by a literal becomes multiplication by its inverse, which
    linear arithmetic understands. *)
Ltac div_consts :=
  unfold Qdiv in *;
  repeat match goal with
    | |- context [/ (Qmake ?n ?d)] =>
        let v := eval vm_compute in (/ (Qmake n d)) in
        lazymatch v with
        | Qmake _ _ => change (/ (Qmake n d)) with v in *
        end
    | _ : context [/ (Qmake ?n ?d)] |- _ =>
        let v := eval vm_compute in (/ (Qmake n d)) in
        lazymatch v with
        | Qmake _ _ => change (/ (Qmake n d)) with v in *
        end
    end.

Ltac qlra := div_consts; lra.

Ltac minmax :=
  repeat match goal with
    | |- context [Py.min ?a ?b] => split_py_min a b
    | _ : context [Py.min ?a ?b] |- _ => split_py_min a b
    | |- context [Py.max ?a ?b] => split_py_max a b
    | _ : context [Py.max ?a ?b] |- _ => split_py_max a b
    | |- context [Qmin ?a ?b] => split_qmin a b
    | _ : context [Qmin ?a ?b] |- _ => split_qmin a b
    | |- context [Qmax ?a ?b] => split_qmax a b
    | _ : context [Qmax ?a ?b] |- _ => split_qmax a b
    end.

(** ** Weight validation *)

Module WeightValidation.

Import PrimFloat.
#[local] Set Warnings "-inexact-float".

(** C1 (as the code has it). Weight validation in binary64: with total
    the five weights added from left to right in binary64, building the
    engine raises InvalidWeights, and scoring with those weights raises it
    too so that no FinalScore is produced, exactly when the binary64 test
    abs(total - 1.0) > 0.01 holds; in every other case validation succeeds
    and the engine is built with those weights. *)
Theorem weights_validation
  (settings : ScoringEngine.Settings) (w : Binary64.ScoringWeights)
  (FinalScore : Type)
  (calculate_comprehensive_score :
     Binary64.AdvancedScoringEngine -> ParsedResume -> SkillProfile ->
     SemanticMatchResult -> ParsedJobDescription -> FinalScore)
  (resume : ParsedResume) (profile : SkillProfile)
  (sm : SemanticMatchResult) (jd : ParsedJobDescription) :
  (Binary64.out_of_tolerance (Binary64.weights_total w) = true ->
   Binary64.init settings (Some w) = Raise InvalidWeights
   /\ Binary64.Score calculate_comprehensive_score settings resume profile
        sm jd (Some w) = Raise InvalidWeights
   /\ forall fs,
        Binary64.Score calculate_comprehensive_score settings resume
          profile sm jd (Some w) <> Ok fs)
  /\ (Binary64.out_of_tolerance (Binary64.weights_total w) = false ->
      Binary64.validate w = Ok tt
      /\ exists engine,
           Binary64.init settings (Some w) = Ok engine
           /\ Binary64.weights engine = w).
Proof.
  split; intros H.
  - assert (E : Binary64.init settings (Some w) = Raise InvalidWeights).
    { unfold Binary64.init, Binary64.validate. rewrite H. reflexivity. }
    unfold Binary64.Score. rewrite E. simpl.
    repeat split; try reflexivity. intros fs. discriminate.
  - assert (E : Binary64.validate w = Ok tt).
    { unfold Binary64.validate. rewrite H. reflexivity. }
    split; [exact E |].
    unfold Binary64.init. rewrite E. simpl. eexists. split; reflexivity.
Qed.

(** C1 as claimed fails at the tolerance: the weights 0.36, 0.15, 0.25,
    0.15, 0.10 sum to a total within 0.01 of 1, whether they are read as
    the decimals written (the sum is 1.01) or as the binary64 values these
    denote (the sum is a little less), and yet validation raises: the
    rounded total is the binary64 value nearest to 1.01, which lies above
    it, and its distance from 1.0 exceeds the binary64 value of 0.01. *)
Lemma weights_within_tolerance_refused :
  let w := Binary64.mkScoringWeights 0.36 0.15 0.25 0.15 0.10 in
  Qabs (ScoringEngine.weights_total
          (ScoringEngine.mkScoringWeights 0.36 0.15 0.25 0.15 0.10) - 1.0)
  <= 0.01
  /\ (exists total,
        Binary64.exact_total w = Some total
        /\ Qabs (total - 1.0) <= 0.01)
  /\ Binary64.weights_total w = 1.01%float
  /\ Binary64.validate w = Raise InvalidWeights
  /\ Binary64.init ScoringEngine.default_settings (Some w)
     = Raise InvalidWeights.
Proof.
  cbv zeta. split; [vm_compute; discriminate |].
  split; [| repeat split; vm_compute; reflexivity].
  eexists. split; [vm_compute; reflexivity |]. vm_compute. discriminate.
Qed.

Lemma weights_validation_witness :
  (Binary64.out_of_tolerance
     (Binary64.weights_total
        (Binary64.mkScoringWeights 0.5 0.5 0.5 0.5 0.5)) = true
   /\ (Binary64.init ScoringEngine.default_settings
         (Some (Binary64.mkScoringWeights 0.5 0.5 0.5 0.5 0.5))
       = Raise InvalidWeights
       /\ Binary64.Score (fun _ _ _ _ _ => tt)
            ScoringEngine.default_settings Samples.resume Samples.profile
            Samples.semantic_match (Samples.jd ["python"])
            (Some (Binary64.mkScoringWeights 0.5 0.5 0.5 0.5 0.5))
          = Raise InvalidWeights
       /\ forall fs,
            Binary64.Score (fun _ _ _ _ _ => tt)
              ScoringEngine.default_settings Samples.resume Samples.profile
              Samples.semantic_match (Samples.jd ["python"])
              (Some (Binary64.mkScoringWeights 0.5 0.5 0.5 0.5 0.5))
            <> Ok fs))
  /\ (Binary64.out_of_tolerance
        (Binary64.weights_total Binary64.default_weights) = false
      /\ (Binary64.validate Binary64.default_weights = Ok tt
          /\ exists engine,
               Binary64.init ScoringEngine.default_settings
                 (Some Binary64.default_weights) = Ok engine
               /\ Binary64.weights engine = Binary64.default_weights)).
Proof.
  split.
  - split; [vm_compute; reflexivity |].
    apply (proj1 (weights_validation
                    ScoringEngine.default_settings
                    (Binary64.mkScoringWeights 0.5 0.5 0.5 0.5 0.5)
                    unit (fun _ _ _ _ _ => tt) Samples.resume Samples.profile
                    Samples.semantic_match (Samples.jd ["python"]))).
    vm_compute. reflexivity.
  - split; [vm_compute; reflexivity |].
    apply (proj2 (weights_validation
                    ScoringEngine.default_settings
                    Binary64.default_weights
                    unit (fun _ _ _ _ _ => tt) Samples.resume Samples.profile
                    Samples.semantic_match (Samples.jd ["python"]))).
    vm_compute. reflexivity.
Defined.

End WeightValidation.

(** ** Scoring engine *)

Module ScoringEngineProps.

Import ScoringEngine.

(** C5. Hard-skills component: with no required skills the score is
    exactly 0.5; otherwise it is
    max(0, min(1, base + 0.2*diversity + 0.1*high/|required|
                  - 0.3*missing_critical/|critical|)),
    where base counts the matches of confidence >= 0.70 over |required|,
    high counts those of confidence >= 0.90, a required skill is critical
    iff its (lowercased) text contains one of required, must, essential,
    mandatory, and the penalty is 0 when no skill is critical. *)
Theorem hard_skills_formula
  (profile : SkillProfile) (sm : SemanticMatchResult)
  (jd : ParsedJobDescription) :
  _calculate_hard_skills_score profile sm jd ==
  match Py.or_nil (required_skills jd) with
  | [] => 0.5
  | required =>
      hard_skills_spec (skill_diversity_score profile) (skill_matches sm)
                       (missing_skills sm) required
  end.
Proof.
  unfold _calculate_hard_skills_score, Py.or_nil.
  destruct (required_skills jd) as [[| r rs] |]; try reflexivity.
  unfold hard_skills_spec, count_if, _identify_critical_skills.
  change (0 <? length (r :: rs))%nat with true. cbv iota.
  change (filter (fun skill => Py.any_in critical_keywords (Py.lower skill)))
    with (filter is_critical).
  rewrite (filter_ext (fun m => Py.ge (match_confidence m) 0.70)
                      (fun m => Py.ge (match_confidence m) 0.7))
    by (intros m; apply PyFacts.ge_compat; reflexivity).
  rewrite (filter_ext (fun m => Py.ge (match_confidence m) 0.90)
                      (fun m => Py.ge (match_confidence m) 0.9))
    by (intros m; apply PyFacts.ge_compat; reflexivity).
  set (n := Py.of_nat (length (r :: rs))).
  set (base := Py.of_nat _ / n).
  set (high := Py.of_nat _ / n).
  set (d := skill_diversity_score profile).
  destruct (filter is_critical (r :: rs)) as [| c cs] eqn:Ecrit.
  - minmax; lra.
  - set (pen := Py.of_nat _ / Py.of_nat _).
    minmax; lra.
Qed.

(** C6. Suitability: the threshold verdict (High when overall >= high
    threshold, else Medium when overall >= medium threshold, else Low)
    followed, in this order, by (1) a one-level downgrade when more skills
    are missing than matched, (2) Low becoming Medium when overall >= 50
    and experience >= 90 or hard skills >= 95 or education >= 90, and
    (3) High becoming Medium when overall confidence < 60. *)
Theorem suitability_rules
  (self : AdvancedScoringEngine) (overall : Q) (ds : DetailedScores) :
  _determine_suitability self overall ds
  = suitability_name (suitability_spec (thresholds self) overall ds).
Proof.
  unfold _determine_suitability, suitability_spec, threshold_suitability,
    downgrade_on_missing, upgrade_on_exceptional, downgrade_on_confidence.
  rewrite !PyFacts.ge_Qle_bool, PyFacts.lt_Qle_bool.
  destruct (Qle_bool (high_score (thresholds self)) overall);
    destruct (Qle_bool (medium_score (thresholds self)) overall);
    destruct (skills_matched_count ds <? skills_missing_count ds)%nat;
    destruct (Qle_bool 90 (experience_score ds));
    destruct (Qle_bool 95 (hard_skills_score ds));
    destruct (Qle_bool 90 (education_score ds));
    destruct (Qle_bool 50 overall);
    destruct (Qle_bool 60 (overall_confidence ds));
    reflexivity.
Qed.

End ScoringEngineProps.

(** ** Semantic matcher *)

Module SemanticMatcherProps.

Import SemanticMatcher.

Lemma mem_In (x : string) (xs : list string) :
  Py.mem x xs = true <-> In x xs.
Proof.
  unfold Py.mem. rewrite existsb_exists. split.
  - intros [y [Hy E]]. apply String.eqb_eq in E. subst. exact Hy.
  - intros H. exists x. split; [exact H | apply String.eqb_refl].
Qed.

Lemma not_in_spec (xs : list string) (s : string) :
  not_in xs s = true <-> ~ In s xs.
Proof.
  unfold not_in. rewrite negb_true_iff. rewrite <- mem_In.
  destruct (Py.mem s xs); split; intros H; try discriminate; auto.
  exfalso. apply H. reflexivity.
Qed.

Lemma max_by_In (A : Type) (key : A -> Z) (items : list A) (x : A) :
  max_by key items = Some x -> In x items.
Proof.
  unfold max_by.
  assert (G : forall (l : list A) (best : option A),
             fold_left (fun best x =>
                          match best with
                          | None => Some x
                          | Some b => if (key b <? key x)%Z then Some x
                                      else Some b
                          end) l best = Some x ->
             best = Some x \/ In x l).
  { induction l as [| y l IH]; simpl; intros best H; [left; exact H |].
    apply IH in H. destruct H as [H | H]; [| right; right; exact H].
    destruct best as [b |].
    - destruct (key b <? key y)%Z; inversion H; subst; auto.
    - inversion H; subst; auto. }
  intros H. apply G in H. destruct H as [H | H]; [discriminate | exact H].
Qed.

Lemma grounded_incl (rs rs' js js' : list string) (m : SkillMatch) :
  incl rs rs' -> incl js js' -> grounded rs js m -> grounded rs' js' m.
Proof.
  intros Hr Hj [H1 H2]. split; [apply Hj, H1 |].
  intros r E. apply Hr, H2, E.
Qed.

Section Tiers.

Variable token_sort_ratio : string -> string -> Z.
Variable sentence_transformer : option SentenceTransformer.

Lemma exact_grounded (rs js : list string) (m : SkillMatch) :
  In m (_exact_match_skills rs js) -> grounded rs js m.
Proof.
  unfold _exact_match_skills. rewrite in_flat_map.
  intros [j [Hj Hm]].
  destruct (index_of (Py.lower j) (map Py.lower rs)) as [i |];
    [| contradiction].
  destruct (nth_error rs i) as [r |] eqn:E; [| contradiction].
  destruct Hm as [Hm | []]. subst m. split; simpl; [exact Hj |].
  intros r' Hr. inversion Hr; subst. eapply nth_error_In, E.
Qed.

Lemma fuzzy_grounded (rs js : list string) (threshold : Z) (m : SkillMatch) :
  In m (_fuzzy_match_skills token_sort_ratio rs js threshold) ->
  grounded rs js m.
Proof.
  unfold _fuzzy_match_skills. rewrite in_flat_map.
  intros [j [Hj Hm]].
  destruct (extractOne token_sort_ratio j rs) as [[c score] |] eqn:E;
    [| contradiction].
  destruct (threshold <=? score)%Z; [| contradiction].
  destruct Hm as [Hm | []]. subst m. split; simpl; [exact Hj |].
  intros r' Hr. inversion Hr; subst.
  unfold extractOne in E. apply max_by_In in E.
  apply in_map_iff in E. destruct E as [c [Ec Hc]].
  inversion Ec; subst. exact Hc.
Qed.

Lemma semantic_grounded (rs js : list string) (threshold : Q)
  (m : SkillMatch) :
  In m (_semantic_match_skills sentence_transformer rs js threshold) ->
  grounded rs js m.
Proof.
  unfold _semantic_match_skills.
  destruct sentence_transformer as [model |]; [| contradiction].
  rewrite in_flat_map. intros [j [Hj Hm]].
  destruct (nth_error (map (cosine model j) rs) _) as [best |];
    [| contradiction].
  destruct (nth_error rs _) as [r |] eqn:E; [| contradiction].
  destruct (Py.ge best threshold); [| contradiction].
  destruct Hm as [Hm | []]. subst m. split; simpl; [exact Hj |].
  intros r' Hr. inversion Hr; subst. eapply nth_error_In, E.
Qed.

Lemma comprehensive_grounded (rs js : list string) (m : SkillMatch) :
  In m (_match_skills_comprehensive token_sort_ratio sentence_transformer
          rs js) ->
  grounded rs js m.
Proof.
  unfold _match_skills_comprehensive.
  set (exact := _exact_match_skills rs js).
  set (ur := filter _ rs). set (uj := filter _ js).
  set (fuzzy := _fuzzy_match_skills token_sort_ratio ur uj 85).
  set (ur' := filter _ ur). set (uj' := filter _ uj).
  assert (Iur : incl ur rs) by (intros x Hx; apply filter_In in Hx; tauto).
  assert (Iuj : incl uj js) by (intros x Hx; apply filter_In in Hx; tauto).
  assert (Iur' : incl ur' rs).
  { intros x Hx. apply filter_In in Hx. apply Iur. tauto. }
  assert (Iuj' : incl uj' js).
  { intros x Hx. apply filter_In in Hx. apply Iuj. tauto. }
  assert (Base : In m (exact ++ fuzzy)%list -> grounded rs js m).
  { intros H. apply in_app_or in H. destruct H as [H | H].
    - apply exact_grounded, H.
    - apply (grounded_incl _ _ _ _ _ Iur Iuj). eapply fuzzy_grounded, H. }
  destruct sentence_transformer as [model |] eqn:Est; [| exact Base].
  destruct ur' as [| r0 ur0]; [exact Base |].
  destruct uj' as [| j0 uj0]; [exact Base |].
  intros H. apply in_app_or in H. destruct H as [H | H]; [auto |].
  apply (grounded_incl _ _ _ _ _ Iur' Iuj'). rewrite <- Est in H.
  eapply semantic_grounded, H.
Qed.

End Tiers.

(** C3 (as the code has it). Match set laws, for every skill profile and
    parsed job description (and whatever the fuzzy scorer, the embedding
    model and the TF-IDF similarity return): (1) the resume_skill of every
    match, when present, is one of the resume's skill names; (2) the
    jd_skill of every match is a required or a preferred skill; (3) no
    missing skill is the jd_skill of a match; (4) no additional skill with
    a non-empty name is the resume_skill of a match: the only skill that
    can be both is the one named by the empty string. *)
Theorem match_set_laws
  (token_sort_ratio : string -> string -> Z)
  (sentence_transformer : option SentenceTransformer)
  (tfidf_cosine : string -> string -> Q)
  (profile : SkillProfile) (jd : ParsedJobDescription)
  (resume_text jd_text : string) :
  let r := match_resume_to_jd token_sort_ratio sentence_transformer
             tfidf_cosine profile jd resume_text jd_text in
  (forall m s, In m (skill_matches r) -> resume_skill m = Some s ->
               In s (all_resume_skill_names profile))
  /\ (forall m, In m (skill_matches r) ->
                In (jd_skill m) (Py.or_nil (required_skills jd)
                                 ++ Py.or_nil (preferred_skills jd))%list)
  /\ (forall s, In s (missing_skills r) ->
                ~ In s (map jd_skill (skill_matches r)))
  /\ (forall s m, In s (additional_skills r) -> In m (skill_matches r) ->
                  resume_skill m = Some s -> s = EmptyString).
Proof.
  cbv zeta. unfold match_resume_to_jd. cbn [skill_matches missing_skills
                                            additional_skills].
  repeat split.
  - intros m s Hm Hs. apply comprehensive_grounded in Hm.
    destruct Hm as [_ Hm]. apply Hm, Hs.
  - intros m Hm. apply comprehensive_grounded in Hm. apply Hm.
  - intros s Hs. apply filter_In in Hs. destruct Hs as [_ Hs].
    apply not_in_spec in Hs. exact Hs.
  - intros s m Hs Hm E. apply filter_In in Hs. destruct Hs as [_ Hs].
    apply not_in_spec in Hs.
    destruct s as [| c s']; [reflexivity |].
    exfalso. apply Hs. unfold present_resume_skills.
    apply in_flat_map. exists m. split; [exact Hm |].
    rewrite E. simpl. left. reflexivity.
Qed.

(** C3 as claimed fails in law (4) when a skill is named by the empty
    string: the exact tier matches the required skill with the resume
    skill of that name, the code leaves an empty resume_skill out of the
    matched resume skills ([if m.resume_skill]), and the resume skill is
    reported additional although a match holds it as its resume_skill. *)
Lemma additional_skill_also_matched :
  let profile :=
    mkSkillProfile [Samples.skill EmptyString "programming_languages" 0.9]
                   [] [] [] [] [] 1 0.25 in
  let r := match_resume_to_jd (fun _ _ => 0%Z) None (fun _ _ => 0)
             profile (Samples.jd [EmptyString]) "resume" "posting" in
  skill_matches r
  = [mkSkillMatch EmptyString (Some EmptyString) EmptyString "exact" 1.0
                  None]
  /\ additional_skills r = [EmptyString].
Proof.
  cbv zeta. split; reflexivity.
Qed.

(** C4. Overall similarity is
    min(1, 0.40*skill_component + 0.35*embedding + 0.25*text), where
    skill_component = min(1, (coverage + weighted_coverage)/2),
    coverage = |matches|/|required|,
    weighted_coverage = (sum of confidences)/|required|, and
    skill_component = 0 when there is no required skill. *)
Theorem overall_similarity_formula
  (matches : list SkillMatch) (required : nat)
  (embedding_similarity text_similarity : Q) :
  _calculate_overall_similarity matches required
    embedding_similarity text_similarity
  == overall_similarity_spec matches required
       embedding_similarity text_similarity.
Proof.
  unfold _calculate_overall_similarity, overall_similarity_spec,
    skill_component_spec, coverage, weighted_coverage.
  destruct required as [| n].
  - change (0 <? 0)%nat with false. cbv iota. minmax; lra.
  - change (0 <? S n)%nat with true. cbv iota.
    set (a := Py.of_nat (length matches) / _).
    set (b := Py.sum _ / _).
    minmax; lra.
Qed.

End SemanticMatcherProps.

(** ** Job-description parser *)

Module JobDescriptionParserProps.

Import JobDescriptionParser.

Lemma prefix_app_l (a b s : string) :
  prefix (a ++ b) s = true -> prefix a s = true.
Proof.
  revert s. induction a as [| c a IH]; intros s H;
    [destruct s; reflexivity |].
  destruct s as [| d s]; simpl in *; [discriminate |].
  destruct (ascii_dec c d); [apply IH, H | discriminate].
Qed.

(** A text that contains a phrase contains each of its prefixes. *)
Lemma contains_app_l (a b s : string) :
  Py.contains (a ++ b) s = true -> Py.contains a s = true.
Proof.
  induction s as [| d s IH]; cbn [Py.contains]; intros H.
  - destruct (prefix (a ++ b) "") eqn:E; [| discriminate H].
    rewrite (prefix_app_l a b _ E). reflexivity.
  - destruct (prefix (a ++ b) (String d s)) eqn:E.
    + rewrite (prefix_app_l a b _ E). reflexivity.
    + destruct (prefix a (String d s)); [reflexivity | apply IH, H].
Qed.

(** C9 (as the code has it). The urgency of a text is "high" when its
    lowercased form contains one of urgent, immediate, asap, critical;
    otherwise "medium" when it contains one of fast-paced, quickly, soon,
    rapid; otherwise "low".  The medium set includes "soon". *)
Theorem urgency_rule (text : string) :
  _determine_urgency text
  = urgency_spec ["urgent"; "immediate"; "asap"; "critical"]
                 ["fast-paced"; "quickly"; "soon"; "rapid"] text.
Proof.
  unfold _determine_urgency, urgency_spec, Py.any_in, urgent_keywords,
    high_keywords.
  cbn [existsb].
  destruct (Py.contains "immediately" (Py.lower text)) eqn:E.
  - rewrite (contains_app_l "immediate" "ly" _ E).
    rewrite !orb_true_r. reflexivity.
  - rewrite !orb_false_r, orb_false_l. reflexivity.
Qed.

(** C9 as claimed fails on a posting that only says "soon": it contains
    none of the seven phrases of the claim, yet its urgency is "medium". *)
Lemma urgency_soon_not_low :
  Py.any_in ["urgent"; "immediate"; "asap"; "critical"; "fast-paced";
             "quickly"; "rapid"] (Py.lower "Start soon") = false
  /\ parsed_urgency_level "Start soon" = "medium"
  /\ _determine_urgency "Start soon"
     <> urgency_spec ["urgent"; "immediate"; "asap"; "critical"]
                     ["fast-paced"; "quickly"; "rapid"] "Start soon".
Proof.
  repeat split; try (vm_compute; reflexivity).
  vm_compute. discriminate.
Qed.

End JobDescriptionParserProps.

(** ** Skill extractor *)

Module SkillExtractorProps.

Import SkillExtractor.

(** *** Dictionary confidence *)

Lemma find_from_range (sub s : string) (i : Z) :
  (0 <= i)%Z ->
  (Py.find_from i sub s = -1 \/ i <= Py.find_from i sub s)%Z.
Proof.
  revert i. induction s as [| c s IH]; intros i Hi; cbn [Py.find_from].
  - destruct (prefix sub ""); [right; lia | left; reflexivity].
  - destruct (prefix sub (String c s)); [right; lia |].
    destruct (IH (i + 1)%Z) as [H | H]; [lia | left; exact H | right; lia].
Qed.

Lemma contains_find_from (sub s : string) (i : Z) :
  (0 <= i)%Z ->
  Py.contains sub s = negb (Py.find_from i sub s =? -1)%Z.
Proof.
  revert i. induction s as [| c s IH]; intros i Hi;
    cbn [Py.contains Py.find_from].
  - destruct (prefix sub ""); [| reflexivity].
    symmetry. apply negb_true_iff, Z.eqb_neq. lia.
  - destruct (prefix sub (String c s)).
    + symmetry. apply negb_true_iff, Z.eqb_neq. lia.
    + apply IH. lia.
Qed.

(** The source's test [section in text and term in text[i:i+200]] reads
    the window that starts at the first occurrence of the section. *)
Lemma window_test (skill_term text section : string) :
  in_section_window skill_term text section
  = match Py.find text section with
    | Zneg _ => false
    | start => Py.contains skill_term (Py.slice text start (start + 200))
    end.
Proof.
  unfold in_section_window, Py.find.
  rewrite (contains_find_from section text 0%Z) by lia.
  destruct (find_from_range section text 0%Z) as [H | H]; [lia | |].
  - rewrite H. reflexivity.
  - destruct (Py.find_from 0 section text) as [| p | p] eqn:E;
      try reflexivity.
    lia.
Qed.

Lemma window_agrees (skill_term text : string) :
  existsb (in_section_window skill_term text) skill_sections
  = mention_in_window skill_term text.
Proof.
  unfold mention_in_window, skill_sections. cbn [existsb].
  rewrite !window_test. reflexivity.
Qed.

(** C8 (as the code has it). The dictionary confidence is 0.80, plus 0.10
    per occurrence of the (lowercased) term beyond the first with this
    boost capped at 0.20, plus 0.10 when the term occurs within the 200
    characters that start at the first occurrence of one of the section
    keywords skills, technologies, experience, projects; the total is
    capped at 1.0. *)
Theorem dictionary_confidence_formula (skill_term text : string) :
  _calculate_dictionary_confidence skill_term text
  == dictionary_confidence_spec 0.10 skill_term text.
Proof.
  unfold _calculate_dictionary_confidence, dictionary_confidence_spec,
    occurrence_boost.
  rewrite window_agrees.
  set (count := Py.count text (Py.lower skill_term)).
  set (w := if mention_in_window skill_term text then 0.10 else 0).
  destruct (1 <? count)%nat eqn:Ec.
  - apply Nat.ltb_lt in Ec.
    pose proof (PyFacts.of_nat_pred count) as Ep.
    set (c := Py.of_nat count) in *. set (c' := Py.of_nat (count - 1)) in *.
    assert (Ep' : c' == c - 1) by (apply Ep; lia).
    destruct (mention_in_window skill_term text); unfold w;
      minmax; lra.
  - apply Nat.ltb_ge in Ec.
    assert (E0 : Py.of_nat (count - 1) == 0).
    { replace (count - 1)%nat with 0%nat by lia. reflexivity. }
    set (c' := Py.of_nat (count - 1)) in *.
    destruct (mention_in_window skill_term text); unfold w;
      minmax; lra.
Qed.

(** C8 as claimed (0.05 per extra occurrence) fails: with two occurrences
    and no section keyword the code gives 0.90, the claim 0.85. *)
Lemma dictionary_confidence_not_005 :
  _calculate_dictionary_confidence "python" "python and python" == 0.9
  /\ dictionary_confidence_spec 0.05 "python" "python and python" == 0.85
  /\ ~ (_calculate_dictionary_confidence "python" "python and python"
        == dictionary_confidence_spec 0.05 "python" "python and python").
Proof.
  repeat split; try (vm_compute; reflexivity).
  vm_compute. discriminate.
Qed.

(** *** Deduplication *)

Lemma key_eqb_eq (a b : skill_key) : key_eqb a b = true <-> a = b.
Proof.
  destruct a as [a1 a2], b as [b1 b2]. unfold key_eqb. simpl.
  rewrite andb_true_iff, !String.eqb_eq. split.
  - intros [-> ->]. reflexivity.
  - intros E. inversion E. auto.
Qed.

Lemma dict_set_keys (V : Type) (k : skill_key) (v : V)
  (d : list (skill_key * V)) :
  map fst (dict_set key_eqb k v d)
  = if existsb (fun e => key_eqb (fst e) k) d
    then map fst d else (map fst d ++ [k])%list.
Proof.
  induction d as [| [k' v'] d IH]; simpl; [reflexivity |].
  destruct (key_eqb k' k) eqn:E; simpl; [reflexivity |].
  rewrite IH. destruct (existsb _ d); reflexivity.
Qed.

Lemma dict_set_NoDup (V : Type) (k : skill_key) (v : V)
  (d : list (skill_key * V)) :
  NoDup (map fst d) -> NoDup (map fst (dict_set key_eqb k v d)).
Proof.
  intros H. rewrite dict_set_keys.
  destruct (existsb (fun e => key_eqb (fst e) k) d) eqn:E; [exact H |].
  apply NoDup_rev in H. rewrite <- (rev_involutive (map fst d ++ [k])).
  apply NoDup_rev. rewrite rev_app_distr. simpl. constructor; [| exact H].
  rewrite <- in_rev. intros Hin. apply in_map_iff in Hin.
  destruct Hin as [e [Ee He]].
  assert (T : existsb (fun e => key_eqb (fst e) k) d = true).
  { apply existsb_exists. exists e. split; [exact He |].
    apply key_eqb_eq. exact Ee. }
  congruence.
Qed.

Lemma dict_set_keyed (skill : ExtractedSkill)
  (d : list (skill_key * ExtractedSkill)) :
  keyed d -> keyed (dict_set key_eqb (key_of skill) skill d).
Proof.
  unfold keyed. induction d as [| [k' v'] d IH]; simpl; intros H.
  - constructor; [reflexivity | constructor].
  - inversion H as [| ? ? Hhd Htl]; subst.
    destruct (key_eqb k' (key_of skill)) eqn:E.
    + constructor; [| exact Htl]. simpl. apply key_eqb_eq. exact E.
    + constructor; [exact Hhd | apply IH, Htl].
Qed.

Lemma dedup_step_invariant (skill : ExtractedSkill)
  (d : list (skill_key * ExtractedSkill)) :
  NoDup (map fst d) /\ keyed d ->
  NoDup (map fst (dedup_step d skill)) /\ keyed (dedup_step d skill).
Proof.
  intros [Hn Hk]. unfold dedup_step.
  destruct (dict_get key_eqb (key_of skill) d) as [kept |].
  - destruct (Py.gt (confidence skill) (confidence kept)).
    + split; [apply dict_set_NoDup, Hn | apply dict_set_keyed, Hk].
    + split; assumption.
  - split; [apply dict_set_NoDup, Hn | apply dict_set_keyed, Hk].
Qed.

Lemma fold_dedup_invariant (skills : list ExtractedSkill)
  (d : list (skill_key * ExtractedSkill)) :
  NoDup (map fst d) /\ keyed d ->
  NoDup (map fst (fold_left dedup_step skills d))
  /\ keyed (fold_left dedup_step skills d).
Proof.
  revert d. induction skills as [| s skills IH]; simpl; intros d H;
    [exact H |].
  apply IH, dedup_step_invariant, H.
Qed.

Lemma keyed_keys (d : list (skill_key * ExtractedSkill)) :
  keyed d -> map key_of (map snd d) = map fst d.
Proof.
  unfold keyed. induction 1 as [| e d He _ IH]; simpl; [reflexivity |].
  rewrite IH, He. reflexivity.
Qed.

(** No two deduplicated skills share (lowercased name, category). *)
Lemma deduplicate_NoDup (skills : list ExtractedSkill) :
  NoDup (map key_of (_deduplicate_skills skills)).
Proof.
  unfold _deduplicate_skills.
  destruct (fold_dedup_invariant skills []) as [Hn Hk].
  { split; constructor. }
  rewrite (keyed_keys _ Hk). exact Hn.
Qed.

(** *** Categorisation and the profile *)

Lemma bucket_cases (skill : ExtractedSkill) :
  bucket_of skill = "technical_skills" \/ bucket_of skill = "soft_skills"
  \/ bucket_of skill = "domain_expertise"
  \/ bucket_of skill = "tools_platforms".
Proof.
  unfold bucket_of.
  destruct (category skill =? "soft_skills")%string; [tauto |].
  destruct (Py.mem (category skill) ["cloud_platforms"; "devops_tools"]);
    [tauto |].
  destruct (Py.mem (category skill) ["data_science"; "mobile_development"]);
    tauto.
Qed.

Lemma filter_bucket_cons (b : string) (s : ExtractedSkill)
  (l : list ExtractedSkill) :
  filter (in_bucket b) (s :: l)
  = if (bucket_of s =? b)%string then s :: filter (in_bucket b) l
    else filter (in_bucket b) l.
Proof. reflexivity. Qed.

(** The four buckets hold, between them, exactly the skills given. *)
Lemma buckets_partition (skills : list ExtractedSkill) :
  Permutation
    (filter (in_bucket "technical_skills") skills
     ++ filter (in_bucket "soft_skills") skills
     ++ filter (in_bucket "domain_expertise") skills
     ++ filter (in_bucket "tools_platforms") skills)%list
    skills.
Proof.
  induction skills as [| s skills IH]; [constructor |].
  rewrite !filter_bucket_cons.
  destruct (bucket_cases s) as [E | [E | [E | E]]]; rewrite E;
    simpl (String.eqb _ _); cbv iota; cbn [app].
  - apply perm_skip, IH.
  - symmetry. apply Permutation_cons_app. symmetry. exact IH.
  - rewrite app_assoc. symmetry. apply Permutation_cons_app.
    rewrite <- app_assoc. symmetry. exact IH.
  - rewrite 2 app_assoc. symmetry. apply Permutation_cons_app.
    rewrite <- 2 app_assoc. symmetry. exact IH.
Qed.

Lemma profile_of_categorized (skills : list ExtractedSkill) (text : string) :
  let p := _build_skill_profile (_categorize_skills skills) text in
  technical_skills p = filter (in_bucket "technical_skills") skills
  /\ soft_skills p = filter (in_bucket "soft_skills") skills
  /\ domain_expertise p = filter (in_bucket "domain_expertise") skills
  /\ tools_platforms p = filter (in_bucket "tools_platforms") skills.
Proof.
  cbv zeta. unfold _build_skill_profile, _categorize_skills, bucket_names.
  cbn [technical_skills soft_skills domain_expertise tools_platforms map].
  repeat split; reflexivity.
Qed.

Lemma nonempty_count (A B : Type) (f : A -> B) (k1 k2 k3 k4 : string)
  (l1 l2 l3 l4 : list A) :
  length (filter (fun entry : string * list B =>
                    match snd entry with [] => false | _ => true end)
                 [(k1, map f l1); (k2, map f l2); (k3, map f l3);
                  (k4, map f l4)])
  = length (filter (fun l : list A =>
                      match l with [] => false | _ => true end)
                   [l1; l2; l3; l4]).
Proof. destruct l1, l2, l3, l4; reflexivity. Qed.

Lemma profile_invariants (skills : list ExtractedSkill) (text : string) :
  NoDup (map key_of skills) ->
  let p := _build_skill_profile (_categorize_skills skills) text in
  total_skills_count p
  = (length (technical_skills p) + length (soft_skills p)
     + length (domain_expertise p) + length (tools_platforms p))%nat
  /\ NoDup (map key_of (profile_skills p))
  /\ skill_diversity_score p == Py.of_nat (nonempty_buckets p) / 4.
Proof.
  intros Hn p.
  destruct (profile_of_categorized skills text) as [E1 [E2 [E3 E4]]].
  fold p in E1, E2, E3, E4.
  split; [| split].
  - rewrite E1, E2, E3, E4. unfold p, _build_skill_profile.
    cbn [total_skills_count]. unfold _categorize_skills, bucket_names.
    cbn [map fold_left snd]. unfold in_bucket. lia.
  - unfold profile_skills. rewrite E1, E2, E3, E4.
    eapply Permutation_NoDup; [| exact Hn].
    apply Permutation_map. symmetry. apply buckets_partition.
  - unfold nonempty_buckets. rewrite E1, E2, E3, E4.
    unfold p, _build_skill_profile. cbn [skill_diversity_score].
    unfold _categorize_skills, bucket_names.
    set (total := length (filter _ (map _ (map _ _)))).
    set (nonempty := length (filter _ [_; _; _; _])).
    assert (E : total = nonempty).
    { unfold total, nonempty. cbn [map fst snd]. apply nonempty_count. }
    assert (Hle : (nonempty <= 4)%nat).
    { unfold nonempty.
      etransitivity; [apply PyFacts.filter_length_le | simpl; lia]. }
    rewrite E.
    assert (Hq : Py.of_nat nonempty <= 4).
    { change 4 with (Py.of_nat 4). apply PyFacts.of_nat_le, Hle. }
    set (x := Py.of_nat nonempty) in *. clearbody x. minmax; qlra.
Qed.

(** C10. For every input text (and whether or not the NLP model is
    loaded), the profile returned by skill extraction has
    total_skills_count equal to the sum of the lengths of its four buckets,
    no two of its skills share the same (lowercased name, category) pair,
    and its skill_diversity_score is (number of non-empty buckets)/4. *)
Theorem skill_profile_invariants (nlp : option Language) (text : string) :
  let p := extract_skills nlp text in
  total_skills_count p
  = (length (technical_skills p) + length (soft_skills p)
     + length (domain_expertise p) + length (tools_platforms p))%nat
  /\ NoDup (map key_of (profile_skills p))
  /\ skill_diversity_score p == Py.of_nat (nonempty_buckets p) / 4.
Proof.
  unfold extract_skills. cbv zeta.
  apply profile_invariants, deduplicate_NoDup.
Qed.

(** *** Dictionary closure *)

Lemma dedup_step_keeps (skill : ExtractedSkill)
  (d : list (skill_key * ExtractedSkill)) (k : skill_key) :
  In k (map fst d) \/ k = key_of skill ->
  In k (map fst (dedup_step d skill)).
Proof.
  intros H. unfold dedup_step.
  destruct (dict_get key_eqb (key_of skill) d) as [kept |] eqn:Eg.
  - assert (Hin : In (key_of skill) (map fst d)).
    { clear H. induction d as [| [k' v] d IH]; simpl in *; [discriminate |].
      destruct (key_eqb k' (key_of skill)) eqn:E.
      - left. apply key_eqb_eq, E.
      - right. apply IH, Eg. }
    assert (Hk : In k (map fst d)) by (destruct H; [| subst]; assumption).
    destruct (Py.gt (confidence skill) (confidence kept)); [| exact Hk].
    rewrite dict_set_keys. destruct (existsb _ d); [exact Hk |].
    apply in_or_app. left. exact Hk.
  - rewrite dict_set_keys. destruct (existsb _ d) eqn:Ee.
    + destruct H as [H | H]; [exact H |]. subst k.
      apply existsb_exists in Ee. destruct Ee as [e [He Ek]].
      apply key_eqb_eq in Ek. rewrite <- Ek. apply in_map, He.
    + apply in_or_app. destruct H as [H | H]; [left; exact H |].
      right. left. symmetry. exact H.
Qed.

Lemma fold_dedup_keeps (skills : list ExtractedSkill)
  (d : list (skill_key * ExtractedSkill)) (k : skill_key) :
  In k (map fst d) \/ In k (map key_of skills) ->
  In k (map fst (fold_left dedup_step skills d)).
Proof.
  revert d. induction skills as [| s skills IH]; simpl; intros d H.
  - destruct H as [H | []]. exact H.
  - apply IH. destruct H as [H | [H | H]].
    + left. apply dedup_step_keeps. left. exact H.
    + left. apply dedup_step_keeps. right. symmetry. exact H.
    + right. exact H.
Qed.

(** Deduplication keeps one skill for every key it was given. *)
Lemma deduplicate_keeps (skills : list ExtractedSkill) (s : ExtractedSkill) :
  In s skills ->
  exists s', In s' (_deduplicate_skills skills) /\ key_of s' = key_of s.
Proof.
  intros H. unfold _deduplicate_skills.
  destruct (fold_dedup_invariant skills []) as [_ Hk].
  { split; constructor. }
  assert (Hin : In (key_of s) (map fst (fold_left dedup_step skills []))).
  { apply fold_dedup_keeps. right. apply in_map, H. }
  rewrite <- (keyed_keys _ Hk) in Hin. apply in_map_iff in Hin.
  destruct Hin as [s' [E Hs']]. exists s'. split; assumption.
Qed.

(** A skill handed to deduplication reaches the profile under the same
    (lowercased name, category). *)
Lemma skill_reaches_profile (skills : list ExtractedSkill) (text : string)
  (s : ExtractedSkill) :
  In s skills ->
  exists s',
    In s' (profile_skills
             (_build_skill_profile
                (_categorize_skills (_deduplicate_skills skills)) text))
    /\ key_of s' = key_of s.
Proof.
  intros H.
  destruct (deduplicate_keeps skills s H) as [s' [Hs' Ek]].
  exists s'. split; [| exact Ek].
  destruct (profile_of_categorized (_deduplicate_skills skills) text)
    as [E1 [E2 [E3 E4]]].
  unfold profile_skills. rewrite E1, E2, E3, E4.
  eapply Permutation_in; [symmetry; apply buckets_partition | exact Hs'].
Qed.

(** In particular, so does every skill the dictionary strategy reports. *)
Lemma dictionary_hit_in_profile (nlp : option Language) (text : string)
  (s : ExtractedSkill) :
  In s (_extract_skills_dictionary (_preprocess_text text)) ->
  exists s', In s' (profile_skills (extract_skills nlp text))
             /\ key_of s' = key_of s.
Proof.
  intros H. unfold extract_skills. cbv zeta.
  apply skill_reaches_profile. apply in_or_app. left. exact H.
Qed.

Lemma term_eqb_eq (a b : string * string * string) :
  term_eqb a b = true -> a = b.
Proof.
  destruct a as [[a1 a2] a3], b as [[b1 b2] b3]. simpl. intros E.
  apply andb_true_iff in E. destruct E as [E E3].
  apply andb_true_iff in E. destruct E as [E1 E2].
  apply String.eqb_eq in E1. apply String.eqb_eq in E2.
  apply String.eqb_eq in E3. subst. reflexivity.
Qed.

Lemma all_terms_checked : forallb closure_check database_terms = true.
Proof. vm_compute. reflexivity. Qed.

Lemma listed_term_checked (c : string * string * string) :
  In c database_terms -> closure_check c = true.
Proof.
  intros Hin.
  exact (proj1 (forallb_forall closure_check database_terms)
               all_terms_checked c Hin).
Qed.

Lemma checked_term_reported (c : string * string * string) :
  closure_check c = true -> c <> gitlab_term ->
  exists s, In s (_extract_skills_dictionary (_preprocess_text (snd c)))
            /\ name s = snd (fst c) /\ category s = fst (fst c).
Proof.
  intros All Hne. unfold closure_check in All.
  destruct (term_eqb c gitlab_term) eqn:E.
  - exfalso. apply Hne. apply term_eqb_eq, E.
  - apply existsb_exists in All. destruct All as [s [Hs Hr]].
    unfold reported_as in Hr.
    apply andb_true_iff in Hr. destruct Hr as [En Ec].
    apply String.eqb_eq in En. apply String.eqb_eq in Ec.
    exists s. split; [exact Hs | split; [exact En | exact Ec]].
Qed.

Lemma key_of_eq (a b : ExtractedSkill) :
  key_of a = key_of b ->
  Py.lower (name a) = Py.lower (name b) /\ category a = category b.
Proof. unfold key_of. intros E. inversion E. split; reflexivity. Qed.

(** Dictionary closure away from the one colliding term: for every
    canonical name or alias of the dictionary other than the canonical
    name gitlab of cloud_platforms, extraction from the text made of just
    that term yields a skill of the listed name and category. *)
Lemma dictionary_closure_but_gitlab (nlp : option Language)
  (c : string * string * string) :
  In c database_terms ->
  c <> gitlab_term ->
  exists s, In s (profile_skills (extract_skills nlp (snd c)))
            /\ Py.lower (name s) = Py.lower (snd (fst c))
            /\ category s = fst (fst c).
Proof.
  intros Hin Hne.
  destruct (checked_term_reported c (listed_term_checked c Hin) Hne)
    as [s [Hs [En Ec]]].
  destruct (dictionary_hit_in_profile nlp (snd c) s Hs) as [s' [Hs' Ek]].
  exists s'. split; [exact Hs' |].
  destruct (key_of_eq s' s Ek) as [E1 E2].
  split.
  - rewrite E1, En. reflexivity.
  - rewrite E2. exact Ec.
Qed.

Lemma term_listed (c : string * string * string)
  (l : list (string * string * string)) :
  existsb (term_eqb c) l = true -> In c l.
Proof.
  intros H. apply existsb_exists in H. destruct H as [x [Hx E]].
  apply term_eqb_eq in E. subst. exact Hx.
Qed.

(** C7 at the colliding term. The dictionary lists gitlab as a canonical
    skill of cloud_platforms and also as an alias of git (devops_tools);
    the reverse lookup keeps the later entry, so extraction from the text
    "gitlab" yields the single skill git of category devops_tools and no
    skill of category cloud_platforms. *)
Theorem gitlab_extracted_as_git :
  In gitlab_term database_terms
  /\ dict_get String.eqb "gitlab" skill_lookup = Some ("git", "devops_tools")
  /\ names_and_categories (extract_skills None "gitlab")
     = [("git", "devops_tools")].
Proof.
  split; [| split].
  - apply term_listed. vm_compute. reflexivity.
  - vm_compute. reflexivity.
  - vm_compute. reflexivity.
Qed.

End SkillExtractorProps.

(** ** Ranges of the scores *)

Module ScoreRanges.

Import ScoringEngine.

Lemma round_half_even_range (y : Q) :
  0 <= y <= 1000 -> (0 <= Py.round_half_even y <= 1000)%Z.
Proof.
  intros [H0 H1]. unfold Py.round_half_even.
  pose proof (Qfloor_le y) as Hf. pose proof (Qlt_floor y) as Hc.
  set (f := Qfloor y) in *.
  assert (F0 : (0 <= f)%Z).
  { apply Z.lt_succ_r. unfold Z.succ. rewrite Zlt_Qlt.
    change (inject_Z 0) with 0. lra. }
  assert (F1 : (f <= 1000)%Z).
  { rewrite Zle_Qle. change (inject_Z 1000) with 1000. lra. }
  destruct (Qlt_le_dec (y - inject_Z f) (1 # 2)) as [_ | Hr]; [lia |].
  assert (F2 : (f < 1000)%Z).
  { rewrite Zlt_Qlt. change (inject_Z 1000) with 1000. lra. }
  destruct (Qlt_le_dec (1 # 2) (y - inject_Z f)); [lia |].
  destruct (Z.even f); lia.
Qed.

Lemma round1_percent (x : Q) : percent x -> percent (Py.round1 x).
Proof.
  unfold percent, Py.round1. intros [H0 H1].
  destruct (round_half_even_range (x * 10)) as [Z0 Z1]; [lra |].
  rewrite Zle_Qle in Z0, Z1.
  change (inject_Z 0) with 0 in Z0. change (inject_Z 1000) with 1000 in Z1.
  set (z := inject_Z _) in *. clearbody z. qlra.
Qed.

Lemma percent_of_unit (x : Q) : unit_range x -> percent (Py.round1 (x * 100)).
Proof.
  unfold unit_range. intros H. apply round1_percent. unfold percent. lra.
Qed.

Lemma hard_skills_unit (profile : SkillProfile) (sm : SemanticMatchResult)
  (jd : ParsedJobDescription) :
  unit_range (_calculate_hard_skills_score profile sm jd).
Proof.
  unfold unit_range, _calculate_hard_skills_score.
  destruct (required_skills jd) as [[| r rs] |]; try lra.
  cbv zeta. minmax; lra.
Qed.

Lemma soft_skills_unit (profile : SkillProfile) (jd : ParsedJobDescription) :
  unit_range (_calculate_soft_skills_score profile jd).
Proof.
  unfold unit_range, _calculate_soft_skills_score.
  destruct (_extract_soft_skills_from_jd jd) as [| k ks].
  - destruct (soft_skills profile); lra.
  - cbv zeta.
    match goal with
    | |- context [Py.of_nat ?a / Py.of_nat ?b + _] =>
        pose proof (PyFacts.ratio_nonneg a b) as Hb;
        set (base := Py.of_nat a / Py.of_nat b) in *
    end.
    pose proof (PyFacts.of_nat_nonneg (length (soft_skills profile))) as Hv.
    set (v := Py.of_nat (length (soft_skills profile))) in *.
    clearbody base v. minmax; qlra.
Qed.

Lemma or_float_nonneg (o : option Q) :
  (forall y, o = Some y -> 0 <= y) -> 0 <= or_float o 0.
Proof.
  intros H. unfold or_float. destruct o as [x |]; [| lra].
  destruct (Qeq_bool x 0); [lra | apply H; reflexivity].
Qed.

Lemma years_unit (resume : ParsedResume) (jd : ParsedJobDescription) :
  (forall y, total_experience_years resume = Some y -> 0 <= y) ->
  unit_range (_calculate_years_experience_score resume jd).
Proof.
  intros H. apply or_float_nonneg in H.
  unfold unit_range, _calculate_years_experience_score. cbv zeta.
  set (c := or_float _ 0) in *.
  set (r := inject_Z _). clearbody c r.
  destruct (Qlt_le_dec c r) as [Hlt | Hge].
  - assert (Hr : 0 < r) by lra.
    assert (Hq : 0 <= c / r).
    { apply Qle_shift_div_l; [exact Hr | lra]. }
    set (ratio := c / r) in *. clearbody ratio.
    destruct (Qlt_le_dec ratio 0.75); [| lra].
    destruct (Qlt_le_dec ratio 0.5); lra.
  - destruct (Qlt_le_dec (r * 1.5) c); [minmax; lra | lra].
Qed.

Lemma intersection_le_union (a b : list string) :
  (length (intersection (set_of a) (set_of b))
   <= length (union (set_of a) (set_of b)))%nat.
Proof.
  unfold intersection, union, set_of.
  apply NoDup_incl_length.
  - apply NoDup_filter, NoDup_nodup.
  - intros x Hx. apply filter_In in Hx. destruct Hx as [Hx _].
    apply nodup_In. apply in_or_app. left. exact Hx.
Qed.

Lemma title_relevance_unit (resume_title jd_title : string) :
  unit_range (_calculate_title_relevance resume_title jd_title).
Proof.
  unfold unit_range, _calculate_title_relevance.
  destruct (negb (Py.truthy resume_title) || negb (Py.truthy jd_title));
    [lra |].
  cbv zeta.
  pose proof (intersection_le_union (Py.split (Py.lower resume_title))
                (Py.split (Py.lower jd_title))) as Hle.
  destruct (union _ _) eqn:E; [lra |]. rewrite <- E.
  apply PyFacts.ratio_bounds. rewrite E. exact Hle.
Qed.

Lemma industry_relevance_unit (resume_company jd_company : string) :
  unit_range (_calculate_industry_relevance resume_company jd_company).
Proof.
  unfold unit_range, _calculate_industry_relevance.
  destruct (negb (Py.truthy resume_company) || negb (Py.truthy jd_company));
    [lra |].
  cbv zeta. destruct (intersection _ _); lra.
Qed.

Lemma description_relevance_unit (description_list : list string)
  (jd : ParsedJobDescription) :
  unit_range (_calculate_description_relevance description_list jd).
Proof.
  unfold unit_range, _calculate_description_relevance.
  destruct description_list; [lra |]. cbv zeta.
  destruct (description_jd_keywords jd) eqn:E; [lra |]. rewrite <- E.
  match goal with
  | |- context [Py.of_nat ?a / Py.of_nat ?b] =>
      pose proof (PyFacts.ratio_nonneg a b) as Hb;
      set (ratio := Py.of_nat a / Py.of_nat b) in *
  end.
  clearbody ratio. minmax; lra.
Qed.

Lemma recent_year_le (current_year year : Z) :
  In year (recent_years current_year) ->
  (current_year - 10 <= year <= current_year)%Z.
Proof.
  unfold recent_years. rewrite in_map_iff. intros [i [E Hi]].
  apply in_seq in Hi. lia.
Qed.

Lemma recency_weight_range (current_year : Z) (end_date : option string) :
  0.5 <= _calculate_recency_weight current_year end_date <= 1.
Proof.
  unfold _calculate_recency_weight.
  destruct end_date as [d |]; [| lra].
  destruct (negb (Py.truthy d) || Py.mem (Py.lower d) _); [lra |].
  destruct (filter _ (recent_years current_year)) as [| year rest] eqn:E;
    [lra |].
  assert (Hy : In year (recent_years current_year)).
  { assert (Hin : In year (year :: rest)) by (left; reflexivity).
    rewrite <- E in Hin. apply filter_In in Hin. tauto. }
  apply recent_year_le in Hy. cbv zeta.
  assert (H0 : 0 <= inject_Z (current_year - year)).
  { change 0 with (inject_Z 0). rewrite <- Zle_Qle. lia. }
  set (a := inject_Z (current_year - year)) in *. clearbody a.
  minmax; lra.
Qed.

Lemma scaled_unit (a w : Q) :
  unit_range a -> 0.5 <= w <= 1 -> unit_range (a * w).
Proof.
  unfold unit_range. intros [A0 A1] [W0 W1]. split.
  - apply Qmult_le_0_compat; lra.
  - assert (H : a * w <= 1 * w).
    { apply Qmult_le_compat_r; lra. }
    lra.
Qed.

Lemma exp_relevance_unit (current_year : Z) (jd : ParsedJobDescription)
  (exp : WorkExperience) :
  unit_range (exp_relevance current_year jd exp).
Proof.
  unfold exp_relevance. cbv zeta. apply scaled_unit.
  - pose proof (title_relevance_unit (title exp) (jd_title jd)) as Ht.
    pose proof (industry_relevance_unit (company exp) (jd_company jd)) as Hi.
    pose proof (description_relevance_unit
                  (Py.or_nil (description exp)) jd) as Hd.
    unfold unit_range in *. lra.
  - apply recency_weight_range.
Qed.

Lemma insert_desc_Forall (P : Q -> Prop) (x : Q) (l : list Q) :
  P x -> Forall P l -> Forall P (insert_desc x l).
Proof.
  intros Hx. induction 1 as [| y l Hy Hl IH]; simpl.
  - constructor; [exact Hx | constructor].
  - destruct (Qlt_le_dec x y); constructor; auto.
Qed.

Lemma sort_desc_Forall (P : Q -> Prop) (l : list Q) :
  Forall P l -> Forall P (sort_desc l).
Proof.
  unfold sort_desc. induction 1 as [| y l Hy Hl IH]; simpl.
  - constructor.
  - apply insert_desc_Forall; assumption.
Qed.

Lemma experience_relevance_unit (current_year : Z) (resume : ParsedResume)
  (jd : ParsedJobDescription) :
  unit_range (_calculate_experience_relevance_score current_year resume jd).
Proof.
  unfold _calculate_experience_relevance_score.
  destruct (work_experience resume) as [[| e es] |];
    try (unfold unit_range; lra).
  cbv zeta.
  assert (Hall : Forall unit_range
                   (sort_desc (map (exp_relevance current_year jd)
                                   (e :: es)))).
  { apply sort_desc_Forall. apply Forall_forall. intros x Hx.
    apply in_map_iff in Hx. destruct Hx as [exp [E _]]. subst x.
    apply exp_relevance_unit. }
  destruct (sort_desc _) as [| a [| b [| c rest]]].
  - unfold unit_range; lra.
  - inversion Hall; subst. assumption.
  - inversion Hall as [| ? ? Ha Hrest]; subst.
    inversion Hrest as [| ? ? Hb _]; subst.
    unfold unit_range in *. lra.
  - inversion Hall as [| ? ? Ha Hrest]; subst.
    inversion Hrest as [| ? ? Hb Hrest']; subst.
    inversion Hrest' as [| ? ? Hc _]; subst.
    unfold unit_range in *. lra.
Qed.

Lemma experience_unit (current_year : Z) (resume : ParsedResume)
  (jd : ParsedJobDescription) :
  (forall y, total_experience_years resume = Some y -> 0 <= y) ->
  unit_range (_calculate_experience_score current_year resume jd).
Proof.
  intros H. unfold _calculate_experience_score. cbv zeta.
  pose proof (years_unit resume jd H) as Hy.
  pose proof (experience_relevance_unit current_year resume jd) as Hr.
  unfold unit_range in *. lra.
Qed.

Lemma education_level_unit (education_list : list Education)
  (jd : ParsedJobDescription) :
  unit_range (_calculate_education_level_score education_list jd).
Proof.
  unfold unit_range, _calculate_education_level_score. cbv zeta.
  destruct (_ <=? _)%Z; [lra |]. destruct (_ <=? _)%Z; lra.
Qed.

Lemma education_relevance_unit (education_list : list Education)
  (jd : ParsedJobDescription) :
  unit_range (_calculate_education_relevance_score education_list jd).
Proof.
  unfold unit_range, _calculate_education_relevance_score. cbv zeta.
  destruct (_extract_job_domain_keywords jd) eqn:E; [lra |]. rewrite <- E.
  match goal with
  | |- context [Py.of_nat ?a / Py.of_nat ?b] =>
      pose proof (PyFacts.ratio_nonneg a b) as Hb;
      set (ratio := Py.of_nat a / Py.of_nat b) in *
  end.
  clearbody ratio. minmax; lra.
Qed.

Lemma education_unit (resume : ParsedResume) (jd : ParsedJobDescription) :
  unit_range (_calculate_education_score resume jd).
Proof.
  unfold _calculate_education_score.
  destruct (education resume) as [[| e es] |];
    try (unfold unit_range; lra).
  cbv zeta.
  pose proof (education_level_unit (e :: es) jd) as Hl.
  pose proof (education_relevance_unit (e :: es) jd) as Hr.
  unfold unit_range in *. lra.
Qed.

Lemma count_percent (n : nat) (per : Q) :
  0 <= per ->
  percent (Py.round1 (Py.min (Py.of_nat n / per * 100) 100)).
Proof.
  intros Hp. apply round1_percent. unfold percent.
  assert (H : 0 <= Py.of_nat n / per * 100).
  { pose proof (PyFacts.of_nat_nonneg n) as Hn.
    destruct (Qeq_dec per 0) as [E | E].
    - rewrite E. unfold Qdiv. change (/ 0) with 0. lra.
    - assert (0 <= Py.of_nat n / per).
      { apply Qle_shift_div_l; [| lra].
        destruct (Qlt_le_dec 0 per) as [L | L]; [exact L |].
        exfalso. apply E. lra. }
      lra. }
  set (x := Py.of_nat n / per * 100) in *. clearbody x. minmax; lra.
Qed.

Lemma weighted_unit (s w : Q) : unit_range s -> 0 <= w -> 0 <= s * w <= w.
Proof.
  unfold unit_range. intros [S0 S1] W. split.
  - apply Qmult_le_0_compat; assumption.
  - assert (H : s * w <= 1 * w) by (apply Qmult_le_compat_r; assumption).
    lra.
Qed.

Lemma confidence_level_values (self_resume : ParsedResume)
  (sm : SemanticMatchResult) (ds : DetailedScores) :
  In (_calculate_confidence_level self_resume sm ds)
     ["low"; "medium"; "high"].
Proof.
  unfold _calculate_confidence_level. cbv zeta.
  destruct (Py.ge _ 0.8); [simpl; tauto |].
  destruct (Py.ge _ 0.6); simpl; tauto.
Qed.

(** The ranges the code does keep.  When the years of experience are not
    negative and the overall similarity lies in [0,1], every component
    score (hard skills, soft skills, experience, education, semantic) and
    every sub-component score (technical, domain, tools, years, relevance,
    education level, education relevance) of the FinalScore is in [0,100]
    and confidence_level is one of low, medium, high; overall_score is in
    [0,100] when the engine's weights are non-negative and sum to at most
    1, as the default weights do. *)
Theorem final_score_ranges
  (settings : Settings) (current_year : Z)
  (resume : ParsedResume) (profile : SkillProfile)
  (sm : SemanticMatchResult) (jd : ParsedJobDescription)
  (w : option ScoringWeights) (fs : FinalScore) :
  valid_inputs resume sm ->
  Score settings current_year resume profile sm jd w = Ok fs ->
  scores_in_range (detailed_scores fs)
  /\ In (confidence_level fs) ["low"; "medium"; "high"]
  /\ (weights_within_unit (effective_weights w) ->
      percent (overall_score fs)).
Proof.
  intros [Hy Hs] HS. unfold Score, init in HS.
  fold (effective_weights w) in HS.
  destruct (validate (effective_weights w)); simpl in HS; [| discriminate HS].
  inversion HS; subst fs; clear HS.
  unfold calculate_comprehensive_score. cbv zeta.
  cbn [detailed_scores confidence_level overall_score weights].
  split; [| split].
  - unfold _calculate_detailed_scores, scores_in_range. cbv zeta.
    cbn [hard_skills_score soft_skills_score experience_score
         education_score semantic_match_score technical_skills_score
         domain_expertise_score tools_platforms_score
         years_experience_score experience_relevance_score
         education_level_score education_relevance_score].
    split; [apply percent_of_unit, hard_skills_unit |].
    split; [apply percent_of_unit, soft_skills_unit |].
    split; [apply percent_of_unit, experience_unit, Hy |].
    split; [apply percent_of_unit, education_unit |].
    split; [apply percent_of_unit; exact Hs |].
    split; [apply count_percent; lra |].
    split; [apply count_percent; lra |].
    split; [apply count_percent; lra |].
    split; [apply percent_of_unit, years_unit, Hy |].
    split; [apply percent_of_unit, experience_relevance_unit |].
    split; [apply percent_of_unit, education_level_unit |].
    apply percent_of_unit, education_relevance_unit.
  - apply confidence_level_values.
  - intros [W1 [W2 [W3 [W4 [W5 Wsum]]]]]. apply round1_percent.
    unfold weights_total in Wsum. unfold percent.
    pose proof (weighted_unit _ _ (hard_skills_unit profile sm jd) W1) as H1.
    pose proof (weighted_unit _ _ (soft_skills_unit profile jd) W2) as H2.
    pose proof (weighted_unit _ _ (experience_unit current_year resume jd Hy)
                              W3) as H3.
    pose proof (weighted_unit _ _ (education_unit resume jd) W4) as H4.
    assert (H5 : unit_range (_calculate_semantic_score sm)) by exact Hs.
    apply (fun h => weighted_unit _ _ h W5) in H5.
    lra.
Qed.

(** C2. The code breaks the bound on overall_score.  The weights 1.0,
    0.008, 0, 0, 0 are each in [0,1] and pass validation, in exact
    arithmetic and in binary64 (their sum 1.008 is inside the tolerance);
    the inputs are valid; and the resume that matches the only required
    skill is scored 100.2, above the 100 that the code's comment on the
    field ([overall_score: float  # 0-100]) gives as its upper end: the
    weighted sum is not clamped. *)
Lemma overall_score_above_100 :
  valid_inputs Samples.resume Samples.semantic_match
  /\ validate Samples.heavy_weights = Ok tt
  /\ Binary64.validate Samples.heavy_weights64 = Ok tt
  /\ exists fs,
       Score default_settings Samples.this_year Samples.resume
             Samples.profile Samples.semantic_match (Samples.jd ["python"])
             (Some Samples.heavy_weights) = Ok fs
       /\ overall_score fs == 100.2
       /\ ~ percent (overall_score fs).
Proof.
  split; [| split; [| split]].
  - split; [intros y E; discriminate E | vm_compute; split; discriminate].
  - vm_compute. reflexivity.
  - vm_compute. reflexivity.
  - eexists. split; [vm_compute; reflexivity |].
    split; [vm_compute; reflexivity |].
    unfold percent. intros [_ H]. vm_compute in H. apply H. reflexivity.
Qed.

End ScoreRanges.

(** ** The statements exercised on concrete inputs *)

Module Witnesses.

Import ScoringEngine.

Lemma final_score_ranges_witness :
  valid_inputs Samples.resume Samples.semantic_match
  /\ weights_within_unit (effective_weights None)
  /\ exists fs,
       Score default_settings Samples.this_year Samples.resume
             Samples.profile Samples.semantic_match (Samples.jd ["python"])
             None = Ok fs
       /\ scores_in_range (detailed_scores fs)
       /\ In (confidence_level fs) ["low"; "medium"; "high"]
       /\ percent (overall_score fs).
Proof.
  assert (V : valid_inputs Samples.resume Samples.semantic_match).
  { split; [intros y E; discriminate E | vm_compute; split; discriminate]. }
  assert (W : weights_within_unit (effective_weights None)).
  { unfold weights_within_unit. repeat split; vm_compute; discriminate. }
  split; [exact V |]. split; [exact W |].
  eexists. split; [vm_compute; reflexivity |].
  match goal with
  | |- scores_in_range (detailed_scores ?fs) /\ _ =>
      destruct (ScoreRanges.final_score_ranges
                  default_settings Samples.this_year Samples.resume
                  Samples.profile Samples.semantic_match
                  (Samples.jd ["python"]) None fs V)
        as [R [C O]]; [vm_compute; reflexivity |]
  end.
  split; [exact R |]. split; [exact C | exact (O W)].
Defined.

End Witnesses.

(* ===================================================================== *)
(** * Further properties of the pipeline *)
(* ===================================================================== *)

(** ** Custom weights: from the request schema to the engine *)

Module CustomWeightsProps.

Import ScoringEngine CustomWeights.

Lemma sum_from (xs : list Q) (a : Q) :
  fold_left Qplus xs a == a + Py.sum xs.
Proof.
  unfold Py.sum. revert a.
  induction xs as [| x xs IH]; intros a; simpl.
  - lra.
  - rewrite (IH (a + x)), (IH (0 + x)). lra.
Qed.

Lemma sum_cons (x : Q) (xs : list Q) : Py.sum (x :: xs) == x + Py.sum xs.
Proof.
  unfold Py.sum at 1. simpl. rewrite sum_from. lra.
Qed.

Lemma value_at_cons (k : string) (v : Q) (d : weight_dict) (key : string) :
  value_at ((k, v) :: d) key = if (k =? key)%string then v else value_at d key.
Proof.
  unfold value_at, field. simpl. destruct (k =? key)%string; reflexivity.
Qed.

Lemma get_absent (d : weight_dict) (key : string) :
  ~ In key (map fst d) ->
  SkillExtractor.dict_get String.eqb key d = None.
Proof.
  induction d as [| [k v] d IH]; simpl; intros H; [reflexivity |].
  destruct (String.eqb_spec k key) as [E | _].
  - exfalso. apply H. left. exact E.
  - apply IH. intros I. apply H. right. exact I.
Qed.

Lemma get_present (d : weight_dict) (key : string) :
  In key (map fst d) ->
  exists v, SkillExtractor.dict_get String.eqb key d = Some v
            /\ In (key, v) d.
Proof.
  induction d as [| [k v] d IH]; simpl; intros H; [contradiction |].
  destruct (String.eqb_spec k key) as [E | N].
  - exists v. split; [reflexivity |]. left. rewrite E. reflexivity.
  - destruct H as [H | H]; [contradiction |].
    destruct (IH H) as [v' [G I]]. exists v'. split; [exact G |].
    right. exact I.
Qed.

Lemma value_at_absent (d : weight_dict) (key : string) :
  ~ In key (map fst d) -> value_at d key = 0.
Proof.
  intros H. unfold value_at, field. rewrite (get_absent d key H).
  reflexivity.
Qed.

(** The sum of the values of a dictionary whose keys are among the five
    allowed ones is the sum of what it stores under these five keys. *)
Lemma sum_by_key (d : weight_dict) :
  NoDup (map fst d) ->
  (forall k, In k (map fst d) -> In k allowed_keys) ->
  Py.sum (map snd d) ==
  value_at d "hard_skills" + value_at d "soft_skills"
  + value_at d "experience" + value_at d "education"
  + value_at d "semantic_match".
Proof.
  induction d as [| [k v] d IH]; intros ND A.
  - reflexivity.
  - simpl map in *. inversion ND as [| ? ? Hk ND']; subst.
    rewrite sum_cons, (IH ND') by (intros k' I; apply A; right; exact I).
    rewrite !value_at_cons.
    pose proof (value_at_absent d k Hk) as Z.
    destruct (A k (or_introl eq_refl)) as [E | [E | [E | [E | [E | []]]]]];
      subst k; simpl; rewrite Z; lra.
Qed.

(** What a successful [validate_weights] has checked. *)
Lemma validated (d : weight_dict) (v : option weight_dict) :
  validate_weights (Some d) = Ok v ->
  (forall k, In k (map fst d) -> In k allowed_keys)
  /\ (forall k x, In (k, x) d -> 0 <= x <= 1)
  /\ Qabs (Py.sum (map snd d) - 1.0) <= 0.01.
Proof.
  unfold validate_weights.
  destruct (forallb _ (map fst d)) eqn:K; cbn [negb]; [| discriminate].
  destruct (forallb _ d) eqn:R; cbn [negb]; [| discriminate].
  destruct (Qlt_le_dec 0.01 (Qabs (Py.sum (map snd d) - 1.0))) as [_ | S];
    [discriminate |].
  intros _. split; [| split].
  - intros k I. rewrite forallb_forall in K.
    apply SemanticMatcherProps.mem_In. apply K. exact I.
  - intros k x I. rewrite forallb_forall in R.
    specialize (R (k, x) I). simpl in R.
    apply andb_true_iff in R. destruct R as [R0 R1].
    rewrite PyFacts.ge_Qle_bool in R0, R1.
    apply Qle_bool_iff in R0. apply Qle_bool_iff in R1. split; assumption.
  - exact S.
Qed.

Lemma weights_built (d : weight_dict) :
  (forall k, In k (map fst d) -> In k allowed_keys) ->
  weights_from_dict d
  = inr (mkScoringWeights
           (field d "hard_skills" 0.35) (field d "soft_skills" 0.15)
           (field d "experience" 0.25) (field d "education" 0.15)
           (field d "semantic_match" 0.10)).
Proof.
  intros A. unfold weights_from_dict.
  destruct (find _ (map fst d)) as [key |] eqn:F; [| reflexivity].
  apply find_some in F. destruct F as [I N]. apply A in I.
  apply SemanticMatcherProps.mem_In in I.
  change allowed_keys with field_names in I. rewrite I in N.
  discriminate N.
Qed.

(** A constructor argument is the stored value when the key is given and
    the default of the dataclass otherwise. *)
Lemma field_cases (d : weight_dict) (key : string) (default : Q) :
  (forall k x, In (k, x) d -> 0 <= x <= 1) ->
  (In key (map fst d) /\ field d key default = value_at d key
   /\ 0 <= value_at d key <= 1)
  \/ (~ In key (map fst d) /\ field d key default = default
      /\ value_at d key = 0).
Proof.
  intros R. destruct (in_dec string_dec key (map fst d)) as [I | N].
  - left. split; [exact I |].
    destruct (get_present d key I) as [v [G Iv]].
    unfold value_at, field. rewrite G. split; [reflexivity |].
    exact (R key v Iv).
  - right. split; [exact N |]. unfold field.
    rewrite (get_absent d key N). split; [reflexivity |].
    apply value_at_absent. exact N.
Qed.

(** X2. Custom weights that pass the request validator but leave out one
    of the five keys are always refused by the engine: the defaults that
    fill the gaps push the total above 1.01, and building the engine
    raises the ValueError of the weight validation. *)
Theorem partial_custom_weights_rejected
  (settings : Settings) (d : weight_dict) (v : option weight_dict)
  (missing : string) :
  NoDup (map fst d) ->
  validate_weights (Some d) = Ok v ->
  In missing allowed_keys -> ~ In missing (map fst d) ->
  scoring_engine settings (Some d) = inl (EngineError InvalidWeights).
Proof.
  intros ND V I N. destruct (validated d v V) as [A [R S]].
  pose proof (sum_by_key d ND A) as E.
  assert (CW : configure_weights (Some d) = weights_from_dict d).
  { destruct d as [| e d']; [| reflexivity].
    exfalso. vm_compute in V. discriminate V. }
  unfold scoring_engine. rewrite CW, (weights_built d A).
  unfold init, validate, weights_total.
  cbn [hard_skills soft_skills_weight experience education_weight
       semantic_match].
  apply Qabs_Qle_condition in S. destruct S as [S0 S1].
  destruct (field_cases d "hard_skills" 0.35 R)
    as [[I1 [F1 B1]] | [N1 [F1 Z1]]];
    destruct (field_cases d "soft_skills" 0.15 R)
      as [[I2 [F2 B2]] | [N2 [F2 Z2]]];
    destruct (field_cases d "experience" 0.25 R)
      as [[I3 [F3 B3]] | [N3 [F3 Z3]]];
    destruct (field_cases d "education" 0.15 R)
      as [[I4 [F4 B4]] | [N4 [F4 Z4]]];
    destruct (field_cases d "semantic_match" 0.10 R)
      as [[I5 [F5 B5]] | [N5 [F5 Z5]]];
    rewrite F1, F2, F3, F4, F5;
    try (exfalso;
         destruct I as [I | [I | [I | [I | [I | []]]]]]; subst missing;
         contradiction);
    try rewrite Z1 in E; try rewrite Z2 in E; try rewrite Z3 in E;
    try rewrite Z4 in E; try rewrite Z5 in E;
    (destruct (Qlt_le_dec 0.01 _) as [_ | L]; [reflexivity |];
     exfalso; apply Qabs_Qle_condition in L; lra).
Qed.

Lemma partial_custom_weights_rejected_witness :
  scoring_engine default_settings (Some [("hard_skills", 1.0)])
  = inl (EngineError InvalidWeights).
Proof.
  apply (partial_custom_weights_rejected default_settings
           [("hard_skills", 1.0)] (Some [("hard_skills", 1.0)])
           "soft_skills").
  - simpl. repeat constructor; simpl; intuition discriminate.
  - vm_compute. reflexivity.
  - simpl. tauto.
  - simpl. intuition discriminate.
Defined.

End CustomWeightsProps.

(** ** Semantic matcher: the three tiers and what they hand on *)

Module SemanticMatcherMore.

Import SemanticMatcher Notions.

Lemma index_of_nth (x : string) (xs : list string) (i : nat) :
  index_of x xs = Some i -> nth_error xs i = Some x.
Proof.
  revert i. induction xs as [| y xs IH]; intros i; simpl; [discriminate |].
  destruct (String.eqb_spec y x) as [E | _].
  - intros H. inversion H; subst. reflexivity.
  - destruct (index_of x xs) as [k |]; simpl; [| discriminate].
    intros H. inversion H; subst. simpl. apply IH. reflexivity.
Qed.

Lemma index_of_complete (x : string) (xs : list string) :
  In x xs -> exists i, index_of x xs = Some i.
Proof.
  induction xs as [| y xs IH]; simpl; [contradiction |].
  intros H. destruct (String.eqb_spec y x) as [_ | N].
  - exists 0%nat. reflexivity.
  - destruct H as [H | H]; [contradiction |].
    destruct (IH H) as [i E]. rewrite E. exists (S i). reflexivity.
Qed.

Lemma nth_error_lower (rs : list string) (i : nat) (x : string) :
  nth_error (map Py.lower rs) i = Some x ->
  exists r, nth_error rs i = Some r /\ Py.lower r = x.
Proof.
  revert i. induction rs as [| r rs IH]; intros [| i]; simpl;
    try discriminate.
  - intros H. inversion H. exists r. split; reflexivity.
  - apply IH.
Qed.

(** The matches of the exact tier for one job skill. *)
Lemma exact_match_of (rs js : list string) (m : SkillMatch) :
  In m (_exact_match_skills rs js) ->
  exists j r,
    In j js /\ In r rs /\ Py.lower r = Py.lower j
    /\ m = mkSkillMatch j (Some r) j "exact" 1.0 None.
Proof.
  unfold _exact_match_skills. rewrite in_flat_map.
  intros [j [Hj Hm]].
  destruct (index_of (Py.lower j) (map Py.lower rs)) as [i |] eqn:Ei;
    [| contradiction].
  apply index_of_nth, nth_error_lower in Ei. destruct Ei as [r [Er El]].
  rewrite Er in Hm. destruct Hm as [Hm | []].
  exists j, r. split; [exact Hj |]. split; [eapply nth_error_In, Er |].
  split; [exact El | symmetry; exact Hm].
Qed.

Lemma exact_match_found (rs js : list string) (j r : string) :
  In j js -> In r rs -> Py.lower r = Py.lower j ->
  exists m, In m (_exact_match_skills rs js) /\ jd_skill m = j
            /\ match_type m = "exact" /\ match_confidence m = 1.0.
Proof.
  intros Hj Hr E.
  assert (Hl : In (Py.lower j) (map Py.lower rs)).
  { rewrite <- E. apply in_map, Hr. }
  destruct (index_of_complete _ _ Hl) as [i Ei].
  destruct (nth_error_lower rs i _ (index_of_nth _ _ _ Ei)) as [r' [Er' _]].
  exists (mkSkillMatch j (Some r') j "exact" 1.0 None).
  split; [| repeat split].
  unfold _exact_match_skills. apply in_flat_map. exists j.
  split; [exact Hj |]. rewrite Ei, Er'. left. reflexivity.
Qed.

(** X3. The exact tier is sound and complete for equality up to letter
    case: each of its matches pairs a job skill with a resume skill that
    equals it up to case, at confidence 1.0, and every job skill that has
    such a resume skill gets a match. *)
Theorem exact_matching_sound_and_complete (rs js : list string) :
  (forall m, In m (_exact_match_skills rs js) ->
     In (jd_skill m) js /\ skill_name m = jd_skill m
     /\ match_type m = "exact" /\ match_confidence m = 1.0
     /\ exists r, resume_skill m = Some r /\ In r rs
                  /\ same_skill r (jd_skill m))
  /\ (forall j r, In j js -> In r rs -> same_skill r j ->
        exists m, In m (_exact_match_skills rs js) /\ jd_skill m = j).
Proof.
  split.
  - intros m Hm.
    destruct (exact_match_of rs js m Hm) as [j [r [Hj [Hr [E M]]]]].
    subst m. cbn [jd_skill skill_name match_type match_confidence
                  resume_skill].
    repeat split; try assumption. exists r. repeat split; assumption.
  - intros j r Hj Hr E.
    destruct (exact_match_found rs js j r Hj Hr E) as [m [Hm [Ej _]]].
    exists m. split; assumption.
Qed.

Lemma filter_all (A : Type) (p : A -> bool) (l : list A) :
  (forall x, In x l -> p x = true) -> filter p l = l.
Proof.
  induction l as [| x l IH]; intros H; simpl; [reflexivity |].
  rewrite (H x (or_introl eq_refl)). f_equal. apply IH.
  intros y Hy. apply H. right. exact Hy.
Qed.

(** Counting the matches of one tier against the job skills it leaves
    unmatched. *)
Lemma tier_count_aux (f : string -> list SkillMatch) (q : string -> bool)
  (l : list string) :
  (forall j, In j l ->
     (length (f j) + (if q j then 1 else 0) <= 1)%nat) ->
  (length (flat_map f l) + length (filter q l) <= length l)%nat.
Proof.
  induction l as [| j l IH]; intros H; simpl; [lia |].
  rewrite length_app.
  pose proof (H j (or_introl eq_refl)) as Hj.
  assert (IH' := IH (fun k Hk => H k (or_intror Hk))).
  destruct (q j); simpl; lia.
Qed.

Lemma tier_count (f : string -> list SkillMatch) (js : list string) :
  (forall j, (length (f j) <= 1)%nat) ->
  (forall j m, In m (f j) -> jd_skill m = j) ->
  (length (flat_map f js)
   + length (filter (not_in (map jd_skill (flat_map f js))) js)
   <= length js)%nat.
Proof.
  intros H1 Hk. apply tier_count_aux. intros j Hj.
  specialize (H1 j).
  destruct (not_in _ j) eqn:N; [| lia].
  destruct (f j) as [| m ms] eqn:E; [simpl; lia |].
  exfalso. apply SemanticMatcherProps.not_in_spec in N. apply N.
  apply in_map_iff. exists m. split.
  - apply Hk. rewrite E. left. reflexivity.
  - apply in_flat_map. exists j. split; [exact Hj |].
    rewrite E. left. reflexivity.
Qed.

Lemma flat_map_count (f : string -> list SkillMatch) (js : list string) :
  (forall j, (length (f j) <= 1)%nat) ->
  (length (flat_map f js) <= length js)%nat.
Proof.
  intros H. induction js as [| j js IH]; simpl; [lia |].
  rewrite length_app. specialize (H j). lia.
Qed.

Lemma sum_nonneg (xs : list Q) :
  (forall x, In x xs -> 0 <= x) -> 0 <= Py.sum xs.
Proof.
  induction xs as [| x xs IH]; intros H.
  - vm_compute. discriminate.
  - rewrite CustomWeightsProps.sum_cons.
    pose proof (H x (or_introl eq_refl)).
    pose proof (IH (fun y Hy => H y (or_intror Hy))). lra.
Qed.

Lemma overall_similarity_unit (matches : list SkillMatch) (required : nat)
  (embedding text : Q) :
  (forall m, In m matches -> 0 <= match_confidence m) ->
  0 <= embedding -> 0 <= text ->
  0 <= _calculate_overall_similarity matches required embedding text <= 1.
Proof.
  intros Hm He Ht. unfold _calculate_overall_similarity. cbv zeta.
  assert (S : 0 <= Py.sum (map match_confidence matches)).
  { apply sum_nonneg. intros x Hx. apply in_map_iff in Hx.
    destruct Hx as [m [E Hx]]. subst x. apply Hm, Hx. }
  destruct (0 <? required)%nat eqn:R.
  - apply Nat.ltb_lt in R.
    pose proof (PyFacts.of_nat_pos required R) as Hn.
    pose proof (PyFacts.ratio_nonneg (length matches) required) as A.
    assert (B : 0 <= Py.sum (map match_confidence matches)
                     / Py.of_nat required).
    { apply Qle_shift_div_l; [exact Hn |]. rewrite Qmult_0_l. exact S. }
    set (a := Py.of_nat (length matches) / _) in *.
    set (b := Py.sum _ / _) in *. clearbody a b.
    minmax; qlra.
  - minmax; lra.
Qed.

Lemma exact_each (rs js : list string) :
  (forall j, In j js -> exists r, In r rs /\ Py.lower r = Py.lower j) ->
  length (_exact_match_skills rs js) = length js.
Proof.
  unfold _exact_match_skills.
  induction js as [| j js IH]; intros H; [reflexivity |].
  cbn [flat_map]. rewrite length_app, IH
    by (intros j' Hj'; apply H; right; exact Hj').
  destruct (H j (or_introl eq_refl)) as [r [Hr E]].
  assert (Hl : In (Py.lower j) (map Py.lower rs)).
  { rewrite <- E. apply in_map, Hr. }
  destruct (index_of_complete _ _ Hl) as [i Ei].
  destruct (nth_error_lower rs i _
              (index_of_nth _ _ _ Ei)) as [r' [Er' _]].
  rewrite Ei, Er'. reflexivity.
Qed.

Lemma exact_prefix_count (rs js more : list string) :
  (forall j, In j js -> exists r, In r rs /\ Py.lower r = Py.lower j) ->
  (length js <= length (_exact_match_skills rs (js ++ more)))%nat.
Proof.
  intros H. unfold _exact_match_skills. rewrite flat_map_app, length_app.
  pose proof (exact_each rs js H) as E. unfold _exact_match_skills in E.
  rewrite E. lia.
Qed.

Section Tiers.

Variable token_sort_ratio : string -> string -> Z.
Variable sentence_transformer : option SentenceTransformer.

Lemma fuzzy_match_of (rs js : list string) (threshold : Z) (m : SkillMatch) :
  In m (_fuzzy_match_skills token_sort_ratio rs js threshold) ->
  exists j r score,
    In j js /\ (threshold <= score)%Z
    /\ m = mkSkillMatch j (Some r) j "fuzzy" (inject_Z score / 100.0) None.
Proof.
  unfold _fuzzy_match_skills. rewrite in_flat_map.
  intros [j [Hj Hm]].
  destruct (extractOne token_sort_ratio j rs) as [[c score] |];
    [| contradiction].
  destruct (Z.leb_spec threshold score) as [L | _]; [| contradiction].
  destruct Hm as [Hm | []]. exists j, c, score.
  split; [exact Hj |]. split; [exact L | symmetry; exact Hm].
Qed.

Lemma semantic_match_of (rs js : list string) (threshold : Q)
  (m : SkillMatch) :
  In m (_semantic_match_skills sentence_transformer rs js threshold) ->
  sentence_transformer <> None
  /\ exists j r best,
       In j js /\ threshold <= best
       /\ m = mkSkillMatch j (Some r) j "semantic" best (Some best).
Proof.
  unfold _semantic_match_skills.
  destruct sentence_transformer as [model |]; [| contradiction].
  rewrite in_flat_map. intros [j [Hj Hm]]. split; [discriminate |].
  destruct (nth_error (map (cosine model j) rs) _) as [best |];
    [| contradiction].
  destruct (nth_error rs _) as [r |]; [| contradiction].
  unfold Py.ge in Hm.
  destruct (Qlt_le_dec best threshold) as [| L]; [contradiction |].
  destruct Hm as [Hm | []]. exists j, r, best.
  split; [exact Hj |]. split; [exact L | symmetry; exact Hm].
Qed.

(** What holds of the matches of each tier holds of the matches of the
    whole cascade. *)
Lemma comprehensive_ind (P : SkillMatch -> Prop) :
  (forall rs js m, In m (_exact_match_skills rs js) -> P m) ->
  (forall rs js m,
     In m (_fuzzy_match_skills token_sort_ratio rs js 85) -> P m) ->
  (forall rs js m,
     In m (_semantic_match_skills sentence_transformer rs js 0.7) -> P m) ->
  forall rs js m,
    In m (_match_skills_comprehensive token_sort_ratio sentence_transformer
            rs js) -> P m.
Proof.
  intros He Hf Hs rs js m. unfold _match_skills_comprehensive.
  set (exact := _exact_match_skills rs js).
  set (ur := filter _ rs). set (uj := filter _ js).
  set (fuzzy := _fuzzy_match_skills token_sort_ratio ur uj 85).
  set (ur' := filter _ ur). set (uj' := filter _ uj).
  assert (Base : In m (exact ++ fuzzy)%list -> P m).
  { intros H. apply in_app_or in H. destruct H as [H | H].
    - eapply He, H.
    - eapply Hf, H. }
  destruct sentence_transformer as [model |] eqn:Est; [| exact Base].
  destruct ur' as [| r0 ur0]; [exact Base |].
  destruct uj' as [| j0 uj0]; [exact Base |].
  intros H. apply in_app_or in H. destruct H as [H | H]; [auto |].
  eapply Hs, H.
Qed.

Lemma exact_in_comprehensive (rs js : list string) (m : SkillMatch) :
  In m (_exact_match_skills rs js) ->
  In m (_match_skills_comprehensive token_sort_ratio sentence_transformer
          rs js).
Proof.
  intros H. unfold _match_skills_comprehensive.
  destruct sentence_transformer; [| apply in_or_app; left; exact H].
  destruct (filter _ (filter _ rs));
    [apply in_or_app; left; exact H |].
  destruct (filter _ (filter _ js));
    [apply in_or_app; left; exact H |].
  apply in_or_app. left. apply in_or_app. left. exact H.
Qed.

Lemma match_floor (rs js : list string) (m : SkillMatch) :
  In m (_match_skills_comprehensive token_sort_ratio sentence_transformer
          rs js) ->
  0.7 <= match_confidence m /\ skill_name m = jd_skill m
  /\ In (match_type m) ["exact"; "fuzzy"; "semantic"].
Proof.
  revert rs js m. apply comprehensive_ind; intros rs js m H.
  - destruct (exact_match_of rs js m H) as [j [r [_ [_ [_ M]]]]]. subst m.
    cbn [match_confidence skill_name jd_skill match_type].
    split; [lra |]. split; [reflexivity | simpl; tauto].
  - destruct (fuzzy_match_of rs js 85 m H) as [j [r [score [_ [L M]]]]].
    subst m. cbn [match_confidence skill_name jd_skill match_type].
    split; [| split; [reflexivity | simpl; tauto]].
    rewrite Zle_Qle in L. change (inject_Z 85) with 85 in L.
    apply Qle_shift_div_l; lra.
  - destruct (semantic_match_of rs js 0.7 m H)
      as [_ [j [r [best [_ [L M]]]]]].
    subst m. cbn [match_confidence skill_name jd_skill match_type].
    split; [exact L |]. split; [reflexivity | simpl; tauto].
Qed.

Lemma exact_count (rs js : list string) :
  (length (_exact_match_skills rs js)
   + length (filter (not_in (map jd_skill (_exact_match_skills rs js))) js)
   <= length js)%nat.
Proof.
  unfold _exact_match_skills. apply tier_count.
  - intros j. destruct (index_of _ _); [| simpl; lia].
    destruct (nth_error rs _); simpl; lia.
  - intros j m. destruct (index_of _ _); [| contradiction].
    destruct (nth_error rs _); [| contradiction].
    intros [H | []]. subst m. reflexivity.
Qed.

Lemma fuzzy_count (rs js : list string) (threshold : Z) :
  (length (_fuzzy_match_skills token_sort_ratio rs js threshold)
   + length (filter
               (not_in (map jd_skill
                          (_fuzzy_match_skills token_sort_ratio rs js
                                               threshold))) js)
   <= length js)%nat.
Proof.
  unfold _fuzzy_match_skills. apply tier_count.
  - intros j. destruct (extractOne _ _ _) as [[c s] |]; [| simpl; lia].
    destruct (threshold <=? s)%Z; simpl; lia.
  - intros j m. destruct (extractOne _ _ _) as [[c s] |]; [| contradiction].
    destruct (threshold <=? s)%Z; [| contradiction].
    intros [H | []]. subst m. reflexivity.
Qed.

Lemma semantic_count (rs js : list string) (threshold : Q) :
  (length (_semantic_match_skills sentence_transformer rs js threshold)
   <= length js)%nat.
Proof.
  unfold _semantic_match_skills.
  destruct sentence_transformer as [model |]; [| simpl; lia].
  apply flat_map_count. intros j.
  destruct (nth_error (map _ _) _); [| simpl; lia].
  destruct (nth_error rs _); [| simpl; lia].
  destruct (Py.ge _ _); simpl; lia.
Qed.

Lemma comprehensive_count (rs js : list string) :
  (length (_match_skills_comprehensive token_sort_ratio sentence_transformer
             rs js) <= length js)%nat.
Proof.
  unfold _match_skills_comprehensive.
  set (exact := _exact_match_skills rs js).
  set (ur := filter _ rs).
  set (uj := filter (not_in (map jd_skill exact)) js).
  set (fuzzy := _fuzzy_match_skills token_sort_ratio ur uj 85).
  set (ur' := filter _ ur).
  set (uj' := filter (not_in (map jd_skill fuzzy)) uj).
  pose proof (exact_count rs js) as C1. fold exact in C1. fold uj in C1.
  pose proof (fuzzy_count ur uj 85) as C2. fold fuzzy in C2. fold uj' in C2.
  pose proof (semantic_count ur' uj' 0.7) as C3.
  assert (Base : (length (exact ++ fuzzy) <= length js)%nat)
    by (rewrite length_app; lia).
  destruct sentence_transformer as [model |]; [| exact Base].
  destruct ur' as [| r0 ur0]; [exact Base |].
  destruct uj' as [| j0 uj0]; [exact Base |].
  rewrite !length_app. lia.
Qed.

Lemma comprehensive_ge_exact (rs js : list string) :
  (length (_exact_match_skills rs js)
   <= length (_match_skills_comprehensive token_sort_ratio
                sentence_transformer rs js))%nat.
Proof.
  unfold _match_skills_comprehensive.
  destruct sentence_transformer; [| rewrite length_app; lia].
  destruct (filter _ (filter _ rs)); [rewrite length_app; lia |].
  destruct (filter _ (filter _ js)); rewrite !length_app; lia.
Qed.

(** TF-IDF cosine similarity of two texts. *)
Variable tfidf_cosine : string -> string -> Q.

(** X4. A required skill that some resume skill equals up to letter case
    is matched by the exact tier at confidence 1.0 and is never reported
    missing, whatever the fuzzy scorer and the embedding model say. *)
Theorem exact_skill_never_missing
  (profile : SkillProfile) (jd : ParsedJobDescription)
  (resume_text jd_text : string) (j r : string) :
  In j (Py.or_nil (required_skills jd)) ->
  In r (all_resume_skill_names profile) ->
  same_skill r j ->
  let res := match_resume_to_jd token_sort_ratio sentence_transformer
               tfidf_cosine profile jd resume_text jd_text in
  ~ In j (missing_skills res)
  /\ exists m, In m (skill_matches res) /\ jd_skill m = j
               /\ match_type m = "exact" /\ match_confidence m = 1.0.
Proof.
  intros Hj Hr E. cbv zeta. unfold match_resume_to_jd.
  cbn [missing_skills skill_matches].
  destruct (exact_match_found (all_resume_skill_names profile)
              (Py.or_nil (required_skills jd)
               ++ Py.or_nil (preferred_skills jd))%list j r)
    as [m [Hm [Ej [Et Ec]]]]; [apply in_or_app; left; exact Hj | exact Hr
                               | exact E |].
  apply exact_in_comprehensive in Hm. split.
  - intros Hmiss. apply filter_In in Hmiss. destruct Hmiss as [_ Hn].
    apply SemanticMatcherProps.not_in_spec in Hn. apply Hn.
    rewrite <- Ej. apply in_map, Hm.
  - exists m. repeat split; assumption.
Qed.

(** X5. Every match handed on by the matcher has confidence at least
    0.70, names its job skill, and is exact, fuzzy or semantic; so the
    0.70 filter of the hard-skills score never drops a match. *)
Theorem matches_meet_confidence_floor
  (profile : SkillProfile) (jd : ParsedJobDescription)
  (resume_text jd_text : string) :
  let res := match_resume_to_jd token_sort_ratio sentence_transformer
               tfidf_cosine profile jd resume_text jd_text in
  (forall m, In m (skill_matches res) ->
     0.7 <= match_confidence m /\ skill_name m = jd_skill m
     /\ In (match_type m) ["exact"; "fuzzy"; "semantic"])
  /\ filter (fun m => Py.ge (match_confidence m) 0.7) (skill_matches res)
     = skill_matches res.
Proof.
  cbv zeta. unfold match_resume_to_jd. cbn [skill_matches].
  split; [intros m; apply match_floor |].
  apply filter_all. intros m Hm. apply match_floor in Hm.
  destruct Hm as [L _]. unfold Py.ge.
  destruct (Qlt_le_dec (match_confidence m) 0.7) as [Lt |]; [| reflexivity].
  exfalso. apply (Qlt_not_le _ _ Lt L).
Qed.

(** X7. A job skill gets at most one match per listing: the number of
    matches never exceeds the number of required plus preferred skills. *)
Theorem match_count_bounded
  (profile : SkillProfile) (jd : ParsedJobDescription)
  (resume_text jd_text : string) :
  (length (skill_matches
             (match_resume_to_jd token_sort_ratio sentence_transformer
                tfidf_cosine profile jd resume_text jd_text))
   <= length (Py.or_nil (required_skills jd))
      + length (Py.or_nil (preferred_skills jd)))%nat.
Proof.
  unfold match_resume_to_jd. cbn [skill_matches].
  rewrite <- length_app. apply comprehensive_count.
Qed.

(** X8. When the embedding model and the TF-IDF similarity return
    non-negative values, the overall similarity of the matcher lies in
    [0,1], which is what the scoring engine expects of its input. *)
Theorem matcher_similarity_in_unit_range
  (profile : SkillProfile) (jd : ParsedJobDescription)
  (resume_text jd_text : string) :
  (forall a b, 0 <= tfidf_cosine a b) ->
  (forall model a b, sentence_transformer = Some model ->
                     0 <= cosine model a b) ->
  ScoringEngine.unit_range
    (overall_similarity
       (match_resume_to_jd token_sort_ratio sentence_transformer
          tfidf_cosine profile jd resume_text jd_text)).
Proof.
  intros Ht He. unfold match_resume_to_jd, ScoringEngine.unit_range.
  cbn [overall_similarity].
  apply overall_similarity_unit.
  - intros m Hm. apply match_floor in Hm. destruct Hm as [L _]. lra.
  - unfold _calculate_embedding_similarity.
    destruct sentence_transformer as [model |] eqn:E; [| lra].
    apply (He model). reflexivity.
  - apply Ht.
Qed.

End Tiers.

Lemma matcher_similarity_in_unit_range_witness :
  ScoringEngine.unit_range
    (overall_similarity
       (match_resume_to_jd (fun _ _ => 0%Z) (Some constant_model)
          (fun _ _ => 0.5) Samples.profile (Samples.jd ["python"])
          "python" "python")).
Proof.
  apply (matcher_similarity_in_unit_range (fun _ _ => 0%Z)
           (Some constant_model) (fun _ _ => 0.5)).
  - intros a b. vm_compute. discriminate.
  - intros model a b E. inversion E. vm_compute. discriminate.
Defined.

Lemma exact_skill_never_missing_witness :
  let res := match_resume_to_jd (fun _ _ => 0%Z) None (fun _ _ => 0.5)
               Samples.profile (Samples.jd ["Python"]) "python" "Python" in
  ~ In "Python" (missing_skills res)
  /\ exists m, In m (skill_matches res) /\ jd_skill m = "Python"
               /\ match_type m = "exact" /\ match_confidence m = 1.0.
Proof.
  apply (exact_skill_never_missing (fun _ _ => 0%Z) None (fun _ _ => 0.5)
           Samples.profile (Samples.jd ["Python"]) "python" "Python"
           "Python" "python").
  - simpl. left. reflexivity.
  - simpl. left. reflexivity.
  - reflexivity.
Defined.

(** [max] returns an item whose key no other item exceeds, and some item
    as soon as there is one. *)
Lemma max_by_fold_spec (A : Type) (key : A -> Z) (l : list A) (b x : A) :
  fold_left (fun best y =>
               match best with
               | None => Some y
               | Some b' => if (key b' <? key y)%Z then Some y else Some b'
               end) l (Some b) = Some x ->
  (key b <= key x)%Z /\ forall y, In y l -> (key y <= key x)%Z.
Proof.
  revert b. induction l as [| y l IH]; intros b H.
  - simpl in H. inversion H; subst. split; [lia | intros y []].
  - cbn [fold_left] in H.
    destruct (Z.ltb_spec (key b) (key y)) as [L | L];
      apply IH in H; destruct H as [H1 H2]; (split; [lia |]);
      intros z [E | Hz]; try (subst z; lia); apply H2, Hz.
Qed.

Lemma max_by_fold_some (A : Type) (key : A -> Z) (l : list A) (b : A) :
  exists x,
    fold_left (fun best y =>
                 match best with
                 | None => Some y
                 | Some b' => if (key b' <? key y)%Z then Some y else Some b'
                 end) l (Some b) = Some x.
Proof.
  revert b. induction l as [| y l IH]; intros b.
  - exists b. reflexivity.
  - cbn [fold_left]. destruct (key b <? key y)%Z; apply IH.
Qed.

Lemma max_by_maximal (A : Type) (key : A -> Z) (items : list A) (x : A) :
  max_by key items = Some x ->
  forall y, In y items -> (key y <= key x)%Z.
Proof.
  unfold max_by. destruct items as [| a items]; [discriminate |].
  cbn [fold_left]. intros H. apply max_by_fold_spec in H.
  destruct H as [H1 H2]. intros y [E | Hy]; [subst y; exact H1 |].
  apply H2, Hy.
Qed.

Lemma max_by_some (A : Type) (key : A -> Z) (a : A) (items : list A) :
  exists x, max_by key (a :: items) = Some x.
Proof.
  unfold max_by. cbn [fold_left]. apply max_by_fold_some.
Qed.

(** [np.argmax] points at an entry that no other entry exceeds. *)
Lemma argmax_from_spec (row pre : list Q) (best_i : nat) (best : Q) :
  nth_error pre best_i = Some best ->
  (forall y, In y pre -> y <= best) ->
  exists v,
    nth_error (pre ++ row) (argmax_from (length pre) best_i best row)
    = Some v
    /\ forall y, In y (pre ++ row) -> y <= v.
Proof.
  revert pre best_i best.
  induction row as [| x row IH]; intros pre best_i best Hn Hm.
  - cbn [argmax_from]. rewrite app_nil_r. exists best.
    split; assumption.
  - cbn [argmax_from].
    replace (pre ++ x :: row)%list with ((pre ++ [x]) ++ row)%list
      by (rewrite <- app_assoc; reflexivity).
    replace (S (length pre)) with (length (pre ++ [x]))
      by (rewrite length_app; simpl; lia).
    destruct (Qlt_le_dec best x) as [L | L]; apply IH.
    + rewrite nth_error_app2 by lia. rewrite Nat.sub_diag. reflexivity.
    + intros y Hy. apply in_app_or in Hy.
      destruct Hy as [Hy | [E | []]].
      * apply Qle_trans with best; [apply Hm, Hy | apply Qlt_le_weak, L].
      * subst y. apply Qle_refl.
    + rewrite nth_error_app1; [exact Hn |].
      apply nth_error_Some. rewrite Hn. discriminate.
    + intros y Hy. apply in_app_or in Hy.
      destruct Hy as [Hy | [E | []]]; [apply Hm, Hy | subst y; exact L].
Qed.

Lemma argmax_spec (x : Q) (row : list Q) :
  exists v,
    nth_error (x :: row) (argmax (x :: row)) = Some v
    /\ forall y, In y (x :: row) -> y <= v.
Proof.
  unfold argmax.
  apply (argmax_from_spec row [x] 0 x); [reflexivity |].
  intros y [E | []]. subst y. apply Qle_refl.
Qed.

Section Cascade.

Variable token_sort_ratio : string -> string -> Z.
Variable sentence_transformer : option SentenceTransformer.

(** The job skills the fuzzy tier matches are those with a resume skill
    scoring at least the threshold. *)
Lemma fuzzy_matched_iff (rs js : list string) (threshold : Z) (j : string) :
  In j (map jd_skill (_fuzzy_match_skills token_sort_ratio rs js threshold))
  <-> In j js
      /\ exists r, In r rs /\ (threshold <= token_sort_ratio j r)%Z.
Proof.
  unfold _fuzzy_match_skills. rewrite in_map_iff. split.
  - intros [m [Ej Hm]]. apply in_flat_map in Hm.
    destruct Hm as [j' [Hj' Hm]].
    destruct (extractOne token_sort_ratio j' rs) as [[c score] |] eqn:E;
      [| contradiction].
    destruct (Z.leb_spec threshold score) as [L | _]; [| contradiction].
    destruct Hm as [Hm | []]. subst m. cbn [jd_skill] in Ej. subst j'.
    split; [exact Hj' |]. exists c.
    unfold extractOne in E. apply SemanticMatcherProps.max_by_In in E.
    apply in_map_iff in E. destruct E as [c' [Ec Hc]].
    assert (E1 : c' = c) by congruence.
    assert (E2 : token_sort_ratio j c' = score) by congruence.
    subst c'. split; [exact Hc |]. rewrite E2. exact L.
  - intros [Hj [r [Hr L]]].
    destruct rs as [| a rs']; [contradiction |].
    destruct (max_by_some _ snd (a, token_sort_ratio j a)
                (map (fun c => (c, token_sort_ratio j c)) rs'))
      as [[c score] E].
    pose proof (max_by_maximal _ snd _ _ E (r, token_sort_ratio j r)
                  (in_map (fun c => (c, token_sort_ratio j c)) _ _ Hr)) as M.
    cbn [snd] in M.
    exists (mkSkillMatch j (Some c) j "fuzzy" (inject_Z score / 100.0) None).
    split; [reflexivity |]. apply in_flat_map. exists j.
    split; [exact Hj |]. unfold extractOne. cbn [map]. rewrite E.
    destruct (Z.leb_spec threshold score) as [_ | G]; [left; reflexivity |].
    lia.
Qed.

(** The job skills the semantic tier matches are those with a resume
    skill whose embedding is at least the threshold close. *)
Lemma semantic_matched_iff (rs js : list string) (threshold : Q)
  (j : string) :
  In j (map jd_skill
          (_semantic_match_skills sentence_transformer rs js threshold))
  <-> exists model,
        sentence_transformer = Some model /\ In j js
        /\ exists r, In r rs /\ threshold <= cosine model j r.
Proof.
  unfold _semantic_match_skills.
  destruct sentence_transformer as [model |].
  2: { split; [intros [] | intros [model [E _]]; discriminate E]. }
  rewrite in_map_iff. split.
  - intros [m [Ej Hm]]. apply in_flat_map in Hm.
    destruct Hm as [j' [Hj' Hm]]. cbv zeta in Hm.
    destruct (nth_error (map (cosine model j') rs) _) as [best |] eqn:Eb;
      [| contradiction].
    destruct (nth_error rs _) as [r |] eqn:Er; [| contradiction].
    unfold Py.ge in Hm.
    destruct (Qlt_le_dec best threshold) as [| L]; [contradiction |].
    destruct Hm as [Hm | []]. subst m. cbn [jd_skill] in Ej. subst j'.
    exists model. split; [reflexivity |]. split; [exact Hj' |].
    exists r. split; [eapply nth_error_In, Er |].
    rewrite (map_nth_error (cosine model j) _ _ Er) in Eb.
    assert (E : cosine model j r = best) by congruence.
    rewrite E. exact L.
  - intros [model' [E [Hj [r [Hr L]]]]].
    assert (E' : model' = model) by congruence. subst model'. clear E.
    destruct rs as [| a rs']; [contradiction |].
    destruct (argmax_spec (cosine model j a) (map (cosine model j) rs'))
      as [v [Ev Mv]].
    change (cosine model j a :: map (cosine model j) rs')
      with (map (cosine model j) (a :: rs')) in Ev, Mv.
    destruct (nth_error (a :: rs')
                (argmax (map (cosine model j) (a :: rs')))) as [r' |] eqn:Er.
    2: { exfalso. apply nth_error_None in Er.
         assert (N : nth_error (map (cosine model j) (a :: rs'))
                       (argmax (map (cosine model j) (a :: rs'))) = None).
         { apply nth_error_None. rewrite length_map. exact Er. }
         rewrite N in Ev. discriminate Ev. }
    exists (mkSkillMatch j (Some r') j "semantic" v (Some v)).
    split; [reflexivity |]. apply in_flat_map. exists j.
    split; [exact Hj |]. cbv zeta. rewrite Ev, Er.
    unfold Py.ge. destruct (Qlt_le_dec v threshold) as [Lt | _];
      [| left; reflexivity].
    exfalso.
    pose proof (Mv _ (in_map (cosine model j) _ _ Hr)) as M.
    apply (Qlt_not_le _ _ Lt). apply Qle_trans with (cosine model j r);
      assumption.
Qed.

Lemma semantic_no_resume (js : list string) (threshold : Q) :
  _semantic_match_skills sentence_transformer [] js threshold = [].
Proof.
  unfold _semantic_match_skills.
  destruct sentence_transformer as [model |]; [| reflexivity].
  induction js as [| j js IH]; [reflexivity | exact IH].
Qed.

Lemma semantic_no_jd (rs : list string) (threshold : Q) :
  _semantic_match_skills sentence_transformer rs [] threshold = [].
Proof.
  unfold _semantic_match_skills.
  destruct sentence_transformer; reflexivity.
Qed.

(** In the embedding the semantic tier returns no match when one of its
    lists is empty, which is when the cascade skips it; so the matches of
    the cascade are those of the three tiers one after the other. *)
Lemma comprehensive_tiers (rs js : list string) :
  let exact := _exact_match_skills rs js in
  let ur := filter (not_in (present_resume_skills exact)) rs in
  let uj := filter (not_in (map jd_skill exact)) js in
  let fuzzy := _fuzzy_match_skills token_sort_ratio ur uj 85 in
  let ur' := filter (not_in (present_resume_skills fuzzy)) ur in
  let uj' := filter (not_in (map jd_skill fuzzy)) uj in
  _match_skills_comprehensive token_sort_ratio sentence_transformer rs js
  = ((exact ++ fuzzy)
     ++ _semantic_match_skills sentence_transformer ur' uj' 0.7)%list.
Proof.
  cbv zeta. unfold _match_skills_comprehensive. cbv zeta.
  set (exact := _exact_match_skills rs js).
  set (ur := filter _ rs). set (uj := filter _ js).
  set (fuzzy := _fuzzy_match_skills token_sort_ratio ur uj 85).
  set (ur' := filter _ ur). set (uj' := filter _ uj).
  destruct ur' as [| r0 ur0].
  - rewrite semantic_no_resume, app_nil_r.
    destruct sentence_transformer; reflexivity.
  - destruct uj' as [| j0 uj0].
    + rewrite semantic_no_jd, app_nil_r.
      destruct sentence_transformer; reflexivity.
    + destruct sentence_transformer as [model |] eqn:E; [reflexivity |].
      unfold _semantic_match_skills. rewrite app_nil_r. reflexivity.
Qed.

Variable tfidf_cosine : string -> string -> Q.

(** X6. When a required skill is reported missing.  A required skill is
    missing exactly when all three tiers fail on it: no resume skill
    equals it up to letter case; no resume skill left by the exact tier
    scores 85 or more against it under the fuzzy scorer; and, when an
    embedding model is loaded, no resume skill left by the fuzzy tier has
    an embedding similarity of 0.7 or more with it. *)
Theorem missing_skill_characterised
  (profile : SkillProfile) (jd : ParsedJobDescription)
  (resume_text jd_text : string) (j : string) :
  let rs := all_resume_skill_names profile in
  let js := (Py.or_nil (required_skills jd)
             ++ Py.or_nil (preferred_skills jd))%list in
  let exact_matches := _exact_match_skills rs js in
  let unmatched_resume :=
    filter (not_in (present_resume_skills exact_matches)) rs in
  let unmatched_jd := filter (not_in (map jd_skill exact_matches)) js in
  let fuzzy_matches :=
    _fuzzy_match_skills token_sort_ratio unmatched_resume unmatched_jd 85 in
  let still_unmatched :=
    filter (not_in (present_resume_skills fuzzy_matches)) unmatched_resume in
  In j (Py.or_nil (required_skills jd)) ->
  (In j (missing_skills
           (match_resume_to_jd token_sort_ratio sentence_transformer
              tfidf_cosine profile jd resume_text jd_text))
   <-> (forall r, In r rs -> ~ same_skill r j)
       /\ (forall r, In r unmatched_resume ->
                     (token_sort_ratio j r < 85)%Z)
       /\ (forall model r,
             sentence_transformer = Some model -> In r still_unmatched ->
             cosine model j r < 0.7)).
Proof.
  cbv zeta. intros Hj. unfold match_resume_to_jd. cbn [missing_skills].
  rewrite filter_In, SemanticMatcherProps.not_in_spec.
  cbn [skill_matches].
  pose proof (comprehensive_tiers
                (all_resume_skill_names profile)
                (Py.or_nil (required_skills jd)
                 ++ Py.or_nil (preferred_skills jd))%list) as T.
  cbv zeta in T. rewrite T. clear T.
  set (rs := all_resume_skill_names profile).
  set (js := (Py.or_nil (required_skills jd)
              ++ Py.or_nil (preferred_skills jd))%list).
  set (exact := _exact_match_skills rs js).
  set (ur := filter (not_in (present_resume_skills exact)) rs).
  set (uj := filter (not_in (map jd_skill exact)) js).
  set (fuzzy := _fuzzy_match_skills token_sort_ratio ur uj 85).
  set (ur' := filter (not_in (present_resume_skills fuzzy)) ur).
  set (uj' := filter (not_in (map jd_skill fuzzy)) uj).
  assert (Hjs : In j js) by (apply in_or_app; left; exact Hj).
  rewrite !map_app, !in_app_iff.
  split.
  - intros [_ N].
    assert (Ne : ~ In j (map jd_skill exact)) by tauto.
    assert (Nf : ~ In j (map jd_skill fuzzy)) by tauto.
    assert (Huj : In j uj).
    { apply filter_In. split; [exact Hjs |].
      apply SemanticMatcherProps.not_in_spec, Ne. }
    assert (Huj' : In j uj').
    { apply filter_In. split; [exact Huj |].
      apply SemanticMatcherProps.not_in_spec, Nf. }
    split; [| split].
    + intros r Hr S. apply Ne.
      destruct (exact_match_found rs js j r Hjs Hr S) as [m [Hm [Ej _]]].
      rewrite <- Ej. apply in_map, Hm.
    + intros r Hr. destruct (Z.lt_ge_cases (token_sort_ratio j r) 85)
        as [L | G]; [exact L |].
      exfalso. apply Nf. apply fuzzy_matched_iff.
      split; [exact Huj |]. exists r. split; [exact Hr | lia].
    + intros model r E Hr.
      destruct (Qlt_le_dec (cosine model j r) 0.7) as [L | G]; [exact L |].
      exfalso. apply N. right. apply semantic_matched_iff.
      exists model. split; [exact E |]. split; [exact Huj' |].
      exists r. split; [exact Hr | exact G].
  - intros [H1 [H2 H3]]. split; [exact Hj |].
    intros [[He | Hf] | Hs].
    + apply in_map_iff in He. destruct He as [m [Ej Hm]].
      destruct (exact_match_of rs js m Hm) as [j' [r [_ [Hr [S M]]]]].
      subst m. cbn [jd_skill] in Ej. subst j'. exact (H1 r Hr S).
    + apply fuzzy_matched_iff in Hf. destruct Hf as [_ [r [Hr L]]].
      specialize (H2 r Hr). lia.
    + apply semantic_matched_iff in Hs.
      destruct Hs as [model [E [_ [r [Hr L]]]]].
      apply (Qlt_not_le _ _ (H3 model r E Hr) L).
Qed.

End Cascade.

Lemma missing_skill_characterised_witness :
  In "rust"
     (missing_skills
        (match_resume_to_jd (fun _ _ => 40%Z) (Some constant_model)
           (fun _ _ => 0.5) Samples.profile (Samples.jd ["rust"])
           "python" "rust")).
Proof.
  apply (proj2 (missing_skill_characterised (fun _ _ => 40%Z)
                  (Some constant_model) (fun _ _ => 0.5) Samples.profile
                  (Samples.jd ["rust"]) "python" "rust" "rust"
                  (or_introl eq_refl))).
  split; [| split].
  - intros r [E | []]. subst r. intros S. vm_compute in S. discriminate S.
  - intros r _. reflexivity.
  - intros model r E _. inversion E. vm_compute. reflexivity.
Defined.

(** X9. Without an embedding model the matcher degrades gracefully: the
    embedding similarity is 0, every match is exact or fuzzy and carries no
    semantic similarity, and the overall similarity is at most
    0.40 + 0.25 * text similarity. *)
Theorem matching_without_embedding_model
  (token_sort_ratio : string -> string -> Z)
  (tfidf_cosine : string -> string -> Q)
  (profile : SkillProfile) (jd : ParsedJobDescription)
  (resume_text jd_text : string) :
  let res := match_resume_to_jd token_sort_ratio None tfidf_cosine
               profile jd resume_text jd_text in
  embedding_similarity res = 0.0
  /\ (forall m, In m (skill_matches res) ->
        In (match_type m) ["exact"; "fuzzy"]
        /\ semantic_similarity m = None)
  /\ overall_similarity res <= 0.40 + 0.25 * text_similarity res.
Proof.
  cbv zeta. unfold match_resume_to_jd.
  cbn [embedding_similarity skill_matches overall_similarity
       text_similarity].
  split; [reflexivity |]. split.
  - apply (comprehensive_ind token_sort_ratio None
             (fun m => In (match_type m) ["exact"; "fuzzy"]
                       /\ semantic_similarity m = None));
      intros rs js m H.
    + destruct (exact_match_of rs js m H) as [j [r [_ [_ [_ M]]]]]. subst m.
      simpl. tauto.
    + destruct (fuzzy_match_of token_sort_ratio rs js 85 m H)
        as [j [r [score [_ [_ M]]]]]. subst m. simpl. tauto.
    + contradiction.
  - unfold _calculate_overall_similarity, _calculate_embedding_similarity.
    cbv zeta.
    set (t := _calculate_tfidf_similarity tfidf_cosine resume_text jd_text).
    destruct (0 <? _)%nat.
    + set (a := Py.of_nat _ / _). set (b := Py.sum _ / _). clearbody a b t.
      minmax; lra.
    + minmax; lra.
Qed.

Lemma same_length (a b : list string) :
  NoDup a -> NoDup b -> (forall x, In x a <-> In x b) -> length a = length b.
Proof.
  intros Na Nb H. apply Nat.le_antisymm.
  - apply NoDup_incl_length; [exact Na |]. intros x Hx. apply H, Hx.
  - apply NoDup_incl_length; [exact Nb |]. intros x Hx. apply H, Hx.
Qed.

Lemma intersection_comm (a b : list string) :
  NoDup a -> NoDup b ->
  length (ScoringEngine.intersection a b)
  = length (ScoringEngine.intersection b a).
Proof.
  intros Na Nb. unfold ScoringEngine.intersection.
  apply same_length; try (apply NoDup_filter; assumption).
  intros x. rewrite !filter_In, !SemanticMatcherProps.mem_In. tauto.
Qed.

Lemma union_comm (a b : list string) :
  length (ScoringEngine.union a b) = length (ScoringEngine.union b a).
Proof.
  unfold ScoringEngine.union. apply same_length; try apply NoDup_nodup.
  intros x. rewrite !nodup_In, !in_app_iff. tauto.
Qed.

Lemma jaccard_unit (list1 list2 : list string) :
  ScoringEngine.unit_range (_calculate_jaccard_similarity list1 list2).
Proof.
  unfold _calculate_jaccard_similarity, ScoringEngine.unit_range. cbv zeta.
  destruct (0 <? _)%nat; [| lra].
  apply PyFacts.ratio_bounds, ScoreRanges.intersection_le_union.
Qed.

(** X10. The Jaccard similarity of two skill lists lies in [0,1], does not
    depend on the order of its arguments, and is 0 as soon as one of the
    lists is empty. *)
Theorem jaccard_similarity_laws (list1 list2 : list string) :
  ScoringEngine.unit_range (_calculate_jaccard_similarity list1 list2)
  /\ _calculate_jaccard_similarity list1 list2
     = _calculate_jaccard_similarity list2 list1
  /\ _calculate_jaccard_similarity list1 [] == 0
  /\ _calculate_jaccard_similarity [] list2 == 0.
Proof.
  split; [apply jaccard_unit |].
  unfold _calculate_jaccard_similarity, ScoringEngine.set_of. cbv zeta.
  split; [| split].
  - rewrite (intersection_comm _ _ (NoDup_nodup _ _) (NoDup_nodup _ _)).
    rewrite (union_comm (nodup string_dec (map Py.lower list1))).
    reflexivity.
  - assert (E : ScoringEngine.intersection
                  (nodup string_dec (map Py.lower list1))
                  (nodup string_dec (map Py.lower [])) = []).
    { unfold ScoringEngine.intersection. simpl.
      induction (nodup string_dec (map Py.lower list1)); [reflexivity |].
      simpl. assumption. }
    rewrite E. destruct (0 <? _)%nat; [| reflexivity].
    simpl length. unfold Qdiv. change (Py.of_nat 0) with 0. lra.
  - simpl. destruct (0 <? _)%nat; [| reflexivity].
    unfold Qdiv. change (Py.of_nat 0) with 0. lra.
Qed.

(** X11. The category similarities have at most the keys technical and
    tools, each with a value in [0,1], and are empty when the job
    description lists no required skill. *)
Theorem category_similarities_laws
  (profile : SkillProfile) (jd : ParsedJobDescription) :
  let similarities := _calculate_category_similarities profile jd in
  (forall k v, In (k, v) similarities ->
     In k ["technical"; "tools"] /\ ScoringEngine.unit_range v)
  /\ (Py.or_nil (required_skills jd) = [] -> similarities = []).
Proof.
  cbv zeta. unfold _calculate_category_similarities. cbv zeta.
  set (technical := _calculate_jaccard_similarity _ (Py.or_nil _)).
  set (tools_list := filter _ (Py.or_nil (required_skills jd))).
  set (tools := _calculate_jaccard_similarity _ tools_list).
  assert (T : ScoringEngine.unit_range technical) by apply jaccard_unit.
  assert (U : ScoringEngine.unit_range tools) by apply jaccard_unit.
  clearbody technical tools. split.
  - intros k v H.
    destruct (Py.or_nil (required_skills jd)); destruct tools_list;
      simpl in H;
      repeat match type of H with
             | _ \/ _ => destruct H as [H | H]
             end; try contradiction; inversion H; subst;
      (split; [simpl; tauto | assumption]).
  - intros E. subst tools_list. rewrite E. reflexivity.
Qed.

End SemanticMatcherMore.

(** ** Scoring engine: thresholds, verdicts and confidence *)

Module ScoringEngineMore.

Import ScoringEngine Notions.

(** X12. The years score is a step at the requirement: it is exactly 1 as
    soon as the candidate has the required years (the bonus for 1.5 times
    the requirement is capped away) and at most 0.8 below it. *)
Theorem years_score_threshold
  (resume : ParsedResume) (jd : ParsedJobDescription) :
  (required_years jd <= candidate_years resume
   /\ _calculate_years_experience_score resume jd == 1)
  \/ (candidate_years resume < required_years jd
      /\ _calculate_years_experience_score resume jd <= 0.8).
Proof.
  unfold _calculate_years_experience_score. cbv zeta.
  fold (candidate_years resume). fold (required_years jd).
  destruct (Qlt_le_dec (candidate_years resume) (required_years jd))
    as [Lt | Ge].
  - right. split; [exact Lt |].
    set (ratio := candidate_years resume / required_years jd).
    destruct (Qlt_le_dec ratio 0.75) as [A |]; [| lra].
    destruct (Qlt_le_dec ratio 0.5) as [B |]; lra.
  - left. split; [exact Ge |].
    destruct (Qlt_le_dec _ _); [| lra].
    minmax; lra.
Qed.

(** X13. A "High" verdict is only given when the overall score reaches the
    high threshold, no more skills are missing than matched, and the
    overall confidence is at least 60. *)
Theorem high_suitability_requires
  (self : AdvancedScoringEngine) (overall : Q) (ds : DetailedScores) :
  _determine_suitability self overall ds = "High" ->
  high_score (thresholds self) <= overall
  /\ (skills_missing_count ds <= skills_matched_count ds)%nat
  /\ 60 <= overall_confidence ds.
Proof.
  unfold _determine_suitability, Py.ge, Py.lt. cbv zeta.
  destruct (Qlt_le_dec overall (high_score (thresholds self))) as [H1 | H1];
    destruct (Qlt_le_dec overall (medium_score (thresholds self)));
    destruct (Nat.ltb_spec (skills_matched_count ds)
                           (skills_missing_count ds)) as [H2 | H2];
    destruct (Qlt_le_dec (experience_score ds) 90);
    destruct (Qlt_le_dec (hard_skills_score ds) 95);
    destruct (Qlt_le_dec (education_score ds) 90);
    destruct (Qlt_le_dec overall 50);
    destruct (Qlt_le_dec (overall_confidence ds) 60) as [H3 | H3];
    simpl; intros E; try discriminate E;
    (split; [exact H1 | split; [exact H2 | exact H3]]).
Qed.

Lemma high_suitability_requires_witness :
  high_score (thresholds default_engine) <= 85
  /\ (skills_missing_count strong_scores
      <= skills_matched_count strong_scores)%nat
  /\ 60 <= overall_confidence strong_scores.
Proof.
  apply (high_suitability_requires default_engine 85 strong_scores).
  vm_compute. reflexivity.
Defined.

(** X14. Completeness of the resume never lowers the confidence level: for
    the same detailed scores, a resume with an email address and at least
    one work entry gets a level at least as high as any other resume. *)
Theorem complete_resume_raises_confidence
  (resume complete : ParsedResume) (sm sm' : SemanticMatchResult)
  (ds : DetailedScores) :
  has_email complete -> has_work complete ->
  (confidence_rank (_calculate_confidence_level resume sm ds)
   <= confidence_rank (_calculate_confidence_level complete sm' ds))%nat.
Proof.
  unfold has_email, has_work. intros HE HW.
  unfold _calculate_confidence_level, confidence_factors, Py.mean, Py.sum.
  cbv zeta. rewrite HE. cbn [fold_left length].
  change (Py.of_nat 5) with 5.
  set (f1 := ds_parsing_confidence ds / 100).
  set (f2 := matching_confidence ds / 100).
  set (f3 := Py.min _ 1.0).
  set (e := if Py.truthy_opt (email (contact_info resume)) then 1.0 else 0.5).
  set (w := match work_experience resume with
            | Some (_ :: _) => 1.0
            | _ => 0.3
            end).
  assert (He : e <= 1.0)
    by (subst e; destruct (Py.truthy_opt (email (contact_info resume)));
        lra).
  assert (Hw : w <= 1.0)
    by (subst w; destruct (work_experience resume) as [[| ? ?] |]; lra).
  clearbody f1 f2 f3 e w.
  destruct (work_experience complete) as [[| x xs] |]; try contradiction.
  unfold Py.ge.
  destruct (Qlt_le_dec ((0 + f1 + f2 + f3 + e + w) / 5) 0.8);
    destruct (Qlt_le_dec ((0 + f1 + f2 + f3 + e + w) / 5) 0.6);
    destruct (Qlt_le_dec ((0 + f1 + f2 + f3 + 1.0 + 1.0) / 5) 0.8);
    destruct (Qlt_le_dec ((0 + f1 + f2 + f3 + 1.0 + 1.0) / 5) 0.6);
    unfold confidence_rank; simpl; try lia; exfalso; qlra.
Qed.

Lemma complete_resume_raises_confidence_witness :
  (confidence_rank
     (_calculate_confidence_level Samples.resume Samples.semantic_match
                                  strong_scores)
   <= confidence_rank
        (_calculate_confidence_level senior_resume Samples.semantic_match
                                     strong_scores))%nat.
Proof.
  apply (complete_resume_raises_confidence Samples.resume senior_resume
           Samples.semantic_match Samples.semantic_match strong_scores).
  - reflexivity.
  - simpl. exact I.
Defined.

Lemma degree_level_ge (m : Z) (edu : Education) :
  (m <= degree_level m edu)%Z.
Proof.
  unfold degree_level. destruct (degree edu) as [d |]; [| lia].
  destruct (Py.truthy d); [| lia].
  destruct (find _ education_levels) as [[? lv] |]; lia.
Qed.

Lemma fold_degree_level_ge (l : list Education) (m : Z) :
  (m <= fold_left degree_level l m)%Z.
Proof.
  revert m. induction l as [| e l IH]; intros m; simpl; [lia |].
  pose proof (degree_level_ge m e). pose proof (IH (degree_level m e)). lia.
Qed.

Lemma degree_level_phd (m : Z) (edu : Education) (d : string) :
  degree edu = Some d -> Py.contains "phd" (Py.lower d) = true ->
  (5 <= degree_level m edu)%Z.
Proof.
  intros D C. unfold degree_level. rewrite D.
  assert (T : Py.truthy d = true).
  { destruct d; [simpl in C; discriminate C | reflexivity]. }
  rewrite T. unfold education_levels. cbn [find fst]. rewrite C. lia.
Qed.

Lemma fold_degree_level_phd (l : list Education) (m : Z) (edu : Education)
  (d : string) :
  In edu l -> degree edu = Some d -> Py.contains "phd" (Py.lower d) = true ->
  (5 <= fold_left degree_level l m)%Z.
Proof.
  intros I D C. revert m.
  induction l as [| e l IH]; intros m; [contradiction |].
  simpl. destruct I as [E | I].
  - subst e. pose proof (degree_level_phd m edu d D C).
    pose proof (fold_degree_level_ge l (degree_level m edu)). lia.
  - apply IH. exact I.
Qed.

Lemma required_level_le (jd : ParsedJobDescription) :
  (_extract_required_education_level jd <= 5)%Z.
Proof.
  unfold _extract_required_education_level. cbv zeta.
  repeat match goal with
         | |- context [if ?b then _ else _] => destruct b
         end; lia.
Qed.

(** X15. A candidate who lists a degree whose text contains "phd" (in any
    letter case) gets the full education level score, whatever the job
    description asks for and whatever else the education list holds. *)
Theorem doctorate_meets_any_requirement
  (education_list : list Education) (jd : ParsedJobDescription)
  (edu : Education) (d : string) :
  In edu education_list -> degree edu = Some d ->
  Py.contains "phd" (Py.lower d) = true ->
  _calculate_education_level_score education_list jd = 1.0.
Proof.
  intros I D C. unfold _calculate_education_level_score. cbv zeta.
  pose proof (fold_degree_level_phd education_list 0%Z edu d I D C) as H.
  pose proof (required_level_le jd) as R.
  destruct (Z.leb_spec (_extract_required_education_level jd)
                       (fold_left degree_level education_list 0%Z));
    [reflexivity | lia].
Qed.

Lemma doctorate_meets_any_requirement_witness :
  _calculate_education_level_score [phd] (Samples.jd ["python"]) = 1.0.
Proof.
  apply (doctorate_meets_any_requirement [phd] (Samples.jd ["python"]) phd
           "PhD in Computer Science").
  - simpl. left. reflexivity.
  - reflexivity.
  - vm_compute. reflexivity.
Defined.

Lemma round_half_even_le (y : Q) (n : Z) :
  y <= inject_Z n -> (Py.round_half_even y <= n)%Z.
Proof.
  intros H. unfold Py.round_half_even.
  pose proof (Qfloor_le y) as Hf.
  set (f := Qfloor y) in *.
  assert (F1 : (f <= n)%Z) by (rewrite Zle_Qle; lra).
  destruct (Qlt_le_dec (y - inject_Z f) (1 # 2)) as [_ | Hr]; [lia |].
  assert (F2 : (f < n)%Z) by (rewrite Zlt_Qlt; lra).
  destruct (Qlt_le_dec (1 # 2) (y - inject_Z f)); [lia |].
  destruct (Z.even f); lia.
Qed.

Lemma round_half_even_ge (y : Q) (n : Z) :
  inject_Z n <= y -> (n <= Py.round_half_even y)%Z.
Proof.
  intros H. unfold Py.round_half_even.
  pose proof (Qlt_floor y) as Hc.
  set (f := Qfloor y) in *.
  assert (F0 : (n <= f)%Z).
  { apply Z.lt_succ_r. unfold Z.succ. rewrite Zlt_Qlt. lra. }
  destruct (Qlt_le_dec (y - inject_Z f) (1 # 2)); [lia |].
  destruct (Qlt_le_dec (1 # 2) (y - inject_Z f)); [lia |].
  destruct (Z.even f); lia.
Qed.

(** Rounding to one decimal keeps a value between two bounds that have at
    most one decimal themselves. *)
Lemma round1_between (x : Q) (lo hi : Z) :
  inject_Z lo / 10 <= x <= inject_Z hi / 10 ->
  inject_Z lo / 10 <= Py.round1 x <= inject_Z hi / 10.
Proof.
  intros [H0 H1]. unfold Py.round1.
  assert (L : (lo <= Py.round_half_even (x * 10))%Z)
    by (apply round_half_even_ge; qlra).
  assert (U : (Py.round_half_even (x * 10) <= hi)%Z)
    by (apply round_half_even_le; qlra).
  rewrite Zle_Qle in L, U.
  set (z := inject_Z (Py.round_half_even _)) in *. clearbody z. qlra.
Qed.

(** X16. Whatever weights pass validation, as long as none is negative the
    overall score stays within [0, 101]: the tolerance of the validation
    lets it exceed 100 by at most one point. *)
Theorem validated_overall_score_bound
  (settings : Settings) (current_year : Z)
  (resume : ParsedResume) (profile : SkillProfile)
  (sm : SemanticMatchResult) (jd : ParsedJobDescription)
  (w : ScoringWeights) (fs : FinalScore) :
  valid_inputs resume sm ->
  0 <= hard_skills w -> 0 <= soft_skills_weight w -> 0 <= experience w ->
  0 <= education_weight w -> 0 <= semantic_match w ->
  Score settings current_year resume profile sm jd (Some w) = Ok fs ->
  0 <= overall_score fs <= 101.
Proof.
  intros [Hy Hs] W1 W2 W3 W4 W5 HS. unfold Score, init, validate in HS.
  destruct (Qlt_le_dec 0.01 (Qabs (weights_total w - 1.0))) as [| T];
    simpl in HS; [discriminate HS |].
  inversion HS; subst fs; clear HS.
  unfold calculate_comprehensive_score. cbv zeta.
  cbn [overall_score weights].
  apply Qabs_Qle_condition in T. destruct T as [_ T].
  unfold weights_total in T.
  pose proof (ScoreRanges.weighted_unit _ _
                (ScoreRanges.hard_skills_unit profile sm jd) W1) as H1.
  pose proof (ScoreRanges.weighted_unit _ _
                (ScoreRanges.soft_skills_unit profile jd) W2) as H2.
  pose proof (ScoreRanges.weighted_unit _ _
                (ScoreRanges.experience_unit current_year resume jd Hy) W3)
    as H3.
  pose proof (ScoreRanges.weighted_unit _ _
                (ScoreRanges.education_unit resume jd) W4) as H4.
  assert (H5 : unit_range (_calculate_semantic_score sm)) by exact Hs.
  apply (fun h => ScoreRanges.weighted_unit _ _ h W5) in H5.
  match goal with
  | |- 0 <= Py.round1 ?x <= 101 =>
      assert (B : 0 <= x <= 101) by lra;
      destruct (round1_between x 0 1010) as [R0 R1]
  end.
  { change (inject_Z 0) with 0. change (inject_Z 1010) with 1010. qlra. }
  change (inject_Z 0) with 0 in R0. change (inject_Z 1010) with 1010 in R1.
  set (r := Py.round1 _) in *. clearbody r. qlra.
Qed.

Lemma validated_overall_score_bound_witness :
  exists fs,
    Score default_settings Samples.this_year Samples.resume Samples.profile
          Samples.semantic_match (Samples.jd ["python"])
          (Some Samples.heavy_weights) = Ok fs
    /\ 0 <= overall_score fs <= 101.
Proof.
  eexists. split; [vm_compute; reflexivity |].
  apply (validated_overall_score_bound default_settings Samples.this_year
           Samples.resume Samples.profile Samples.semantic_match
           (Samples.jd ["python"]) Samples.heavy_weights).
  - split; [intros y E; discriminate E | vm_compute; split; discriminate].
  - vm_compute; discriminate.
  - vm_compute; discriminate.
  - vm_compute; discriminate.
  - vm_compute; discriminate.
  - vm_compute; discriminate.
  - vm_compute. reflexivity.
Defined.

(** X17. A work title that equals the job title up to letter case, and
    has at least one word, is fully relevant. *)
Theorem matching_titles_are_fully_relevant (resume_title jd_title : string) :
  Py.lower resume_title = Py.lower jd_title ->
  Py.split (Py.lower jd_title) <> [] ->
  _calculate_title_relevance resume_title jd_title == 1.
Proof.
  intros E W. unfold _calculate_title_relevance.
  assert (Tj : Py.truthy jd_title = true).
  { destruct jd_title; [exfalso; apply W; reflexivity | reflexivity]. }
  assert (Tr : Py.truthy resume_title = true).
  { destruct resume_title; [| reflexivity].
    destruct jd_title; [discriminate Tj | discriminate E]. }
  rewrite Tr, Tj, E. cbv zeta. cbn [negb orb].
  set (w := set_of (Py.split (Py.lower jd_title))).
  assert (Nw : NoDup w) by apply NoDup_nodup.
  assert (Lw : (0 < length w)%nat).
  { destruct (Py.split (Py.lower jd_title)) as [| x xs] eqn:S;
      [contradiction |].
    assert (I : In x w)
      by (subst w; unfold set_of; apply nodup_In; left; reflexivity).
    destruct w; [contradiction | simpl; lia]. }
  assert (I : intersection w w = w).
  { unfold intersection. apply SemanticMatcherMore.filter_all.
    intros x Hx. apply SemanticMatcherProps.mem_In. exact Hx. }
  assert (U : length (union w w) = length w).
  { unfold union. apply SemanticMatcherMore.same_length;
      [apply NoDup_nodup | exact Nw |].
    intros x. rewrite nodup_In, in_app_iff. tauto. }
  rewrite I. destruct (union w w) as [| u us] eqn:EU.
  - simpl in U. lia.
  - rewrite U. apply Qmult_inv_r.
    pose proof (PyFacts.of_nat_pos (length w) Lw). lra.
Qed.

Lemma matching_titles_are_fully_relevant_witness :
  _calculate_title_relevance "Backend Engineer" "backend engineer" == 1.
Proof.
  apply (matching_titles_are_fully_relevant "Backend Engineer"
           "backend engineer").
  - reflexivity.
  - vm_compute. discriminate.
Defined.

End ScoringEngineMore.

(** ** Feedback generator: strengths, learning resources and skill gaps *)

Module FeedbackGeneratorProps.

Import ScoringEngine FeedbackGenerator.

(** X18. The top strengths are never empty and never more than five; the
    fallback "general qualifications" is given exactly when none of the
    five component scores reaches 80. *)
Theorem top_strengths_never_empty (final_score : FinalScore) :
  let detailed := detailed_scores final_score in
  let strengths := _extract_top_strengths final_score in
  strengths <> []
  /\ (length strengths <= 5)%nat
  /\ (In "general qualifications" strengths <->
      hard_skills_score detailed < 80 /\ experience_score detailed < 80
      /\ education_score detailed < 80 /\ soft_skills_score detailed < 80
      /\ semantic_match_score detailed < 80).
Proof.
  cbv zeta. unfold _extract_top_strengths, Py.ge. cbv zeta.
  destruct (Qlt_le_dec (hard_skills_score (detailed_scores final_score)) 80);
    destruct (Qlt_le_dec (experience_score (detailed_scores final_score)) 80);
    destruct (Qlt_le_dec (education_score (detailed_scores final_score)) 80);
    destruct (Qlt_le_dec (soft_skills_score (detailed_scores final_score)) 80);
    destruct (Qlt_le_dec (semantic_match_score (detailed_scores final_score))
                         80);
    simpl;
    (split; [discriminate |]; split; [lia |]; split;
     [ intros H;
       repeat match goal with
              | H : _ \/ _ |- _ => destruct H as [H | H]
              end; try discriminate H; try contradiction;
       repeat split; assumption
     | intros [H1 [H2 [H3 [H4 H5]]]];
       try (left; reflexivity); exfalso; lra ]).
Qed.

Lemma resource_truthy (skill : string) :
  Py.truthy (_get_learning_resource skill) = true.
Proof.
  unfold _get_learning_resource. cbv zeta.
  destruct (find _ resource_map) as [[k r] |] eqn:E; [| reflexivity].
  apply find_some in E. destruct E as [I _].
  unfold resource_map in I. simpl in I.
  repeat match goal with
         | H : _ \/ _ |- _ => destruct H as [H | H]
         end; try contradiction; inversion I; reflexivity.
Qed.

(** X19. The JavaScript learning resource is never recommended: a skill
    whose name contains "javascript" also contains "java", which comes
    first in the resource map. *)
Theorem javascript_resource_never_returned (skill : string) :
  _get_learning_resource skill
  <> "MDN Web Docs, freeCodeCamp JavaScript curriculum".
Proof.
  unfold _get_learning_resource, resource_map. cbv zeta. cbn [find fst].
  set (s := Py.lower skill).
  destruct (Py.contains "python" s); [discriminate |].
  destruct (Py.contains "java" s) eqn:J; [discriminate |].
  assert (JS : Py.contains "javascript" s = false).
  { destruct (Py.contains "javascript" s) eqn:E; [| reflexivity].
    change "javascript" with ("java" ++ "script")%string in E.
    apply JobDescriptionParserProps.contains_app_l in E. congruence. }
  rewrite JS.
  repeat match goal with
         | |- context [if ?b then _ else _] => destruct b
         end; discriminate.
Qed.

Lemma gaps_fields (sm : SemanticMatchResult) (jd : ParsedJobDescription) :
  let gaps := _analyze_skill_gaps sm jd in
  let required := Py.or_nil (required_skills jd) in
  gap gaps "critical_missing"
  = filter (fun skill => Py.mem skill required) (missing_skills sm)
  /\ gap gaps "nice_to_have"
     = filter (fun skill => negb (Py.mem skill required)
                            && Py.mem skill (Py.or_nil (preferred_skills jd)))
              (missing_skills sm)
  /\ gap gaps "learning_resources"
     = flat_map (fun skill =>
                   if Py.truthy (_get_learning_resource skill)
                   then [(skill ++ ": " ++ _get_learning_resource skill)%string]
                   else [])
                (firstn 3 (missing_skills sm))
  /\ gap gaps "alternative_skills"
     = map (fun additional_skill =>
              (additional_skill ++ " - leverage this existing skill")%string)
           (firstn 2 (additional_skills sm)).
Proof.
  cbv zeta. repeat split; reflexivity.
Qed.

Lemma filter_none (A : Type) (p : A -> bool) (l : list A) :
  (forall x, In x l -> p x = false) -> filter p l = [].
Proof.
  induction l as [| x l IH]; intros H; simpl; [reflexivity |].
  rewrite (H x (or_introl eq_refl)). apply IH.
  intros y Hy. apply H. right. exact Hy.
Qed.

Lemma resources_count (l : list string) :
  length (flat_map (fun skill =>
                      if Py.truthy (_get_learning_resource skill)
                      then [(skill ++ ": "
                             ++ _get_learning_resource skill)%string]
                      else []) l)
  = length l.
Proof.
  induction l as [| x l IH]; [reflexivity |].
  cbn [flat_map]. rewrite resource_truthy. cbn [app length].
  rewrite IH. reflexivity.
Qed.

(** X20. On the output of the matcher, the skill gap analysis lists every
    missing skill as critical and none as nice to have (the matcher only
    reports required skills as missing); it gives a learning resource for
    each of the first three missing skills and an alternative for each of
    the first two additional skills. *)
Theorem skill_gaps_of_pipeline
  (token_sort_ratio : string -> string -> Z)
  (sentence_transformer : option SemanticMatcher.SentenceTransformer)
  (tfidf_cosine : string -> string -> Q)
  (profile : SkillProfile) (jd : ParsedJobDescription)
  (resume_text jd_text : string) :
  let sm := SemanticMatcher.match_resume_to_jd token_sort_ratio
              sentence_transformer tfidf_cosine profile jd
              resume_text jd_text in
  let gaps := _analyze_skill_gaps sm jd in
  gap gaps "critical_missing" = missing_skills sm
  /\ gap gaps "nice_to_have" = []
  /\ length (gap gaps "learning_resources")
     = Nat.min 3 (length (missing_skills sm))
  /\ length (gap gaps "alternative_skills")
     = Nat.min 2 (length (additional_skills sm)).
Proof.
  cbv zeta.
  set (sm := SemanticMatcher.match_resume_to_jd _ _ _ _ _ _ _).
  destruct (gaps_fields sm jd) as [E1 [E2 [E3 E4]]].
  rewrite E1, E2, E3, E4. clear E1 E2 E3 E4.
  assert (R : forall s, In s (missing_skills sm) ->
                Py.mem s (Py.or_nil (required_skills jd)) = true).
  { intros s Hs. subst sm. unfold SemanticMatcher.match_resume_to_jd in Hs.
    cbn [missing_skills] in Hs. apply filter_In in Hs.
    apply SemanticMatcherProps.mem_In. tauto. }
  split; [apply SemanticMatcherMore.filter_all; exact R |].
  split.
  { apply filter_none. intros s Hs. rewrite (R s Hs). reflexivity. }
  split.
  - rewrite resources_count. apply length_firstn.
  - rewrite length_map. apply length_firstn.
Qed.

End FeedbackGeneratorProps.

(** ** Skill extractor: deduplication, well-formed skills, context *)

Module SkillExtractorMore.

Import SkillExtractor SkillExtractorProps Notions.

(** *** The deduplication dictionary *)

Lemma get_set_same (V : Type) (k : skill_key) (v : V)
  (d : list (skill_key * V)) :
  dict_get key_eqb k (dict_set key_eqb k v d) = Some v.
Proof.
  induction d as [| [k' v'] d IH]; simpl.
  - rewrite (proj2 (key_eqb_eq k k) eq_refl). reflexivity.
  - destruct (key_eqb k' k) eqn:E; simpl; rewrite E; [reflexivity | exact IH].
Qed.

Lemma get_set_other (V : Type) (k k0 : skill_key) (v : V)
  (d : list (skill_key * V)) :
  k <> k0 ->
  dict_get key_eqb k0 (dict_set key_eqb k v d) = dict_get key_eqb k0 d.
Proof.
  intros N. induction d as [| [k' v'] d IH]; simpl.
  - destruct (key_eqb k k0) eqn:E; [| reflexivity].
    apply key_eqb_eq in E. contradiction.
  - destruct (key_eqb k' k) eqn:E; simpl.
    + destruct (key_eqb k' k0) eqn:E0; [| reflexivity].
      apply key_eqb_eq in E. apply key_eqb_eq in E0. congruence.
    + rewrite IH. reflexivity.
Qed.

Lemma get_In (V : Type) (k : skill_key) (v : V) (d : list (skill_key * V)) :
  dict_get key_eqb k d = Some v -> In (k, v) d.
Proof.
  induction d as [| [k' v'] d IH]; simpl; [discriminate |].
  destruct (key_eqb k' k) eqn:E.
  - intros H. inversion H; subst. apply key_eqb_eq in E. subst. left.
    reflexivity.
  - intros H. right. apply IH, H.
Qed.

Lemma set_In (V : Type) (k k0 : skill_key) (v v0 : V)
  (d : list (skill_key * V)) :
  In (k0, v0) (dict_set key_eqb k v d) -> v0 = v \/ In (k0, v0) d.
Proof.
  induction d as [| [k' v'] d IH]; simpl.
  - intros [H | []]. inversion H. left. reflexivity.
  - destruct (key_eqb k' k); simpl.
    + intros [H | H]; [inversion H; left; reflexivity | right; right; exact H].
    + intros [H | H]; [right; left; exact H |].
      destruct (IH H) as [E | I]; [left; exact E | right; right; exact I].
Qed.

(** Every entry of the dictionary is one of the skills seen so far. *)
Lemma dedup_step_from (seen : list ExtractedSkill) (skill : ExtractedSkill)
  (d : list (skill_key * ExtractedSkill)) :
  (forall e, In e d -> In (snd e) seen) ->
  forall e, In e (dedup_step d skill) -> In (snd e) (skill :: seen).
Proof.
  intros H [k v] He. unfold dedup_step in He. cbv zeta in He.
  assert (S : In (k, v) (dict_set key_eqb (key_of skill) skill d) ->
              In v (skill :: seen)).
  { intros I. apply set_In in I. destruct I as [E | I].
    - left. symmetry. exact E.
    - right. exact (H _ I). }
  destruct (dict_get key_eqb (key_of skill) d) as [kept |].
  - destruct (Py.gt (confidence skill) (confidence kept)).
    + apply S, He.
    + right. exact (H _ He).
  - apply S, He.
Qed.

Lemma fold_dedup_from (skills seen : list ExtractedSkill)
  (d : list (skill_key * ExtractedSkill)) :
  (forall e, In e d -> In (snd e) seen) ->
  forall e, In e (fold_left dedup_step skills d) ->
            In (snd e) (seen ++ skills)%list.
Proof.
  revert seen d. induction skills as [| s skills IH]; intros seen d H e He.
  - rewrite app_nil_r. apply H, He.
  - simpl in He.
    apply (IH (s :: seen) (dedup_step d s) (dedup_step_from seen s d H)) in He.
    apply in_app_or in He. apply in_or_app.
    destruct He as [[E | I] | I].
    + right. left. exact E.
    + left. exact I.
    + right. right. exact I.
Qed.

Lemma deduplicate_from (skills : list ExtractedSkill) (s : ExtractedSkill) :
  In s (_deduplicate_skills skills) -> In s skills.
Proof.
  unfold _deduplicate_skills. intros H. apply in_map_iff in H.
  destruct H as [e [E He]]. subst s.
  apply (fold_dedup_from skills [] []) in He; [exact He |].
  intros e' [].
Qed.

(** Each skill seen so far is represented, under its key, by a skill of
    at least its confidence. *)
Lemma dedup_step_best (seen : list ExtractedSkill) (skill : ExtractedSkill)
  (d : list (skill_key * ExtractedSkill)) :
  keyed d ->
  (forall s, In s seen ->
     exists s', dict_get key_eqb (key_of s) d = Some s'
                /\ confidence s <= confidence s') ->
  forall s, In s (skill :: seen) ->
    exists s', dict_get key_eqb (key_of s) (dedup_step d skill) = Some s'
               /\ confidence s <= confidence s'.
Proof.
  intros Hk H s Hs. unfold dedup_step. cbv zeta.
  destruct (dict_get key_eqb (key_of skill) d) as [kept |] eqn:G.
  - unfold Py.gt, Py.lt.
    destruct (Qlt_le_dec (confidence kept) (confidence skill)) as [Lt | Le].
    + destruct (key_eqb (key_of skill) (key_of s)) eqn:E.
      * apply key_eqb_eq in E. rewrite <- E, get_set_same.
        exists skill. split; [reflexivity |].
        destruct Hs as [Hs | Hs]; [subst s; apply Qle_refl |].
        destruct (H s Hs) as [s' [G' L]]. rewrite <- E, G in G'.
        inversion G'; subst s'. lra.
      * assert (N : key_of skill <> key_of s).
        { intros C. apply key_eqb_eq in C. congruence. }
        rewrite (get_set_other _ _ _ _ _ N).
        destruct Hs as [Hs | Hs]; [subst s; contradiction |].
        exact (H s Hs).
    + destruct Hs as [Hs | Hs]; [| exact (H s Hs)].
      subst s. exists kept. split; [exact G | exact Le].
  - destruct (key_eqb (key_of skill) (key_of s)) eqn:E.
    + apply key_eqb_eq in E. rewrite <- E, get_set_same.
      exists skill. split; [reflexivity |].
      destruct Hs as [Hs | Hs]; [subst s; apply Qle_refl |].
      destruct (H s Hs) as [s' [G' _]]. rewrite <- E, G in G'.
      discriminate G'.
    + assert (N : key_of skill <> key_of s).
      { intros C. apply key_eqb_eq in C. congruence. }
      rewrite (get_set_other _ _ _ _ _ N).
      destruct Hs as [Hs | Hs]; [subst s; contradiction |].
      exact (H s Hs).
Qed.

Lemma fold_dedup_best (skills seen : list ExtractedSkill)
  (d : list (skill_key * ExtractedSkill)) :
  NoDup (map fst d) /\ keyed d ->
  (forall s, In s seen ->
     exists s', dict_get key_eqb (key_of s) d = Some s'
                /\ confidence s <= confidence s') ->
  forall s, In s (seen ++ skills)%list ->
    exists s', dict_get key_eqb (key_of s) (fold_left dedup_step skills d)
               = Some s'
               /\ confidence s <= confidence s'.
Proof.
  revert seen d. induction skills as [| x skills IH]; intros seen d I H s Hs.
  - rewrite app_nil_r in Hs. exact (H s Hs).
  - simpl.
    apply (IH (x :: seen) (dedup_step d x) (dedup_step_invariant x d I)
              (dedup_step_best seen x d (proj2 I) H)).
    apply in_app_or in Hs. apply in_or_app.
    destruct Hs as [Hs | [Hs | Hs]].
    + left. right. exact Hs.
    + left. left. exact Hs.
    + right. exact Hs.
Qed.

Lemma deduplicate_best (skills : list ExtractedSkill) (s : ExtractedSkill) :
  In s skills ->
  exists s', In s' (_deduplicate_skills skills)
             /\ key_of s' = key_of s
             /\ confidence s <= confidence s'.
Proof.
  intros Hs.
  assert (I0 : NoDup (map fst (@nil (skill_key * ExtractedSkill)))
               /\ keyed []) by (split; constructor).
  destruct (fold_dedup_best skills [] [] I0 (fun s0 (F : In s0 []) =>
                                               match F with end) s Hs)
    as [s' [G L]].
  destruct (fold_dedup_invariant skills [] I0) as [_ Hk].
  apply get_In in G. exists s'. split; [| split; [| exact L]].
  - unfold _deduplicate_skills. apply in_map_iff.
    exists (key_of s, s'). split; [reflexivity | exact G].
  - unfold keyed in Hk. rewrite Forall_forall in Hk.
    specialize (Hk _ G). simpl in Hk. symmetry. exact Hk.
Qed.

(** X21. Deduplication keeps, for every (lowercased name, category), one
    of the extracted skills of highest confidence: its output is drawn from
    its input, and every input skill is represented by an output skill with
    the same key and at least the same confidence. *)
Theorem deduplication_keeps_best (skills : list ExtractedSkill) :
  (forall s', In s' (_deduplicate_skills skills) -> In s' skills)
  /\ (forall s, In s skills ->
        exists s', In s' (_deduplicate_skills skills)
                   /\ key_of s' = key_of s
                   /\ confidence s <= confidence s').
Proof.
  split.
  - intros s' H. apply deduplicate_from. exact H.
  - intros s H. apply deduplicate_best. exact H.
Qed.

(** *** Well-formed skills *)

Lemma dictionary_confidence_range (skill_term text : string) :
  0.8 <= _calculate_dictionary_confidence skill_term text <= 1.
Proof.
  unfold _calculate_dictionary_confidence. cbv zeta.
  set (count := Py.count text (Py.lower skill_term)).
  set (w := existsb _ _).
  destruct (Nat.ltb_spec 1 count) as [H | H].
  - pose proof (PyFacts.of_nat_le 2 count H) as C.
    change (Py.of_nat 2) with 2 in C.
    set (c := Py.of_nat count) in *. clearbody c.
    destruct w; minmax; lra.
  - destruct w; minmax; lra.
Qed.

Lemma lookup_listed (key : string) (v : string * string)
  (d : lookup_table) :
  dict_get String.eqb key d = Some v -> In v (map snd d).
Proof.
  induction d as [| [k' v'] d IH]; simpl; [discriminate |].
  destruct (k' =? key)%string.
  - intros H. inversion H. left. reflexivity.
  - intros H. right. apply IH, H.
Qed.

Lemma dictionary_wellformed (text : string) (s : ExtractedSkill) :
  In s (_extract_skills_dictionary text) -> confident s /\ listed s.
Proof.
  unfold _extract_skills_dictionary. cbv zeta. rewrite in_flat_map.
  intros [[term [canonical cat]] [He Hs]].
  destruct (Py.contains term (Py.lower text)); [| contradiction].
  destruct Hs as [Hs | []]. subst s. split.
  - unfold confident. cbn [confidence].
    pose proof (dictionary_confidence_range term (Py.lower text)). lra.
  - unfold listed. cbn [name category].
    apply in_map_iff. exists (term, (canonical, cat)).
    split; [reflexivity | exact He].
Qed.

Lemma lookup_hit_wellformed (text phrase : string) (conf : Q)
  (s : ExtractedSkill) :
  0.7 <= conf <= 1 ->
  In s (lookup_hit text phrase conf) -> confident s /\ listed s.
Proof.
  intros C. unfold lookup_hit.
  destruct (dict_get String.eqb phrase skill_lookup) as [[canonical cat] |]
    eqn:G; [| contradiction].
  intros [Hs | []]. subst s. split.
  - unfold confident. cbn [confidence]. exact C.
  - unfold listed. cbn [name category]. exact (lookup_listed _ _ _ G).
Qed.

Lemma pattern_hits_wellformed (text : string) (conf : Q)
  (patterns : list Re.regex) (s : ExtractedSkill) :
  0.7 <= conf <= 1 ->
  In s (pattern_hits text conf patterns) -> confident s /\ listed s.
Proof.
  intros C. unfold pattern_hits. rewrite in_flat_map.
  intros [p [_ H]]. rewrite in_flat_map in H. destruct H as [m [_ H]].
  cbv zeta in H.
  destruct (dict_get String.eqb (Py.lower (Re.group1 text m)) skill_lookup)
    as [[canonical cat] |] eqn:G; [| contradiction].
  destruct H as [Hs | []]. subst s. split.
  - unfold confident. cbn [confidence]. exact C.
  - unfold listed. cbn [name category]. exact (lookup_listed _ _ _ G).
Qed.

Lemma patterns_wellformed (text : string) (s : ExtractedSkill) :
  In s (_extract_skills_patterns text) -> confident s /\ listed s.
Proof.
  unfold _extract_skills_patterns. intros H. apply in_app_or in H.
  destruct H as [H | H];
    (eapply pattern_hits_wellformed; [| exact H]); lra.
Qed.

Lemma nlp_wellformed (nlp : option Language) (text : string)
  (s : ExtractedSkill) :
  In s (_extract_skills_nlp nlp text) -> confident s /\ listed s.
Proof.
  unfold _extract_skills_nlp. destruct nlp as [model |]; [| contradiction].
  intros H. apply in_app_or in H. destruct H as [H | H];
    rewrite in_flat_map in H.
  - destruct H as [chunk [_ H]]. cbv zeta in H.
    destruct (_ || _); [contradiction |].
    eapply lookup_hit_wellformed; [| exact H]. lra.
  - destruct H as [[ent_raw label] [_ H]].
    destruct (Py.mem label _); [| contradiction].
    eapply lookup_hit_wellformed; [| exact H]. lra.
Qed.

Lemma contextual_wellformed (text : string) (s : ExtractedSkill) :
  In s (_extract_skills_contextual text) -> confident s /\ listed s.
Proof.
  unfold _extract_skills_contextual. rewrite in_flat_map.
  intros [p [_ H]]. rewrite in_flat_map in H. destruct H as [m [_ H]].
  cbv zeta in H. rewrite in_flat_map in H. destruct H as [c [_ H]].
  destruct (dict_get String.eqb (Py.lower (Py.strip c)) skill_lookup)
    as [[canonical cat] |] eqn:G; [| contradiction].
  destruct H as [Hs | []]. subst s. split.
  - unfold confident. cbn [confidence]. lra.
  - unfold listed. cbn [name category]. exact (lookup_listed _ _ _ G).
Qed.

Lemma profile_from_dedup (skills : list ExtractedSkill) (text : string)
  (s : ExtractedSkill) :
  In s (profile_skills (_build_skill_profile (_categorize_skills skills)
                                             text)) ->
  In s skills.
Proof.
  destruct (profile_of_categorized skills text) as [E1 [E2 [E3 E4]]].
  unfold profile_skills. rewrite E1, E2, E3, E4. intros H.
  repeat (apply in_app_or in H; destruct H as [H | H]);
    apply filter_In in H; tauto.
Qed.

Lemma categories_known :
  forallb (fun e : string * (string * string) =>
             Py.mem (snd (snd e)) known_categories) skill_lookup = true.
Proof.
  vm_compute. reflexivity.
Qed.

Lemma listed_category (s : ExtractedSkill) :
  listed s -> In (category s) known_categories.
Proof.
  unfold listed. intros H. apply in_map_iff in H.
  destruct H as [e [E He]].
  pose proof categories_known as K. rewrite forallb_forall in K.
  specialize (K e He). rewrite E in K. cbn [snd] in K.
  apply SemanticMatcherProps.mem_In. exact K.
Qed.

Lemma extracted_wellformed (nlp : option Language) (text : string)
  (s : ExtractedSkill) :
  In s (profile_skills (extract_skills nlp text)) -> confident s /\ listed s.
Proof.
  unfold extract_skills. cbv zeta. intros H.
  apply profile_from_dedup, deduplicate_from in H.
  apply in_app_or in H. destruct H as [H | H];
    [exact (dictionary_wellformed _ _ H) |].
  apply in_app_or in H. destruct H as [H | H];
    [exact (patterns_wellformed _ _ H) |].
  apply in_app_or in H. destruct H as [H | H];
    [exact (nlp_wellformed _ _ _ H) | exact (contextual_wellformed _ _ H)].
Qed.

(** X22. Every skill of an extracted profile is an entry of the skill
    dictionary (its canonical name under its category, one of the eight
    categories of the dictionary) and has a confidence in [0.7, 1],
    whichever strategy found it. *)
Theorem extracted_skills_wellformed (nlp : option Language) (text : string)
  (s : ExtractedSkill) :
  In s (profile_skills (extract_skills nlp text)) ->
  0.7 <= confidence s <= 1
  /\ In (name s, category s) (map snd skill_lookup)
  /\ In (category s) known_categories.
Proof.
  intros H. destruct (extracted_wellformed nlp text s H) as [C L].
  split; [exact C |]. split; [exact L | apply listed_category, L].
Qed.

Lemma extracted_skills_wellformed_witness :
  0.7 <= confidence python_skill <= 1
  /\ In (name python_skill, category python_skill) (map snd skill_lookup)
  /\ In (category python_skill) known_categories.
Proof.
  assert (H : In python_skill (profile_skills (extract_skills None "python"))).
  { vm_compute. left. reflexivity. }
  exact (extracted_skills_wellformed None "python" python_skill H).
Defined.

Lemma bucket_category (s : ExtractedSkill) :
  In (category s) known_categories ->
  (bucket_of s = "technical_skills" ->
   In (category s)
      ["programming_languages"; "web_technologies"; "databases"])
  /\ (bucket_of s = "soft_skills" -> category s = "soft_skills")
  /\ (bucket_of s = "domain_expertise" ->
      In (category s) ["data_science"; "mobile_development"])
  /\ (bucket_of s = "tools_platforms" ->
      In (category s) ["cloud_platforms"; "devops_tools"]).
Proof.
  destruct s as [n c cf cx al pl]. unfold bucket_of. cbn [category].
  unfold known_categories. intros K. simpl in K.
  repeat match type of K with
         | _ \/ _ => destruct K as [K | K]
         end; try contradiction; subst c; simpl;
    repeat split; intros E; try discriminate E; tauto.
Qed.

Lemma profile_bucket_of (skills : list ExtractedSkill) (text : string) :
  let p := _build_skill_profile (_categorize_skills skills) text in
  (forall s, In s (technical_skills p) ->
     bucket_of s = "technical_skills" /\ In s (profile_skills p))
  /\ (forall s, In s (soft_skills p) ->
        bucket_of s = "soft_skills" /\ In s (profile_skills p))
  /\ (forall s, In s (domain_expertise p) ->
        bucket_of s = "domain_expertise" /\ In s (profile_skills p))
  /\ (forall s, In s (tools_platforms p) ->
        bucket_of s = "tools_platforms" /\ In s (profile_skills p)).
Proof.
  cbv zeta. unfold profile_skills.
  destruct (profile_of_categorized skills text) as [E1 [E2 [E3 E4]]].
  rewrite E1, E2, E3, E4. clear E1 E2 E3 E4.
  assert (B : forall b s, In s (filter (in_bucket b) skills) ->
                bucket_of s = b).
  { intros b s H. apply filter_In in H. destruct H as [_ H].
    unfold in_bucket in H. apply String.eqb_eq in H. exact H. }
  split; [| split; [| split]]; intros s H; (split; [exact (B _ s H) |]).
  - apply in_or_app. left. exact H.
  - apply in_or_app. right. apply in_or_app. left. exact H.
  - apply in_or_app. right. apply in_or_app. right.
    apply in_or_app. left. exact H.
  - apply in_or_app. right. apply in_or_app. right.
    apply in_or_app. right. exact H.
Qed.

(** X23. The buckets of an extracted profile follow the categories of the
    dictionary: soft skills hold the category soft_skills, tools and
    platforms hold cloud_platforms and devops_tools, domain expertise holds
    data_science and mobile_development, and technical skills hold
    programming_languages, web_technologies and databases. *)
Theorem profile_buckets_by_category (nlp : option Language) (text : string) :
  let p := extract_skills nlp text in
  (forall s, In s (technical_skills p) ->
     In (category s)
        ["programming_languages"; "web_technologies"; "databases"])
  /\ (forall s, In s (soft_skills p) -> category s = "soft_skills")
  /\ (forall s, In s (domain_expertise p) ->
        In (category s) ["data_science"; "mobile_development"])
  /\ (forall s, In s (tools_platforms p) ->
        In (category s) ["cloud_platforms"; "devops_tools"]).
Proof.
  cbv zeta.
  assert (K : forall s, In s (profile_skills (extract_skills nlp text)) ->
                In (category s) known_categories).
  { intros s H. apply listed_category.
    exact (proj2 (extracted_wellformed nlp text s H)). }
  revert K. unfold extract_skills. cbv zeta.
  set (skills := _deduplicate_skills _). clearbody skills. intros K.
  destruct (profile_bucket_of skills text) as [T [S [D P]]].
  split; [| split; [| split]]; intros s H.
  - destruct (T s H) as [B I]. exact (proj1 (bucket_category s (K s I)) B).
  - destruct (S s H) as [B I].
    exact (proj1 (proj2 (bucket_category s (K s I))) B).
  - destruct (D s H) as [B I].
    exact (proj1 (proj2 (proj2 (bucket_category s (K s I)))) B).
  - destruct (P s H) as [B I].
    exact (proj2 (proj2 (proj2 (bucket_category s (K s I)))) B).
Qed.

(** *** Completeness of the dictionary strategy *)

Lemma lookup_entry (key : string) (v : string * string) (d : lookup_table) :
  dict_get String.eqb key d = Some v -> In (key, v) d.
Proof.
  induction d as [| [k' v'] d IH]; simpl; [discriminate |].
  destruct (String.eqb_spec k' key) as [E | _].
  - intros H. inversion H. subst. left. reflexivity.
  - intros H. right. apply IH, H.
Qed.

Lemma dictionary_hit (text term canonical cat : string) :
  In (term, (canonical, cat)) skill_lookup ->
  Py.contains term (Py.lower text) = true ->
  exists s, In s (_extract_skills_dictionary text)
            /\ name s = canonical /\ category s = cat
            /\ 0.8 <= confidence s.
Proof.
  intros He Hc.
  exists (mkExtractedSkill canonical cat
            (_calculate_dictionary_confidence term (Py.lower text))
            (_extract_context text term None) None None).
  split; [| split; [reflexivity | split; [reflexivity |]]].
  - unfold _extract_skills_dictionary. cbv zeta. apply in_flat_map.
    exists (term, (canonical, cat)). split; [exact He |].
    rewrite Hc. left. reflexivity.
  - cbn [confidence].
    exact (proj1 (dictionary_confidence_range term (Py.lower text))).
Qed.

Lemma profile_holds_dedup (skills : list ExtractedSkill) (text : string)
  (s : ExtractedSkill) :
  In s skills ->
  In s (profile_skills (_build_skill_profile (_categorize_skills skills)
                                             text)).
Proof.
  intros H.
  destruct (profile_of_categorized skills text) as [E1 [E2 [E3 E4]]].
  unfold profile_skills. rewrite E1, E2, E3, E4.
  eapply Permutation_in; [symmetry; apply buckets_partition | exact H].
Qed.

(** X26. The dictionary strategy is complete: whenever the cleaned,
    lowercased text contains a term of the skill lookup, the profile holds
    the skill this term stands for (its canonical name up to letter case,
    under its category) with a confidence of at least 0.8. *)
Theorem dictionary_terms_are_extracted (nlp : option Language)
  (text term canonical cat : string) :
  dict_get String.eqb term skill_lookup = Some (canonical, cat) ->
  Py.contains term (Py.lower (_preprocess_text text)) = true ->
  exists s, In s (profile_skills (extract_skills nlp text))
            /\ Py.lower (name s) = Py.lower canonical
            /\ category s = cat
            /\ 0.8 <= confidence s.
Proof.
  intros G C. apply lookup_entry in G.
  destruct (dictionary_hit (_preprocess_text text) term canonical cat G C)
    as [s0 [H0 [En [Ec L0]]]].
  unfold extract_skills. cbv zeta.
  set (found := (_ ++ _)%list).
  assert (Hf : In s0 found) by (subst found; apply in_or_app; left; exact H0).
  clearbody found.
  destruct (deduplicate_best found s0 Hf) as [s [Hs [Ek L]]].
  exists s. split; [apply profile_holds_dedup; exact Hs |].
  destruct (key_of_eq s s0 Ek) as [E1 E2].
  split; [rewrite E1, En; reflexivity |].
  split; [rewrite E2; exact Ec | lra].
Qed.

Lemma dictionary_terms_are_extracted_witness :
  exists s, In s (profile_skills (extract_skills None "We use ReactJS"))
            /\ Py.lower (name s) = Py.lower "react"
            /\ category s = "web_technologies"
            /\ 0.8 <= confidence s.
Proof.
  apply (dictionary_terms_are_extracted None "We use ReactJS" "react.js"
           "react" "web_technologies").
  - vm_compute. reflexivity.
  - vm_compute. reflexivity.
Defined.

(** *** The context window *)

Lemma length_substring_le (n m : nat) (s : string) :
  (String.length (substring n m s) <= m)%nat.
Proof.
  revert n m. induction s as [| c s IH]; intros n m.
  - destruct n, m; simpl; lia.
  - destruct n as [| n]; destruct m as [| m]; simpl; try lia.
    + specialize (IH 0%nat m). lia.
    + apply IH.
    + apply IH.
Qed.

Lemma length_lstrip_le (s : string) :
  (String.length (Py.lstrip s) <= String.length s)%nat.
Proof.
  induction s as [| c s IH]; simpl; [lia |].
  destruct (Py.is_space c); simpl; lia.
Qed.

Lemma length_rstrip_le (s : string) :
  (String.length (Py.rstrip s) <= String.length s)%nat.
Proof.
  induction s as [| c s IH]; simpl; [lia |].
  destruct (Py.rstrip s); [destruct (Py.is_space c) |]; simpl in *; lia.
Qed.

Lemma length_strip_le (s : string) :
  (String.length (Py.strip s) <= String.length s)%nat.
Proof.
  unfold Py.strip. pose proof (length_rstrip_le (Py.lstrip s)).
  pose proof (length_lstrip_le s). lia.
Qed.

Lemma context_at (text skill : string) (p : Z) :
  (0 <= p)%Z ->
  (String.length
     (Py.strip (Py.slice text (Z.max 0 (p - 50))
                         (Z.min (Z.of_nat (String.length text))
                                (p + Z.of_nat (String.length skill) + 50))))
   <= String.length skill + 100)%nat.
Proof.
  intros Hp.
  etransitivity; [apply length_strip_le |].
  unfold Py.slice. cbv zeta.
  etransitivity; [apply length_substring_le |].
  unfold Py.clamp_index.
  set (len := Z.of_nat (String.length text)).
  set (k := Z.of_nat (String.length skill)).
  assert (0 <= len)%Z by (subst len; lia).
  assert (0 <= k)%Z by (subst k; lia).
  assert (E : String.length skill = Z.to_nat k) by (subst k; lia).
  rewrite E.
  destruct (Z.ltb_spec (Z.max 0 (p - 50)) 0); [lia |].
  destruct (Z.ltb_spec (Z.min len (p + k + 50)) 0); lia.
Qed.

(** X24. The context stored with a skill is empty when the skill does not
    occur in the text, and otherwise (for a search or a non-negative given
    position) it is never longer than the skill plus 50 characters on each
    side. *)
Theorem context_window_bounded
  (text skill : string) (position : option Z) :
  (forall p, position = Some p -> (0 <= p)%Z) ->
  (String.length (_extract_context text skill position)
   <= String.length skill + 100)%nat
  /\ (position = None ->
      Py.contains (Py.lower skill) (Py.lower text) = false ->
      _extract_context text skill position = "").
Proof.
  intros Hp. unfold _extract_context. cbv zeta.
  destruct position as [p |].
  - split; [| discriminate].
    destruct (Z.eqb_spec p (-1)); [simpl; lia |].
    apply context_at. apply Hp. reflexivity.
  - unfold Py.find.
    pose proof (find_from_range (Py.lower skill) (Py.lower text) 0%Z
                  ltac:(lia)) as R.
    pose proof (contains_find_from (Py.lower skill) (Py.lower text) 0%Z
                  ltac:(lia)) as C.
    set (pos := Py.find_from 0 (Py.lower skill) (Py.lower text)) in *.
    clearbody pos. split.
    + destruct (Z.eqb_spec pos (-1)); [simpl; lia |].
      apply context_at. lia.
    + intros _ F. rewrite F in C.
      destruct (Z.eqb_spec pos (-1)); [reflexivity | discriminate C].
Qed.

Lemma context_window_bounded_witness :
  (String.length (_extract_context "I love python very much" "python" None)
   <= String.length "python" + 100)%nat
  /\ (@None Z = None ->
      Py.contains (Py.lower "python") (Py.lower "I love python very much")
      = false ->
      _extract_context "I love python very much" "python" None = "").
Proof.
  apply (context_window_bounded "I love python very much" "python" None).
  intros p E. discriminate E.
Defined.

End SkillExtractorMore.

(** ** Resume parser: the years of experience handed to the engine *)

Module ResumeParserProps.

Import ResumeParser.

Lemma add_months_whole (current_year : Z) (exp : WorkExperience) (a : Z) :
  (0 <= a)%Z ->
  exists b, (a <= b)%Z
            /\ add_months current_year (12 * a) exp = (12 * b)%Z.
Proof.
  intros Ha. unfold add_months. cbv zeta.
  destruct (_extract_year_from_date (start_date exp)) as [s |];
    [| exists a; split; [lia | reflexivity]].
  destruct (negb (s =? 0)%Z && negb (_ =? 0)%Z);
    [| exists a; split; [lia | reflexivity]].
  set (e := ScoringEngine.or_int _ current_year).
  exists (a + Z.max 0 (e - s))%Z. split; lia.
Qed.

Lemma total_months_whole (current_year : Z) (exps : list WorkExperience)
  (a : Z) :
  (0 <= a)%Z ->
  exists b, (a <= b)%Z
            /\ fold_left (add_months current_year) exps (12 * a)%Z
               = (12 * b)%Z.
Proof.
  revert a. induction exps as [| exp exps IH]; intros a Ha; cbn [fold_left].
  - exists a. split; [lia | reflexivity].
  - destruct (add_months_whole current_year exp a Ha) as [b [Hb E]].
    rewrite E. destruct (IH b ltac:(lia)) as [c [Hc E']].
    exists c. split; [lia | exact E'].
Qed.

Lemma round_half_even_whole (q : Q) (z : Z) :
  q == inject_Z z -> Py.round_half_even q = z.
Proof.
  intros E. unfold Py.round_half_even.
  assert (F : Qfloor q = z) by (rewrite E; apply Qfloor_Z).
  rewrite F.
  destruct (Qlt_le_dec (q - inject_Z z) (1 # 2)) as [_ | H]; [reflexivity |].
  exfalso. rewrite E in H. lra.
Qed.

Lemma round1_whole (q : Q) (z : Z) :
  q == inject_Z z -> Py.round1 q == inject_Z z.
Proof.
  intros E. unfold Py.round1.
  rewrite (round_half_even_whole (q * 10) (z * 10)).
  - rewrite inject_Z_mult. change (inject_Z 10) with 10. field.
  - rewrite inject_Z_mult, E. reflexivity.
Qed.

Lemma total_experience_whole
  (current_year : Z) (work_experience : list WorkExperience) (y : Q) :
  _calculate_total_experience current_year work_experience = Some y ->
  exists years : Z, (1 <= years)%Z /\ y == inject_Z years.
Proof.
  intros H. unfold _calculate_total_experience in H.
  destruct work_experience as [| exp exps]; [discriminate H |].
  cbv zeta in H.
  destruct (total_months_whole current_year (exp :: exps) 0 ltac:(lia))
    as [b [Hb E]].
  change (12 * 0)%Z with 0%Z in E. rewrite E in H.
  destruct (Z.ltb_spec 0 (12 * b)) as [P |]; [| discriminate H].
  assert (Hy : Py.round1 (inject_Z (12 * b) / 12) = y) by congruence.
  rewrite <- Hy. exists b. split; [lia |].
  apply round1_whole. rewrite inject_Z_mult.
  change (inject_Z 12) with 12. field.
Qed.

Lemma total_experience_nonneg
  (current_year : Z) (work_experience : list WorkExperience) (y : Q) :
  _calculate_total_experience current_year work_experience = Some y ->
  0 <= y.
Proof.
  intros H.
  destruct (total_experience_whole current_year work_experience y H)
    as [years [Hy E]].
  rewrite E. change 0 with (inject_Z 0). rewrite <- Zle_Qle. lia.
Qed.

(** X27. The total experience computed from the work history is either
    absent or a whole number of years, at least 1; in particular it is
    never negative, which is what the scoring engine assumes of the
    resumes it reads. *)
Theorem total_experience_is_whole_years
  (current_year : Z) (work_experience : list WorkExperience) (y : Q) :
  _calculate_total_experience current_year work_experience = Some y ->
  (exists years : Z, (1 <= years)%Z /\ y == inject_Z years) /\ 0 <= y.
Proof.
  intros H. split.
  - exact (total_experience_whole current_year work_experience y H).
  - exact (total_experience_nonneg current_year work_experience y H).
Qed.

Lemma total_experience_is_whole_years_witness :
  (exists years : Z, (1 <= years)%Z /\ 8.0 == inject_Z years) /\ 0 <= 8.0.
Proof.
  apply (total_experience_is_whole_years Samples.this_year
           [Notions.long_job] 8.0).
  vm_compute. reflexivity.
Defined.

End ResumeParserProps.

(** ** Job description parser: the required skills *)

Module JobSkillsProps.

Import JobSkills.

Lemma prefix_in_app (k a b : string) :
  prefix k a = true -> prefix k (a ++ b) = true.
Proof.
  revert a. induction k as [| c k IH]; intros a H;
    [destruct (a ++ b)%string; reflexivity |].
  destruct a as [| d a]; simpl in *; [discriminate H |].
  destruct (ascii_dec c d); [apply IH, H | discriminate H].
Qed.

(** What a text contains, every extension of it contains. *)
Lemma contains_in_app (k a b : string) :
  Py.contains k a = true -> Py.contains k (a ++ b) = true.
Proof.
  induction a as [| d a IH]; cbn [Py.contains append]; intros H.
  - destruct (prefix k "") eqn:E; [| discriminate H].
    destruct k; [| discriminate E]. destruct b; reflexivity.
  - destruct (prefix k (String d a)) eqn:E.
    + apply (prefix_in_app k _ b) in E. cbn [append] in E.
      rewrite E. reflexivity.
    + destruct (prefix k (String d (a ++ b))); [reflexivity | apply IH, H].
Qed.

Lemma set_add_In (x y : string) (skills : list string) :
  In x (set_add y skills) <-> x = y \/ In x skills.
Proof.
  unfold set_add. destruct (Py.mem y skills) eqn:M.
  - apply SemanticMatcherProps.mem_In in M. split; [tauto |].
    intros [E | H]; [subst x; exact M | exact H].
  - rewrite in_app_iff. simpl. split; intros H; intuition.
Qed.

Lemma set_add_NoDup (y : string) (skills : list string) :
  NoDup skills -> NoDup (set_add y skills).
Proof.
  intros N. unfold set_add. destruct (Py.mem y skills) eqn:M; [exact N |].
  apply NoDup_rev in N. rewrite <- (rev_involutive (skills ++ [y])).
  apply NoDup_rev. rewrite rev_app_distr. simpl. constructor; [| exact N].
  rewrite <- in_rev. intros I. apply SemanticMatcherProps.mem_In in I.
  congruence.
Qed.

Section Found.

Variable combined_text : string.
Variables test display : string -> string.

Lemma add_found_keeps (keywords skills : list string) (x : string) :
  In x skills -> In x (add_found combined_text test display keywords skills).
Proof.
  unfold add_found. revert skills.
  induction keywords as [| k keywords IH]; intros skills H; [exact H |].
  cbn [fold_left]. apply IH.
  destruct (Py.contains (test k) combined_text); [| exact H].
  apply set_add_In. right. exact H.
Qed.

Lemma add_found_hits (keywords skills : list string) (k : string) :
  In k keywords -> Py.contains (test k) combined_text = true ->
  In (display k) (add_found combined_text test display keywords skills).
Proof.
  unfold add_found. revert skills.
  induction keywords as [| k' keywords IH]; intros skills H C;
    [contradiction |].
  cbn [fold_left]. destruct H as [E | H].
  - subst k'. rewrite C.
    apply (add_found_keeps keywords). apply set_add_In. left. reflexivity.
  - apply IH; assumption.
Qed.

Lemma add_found_NoDup (keywords skills : list string) :
  NoDup skills ->
  NoDup (add_found combined_text test display keywords skills).
Proof.
  unfold add_found. revert skills.
  induction keywords as [| k keywords IH]; intros skills N; [exact N |].
  cbn [fold_left]. apply IH.
  destruct (Py.contains (test k) combined_text); [| exact N].
  apply set_add_NoDup, N.
Qed.

End Found.

(** X28. Skills are read off a job description by substring search, so it
    over-reports: a text that mentions javascript is given Java as well as
    Javascript, and every text that contains the letter r is given R.  No
    skill is listed twice, in whatever order the set is listed. *)
Theorem required_skills_by_substring
  (list_of_set : list string -> list string)
  (text : string) (requirements : list string) :
  (forall skills, Permutation (list_of_set skills) skills) ->
  let skills := _extract_required_skills list_of_set text requirements in
  NoDup skills
  /\ (Py.contains "javascript" (Py.lower text) = true ->
      In "Javascript" skills /\ In "Java" skills)
  /\ (Py.contains "r" (Py.lower text) = true -> In "R" skills).
Proof.
  intros P. cbv zeta. unfold _extract_required_skills. cbv zeta.
  set (combined := match requirements with
                   | [] => Py.lower text
                   | _ => _
                   end).
  assert (C : forall k, Py.contains k (Py.lower text) = true ->
                Py.contains k combined = true).
  { intros k H. subst combined. destruct requirements; [exact H |].
    apply contains_in_app, H. }
  clearbody combined.
  set (langs := add_found combined (fun lang => lang) title
                          programming_languages []).
  assert (L : forall k, In k programming_languages ->
                Py.contains k (Py.lower text) = true ->
                In (title k)
                   (list_of_set
                      (add_found combined Py.lower
                         (fun tool => if Py.mem (Py.lower tool) ["aws"; "gcp"]
                                      then upper tool else title tool)
                         cloud_tools
                         (add_found combined (fun db => db)
                            (fun db => if (String.length db <=? 3)%nat
                                       then upper db else title db)
                            databases
                            (add_found combined Py.lower
                               (fun framework => framework)
                               frameworks_libraries langs))))).
  { intros k I H. eapply Permutation_in; [symmetry; apply P |].
    do 3 apply add_found_keeps.
    apply (add_found_hits combined (fun lang => lang) title
             programming_languages [] k I).
    apply C, H. }
  split; [| split].
  - eapply Permutation_NoDup; [symmetry; apply P |].
    do 4 apply add_found_NoDup. constructor.
  - intros H. split.
    + apply (L "javascript"); [simpl; tauto | exact H].
    + apply (L "java"); [simpl; tauto |].
      change "javascript" with ("java" ++ "script")%string in H.
      exact (JobDescriptionParserProps.contains_app_l _ _ _ H).
  - intros H. apply (L "r"); [simpl; tauto | exact H].
Qed.

Lemma required_skills_by_substring_witness :
  let skills :=
    _extract_required_skills (fun skills => skills)
      "Senior JavaScript developer" [] in
  NoDup skills
  /\ (Py.contains "javascript" (Py.lower "Senior JavaScript developer") = true
      -> In "Javascript" skills /\ In "Java" skills)
  /\ (Py.contains "r" (Py.lower "Senior JavaScript developer") = true
      -> In "R" skills).
Proof.
  apply (required_skills_by_substring (fun skills => skills)
           "Senior JavaScript developer" []).
  intros skills. apply Permutation_refl.
Defined.

End JobSkillsProps.

(** ** The pipeline: from the matcher to the hard-skills score *)

Module PipelineProps.

Import ScoringEngine SemanticMatcher Notions.

Section Backends.

Variable token_sort_ratio : string -> string -> Z.
Variable sentence_transformer : option SentenceTransformer.
Variable tfidf_cosine : string -> string -> Q.

(** X25. When every required skill is named by the resume up to letter
    case, the matcher reports no missing skill and the hard-skills score is
    exactly 1. *)
Theorem fully_matched_requirements_score_one
  (profile : SkillProfile) (jd : ParsedJobDescription)
  (resume_text jd_text : string) (j0 : string) (js : list string) :
  required_skills jd = Some (j0 :: js) ->
  (forall j, In j (j0 :: js) ->
     exists r, In r (all_resume_skill_names profile) /\ same_skill r j) ->
  0 <= skill_diversity_score profile ->
  let sm := match_resume_to_jd token_sort_ratio sentence_transformer
              tfidf_cosine profile jd resume_text jd_text in
  missing_skills sm = []
  /\ _calculate_hard_skills_score profile sm jd == 1.
Proof.
  intros Hreq Hall Hdiv. cbv zeta.
  set (sm := match_resume_to_jd _ _ _ _ _ _ _).
  assert (M : missing_skills sm = []).
  { subst sm. unfold match_resume_to_jd. cbn [missing_skills].
    apply FeedbackGeneratorProps.filter_none. intros j Hj.
    rewrite Hreq in Hj. cbn [Py.or_nil] in Hj.
    destruct (Hall j Hj) as [r [Hr E]].
    destruct (SemanticMatcherMore.exact_match_found
                (all_resume_skill_names profile)
                (Py.or_nil (required_skills jd)
                 ++ Py.or_nil (preferred_skills jd))%list j r)
      as [m [Hm [Ej _]]];
      [rewrite Hreq; apply in_or_app; left; exact Hj | exact Hr | exact E |].
    apply (SemanticMatcherMore.exact_in_comprehensive token_sort_ratio
             sentence_transformer) in Hm.
    unfold not_in. apply negb_false_iff.
    apply SemanticMatcherProps.mem_In. rewrite <- Ej. apply in_map, Hm. }
  split; [exact M |].
  assert (L : (length (j0 :: js)
               <= length (filter (fun m => Py.ge (match_confidence m) 0.7)
                                 (skill_matches sm)))%nat).
  { rewrite SemanticMatcherMore.filter_all.
    - subst sm. unfold match_resume_to_jd. cbn [skill_matches].
      rewrite Hreq. cbn [Py.or_nil].
      etransitivity; [| apply SemanticMatcherMore.comprehensive_ge_exact].
      apply SemanticMatcherMore.exact_prefix_count. exact Hall.
    - intros m Hm. subst sm. unfold match_resume_to_jd in Hm.
      cbn [skill_matches] in Hm.
      apply SemanticMatcherMore.match_floor in Hm. destruct Hm as [F _].
      unfold Py.ge.
      destruct (Qlt_le_dec (match_confidence m) 0.7) as [Lt |];
        [| reflexivity].
      exfalso. apply (Qlt_not_le _ _ Lt F). }
  unfold _calculate_hard_skills_score. rewrite Hreq, M. cbv zeta.
  change (0 <? length (j0 :: js))%nat with true. cbv iota.
  assert (N : 0 < Py.of_nat (length (j0 :: js)))
    by (apply PyFacts.of_nat_pos; simpl; lia).
  assert (B : 1 <= Py.of_nat
                     (length (filter (fun m => Py.ge (match_confidence m) 0.7)
                                     (skill_matches sm)))
                   / Py.of_nat (length (j0 :: js))).
  { apply Qle_shift_div_l; [exact N |]. rewrite Qmult_1_l.
    apply PyFacts.of_nat_le, L. }
  pose proof (PyFacts.ratio_nonneg
                (length (filter (fun m => Py.ge (match_confidence m) 0.9)
                                (skill_matches sm)))
                (length (j0 :: js))) as C.
  set (base := Py.of_nat _ / _) in *.
  set (high := Py.of_nat _ / _) in *.
  set (d := skill_diversity_score profile) in *.
  clearbody base high d.
  destruct (_identify_critical_skills (j0 :: js)) as [| c cs].
  - minmax; lra.
  - rewrite (FeedbackGeneratorProps.filter_none _
               (fun s => Py.mem s []) (c :: cs))
      by (intros x _; reflexivity).
    change (Py.of_nat (length (@nil string))) with 0.
    set (n := Py.of_nat (length (c :: cs))). clearbody n.
    assert (Z : 0 / n * 0.3 == 0) by (unfold Qdiv; rewrite Qmult_0_l; lra).
    set (pen := 0 / n * 0.3) in *. clearbody pen.
    minmax; lra.
Qed.

(** X29. What the resume parser and the matcher hand to the scoring
    engine is a valid input for it: the years of experience are not
    negative, and the overall similarity lies in [0,1] as soon as the
    embedding model and the TF-IDF similarity return non-negative
    values. *)
Theorem pipeline_inputs_are_valid
  (current_year : Z) (resume : ParsedResume)
  (profile : SkillProfile) (jd : ParsedJobDescription)
  (resume_text jd_text : string) :
  (forall a b, 0 <= tfidf_cosine a b) ->
  (forall model a b, sentence_transformer = Some model ->
                     0 <= cosine model a b) ->
  total_experience_years resume
  = ResumeParser._calculate_total_experience current_year
      (Py.or_nil (work_experience resume)) ->
  valid_inputs resume
    (match_resume_to_jd token_sort_ratio sentence_transformer tfidf_cosine
       profile jd resume_text jd_text).
Proof.
  intros Ht He Hy. unfold valid_inputs. split.
  - intros y E. rewrite Hy in E.
    exact (ResumeParserProps.total_experience_nonneg _ _ _ E).
  - unfold match_resume_to_jd. cbn [overall_similarity].
    apply SemanticMatcherMore.overall_similarity_unit.
    + intros m Hm. apply SemanticMatcherMore.match_floor in Hm.
      destruct Hm as [L _]. lra.
    + unfold _calculate_embedding_similarity.
      destruct sentence_transformer as [model |] eqn:E; [| lra].
      apply (He model). reflexivity.
    + apply Ht.
Qed.

End Backends.

Lemma pipeline_inputs_are_valid_witness :
  valid_inputs parsed_resume
    (match_resume_to_jd (fun _ _ => 0%Z) (Some constant_model)
       (fun _ _ => 0.5) Samples.profile (Samples.jd ["python"])
       "python" "python").
Proof.
  apply (pipeline_inputs_are_valid (fun _ _ => 0%Z) (Some constant_model)
           (fun _ _ => 0.5) Samples.this_year).
  - intros a b. vm_compute. discriminate.
  - intros model a b E. inversion E. vm_compute. discriminate.
  - vm_compute. reflexivity.
Defined.


Lemma fully_matched_requirements_score_one_witness :
  let sm := match_resume_to_jd (fun _ _ => 0%Z) None (fun _ _ => 0.5)
              Samples.profile (Samples.jd ["Python"]) "python" "Python" in
  missing_skills sm = []
  /\ _calculate_hard_skills_score Samples.profile sm (Samples.jd ["Python"])
     == 1.
Proof.
  apply (fully_matched_requirements_score_one (fun _ _ => 0%Z) None
           (fun _ _ => 0.5) Samples.profile (Samples.jd ["Python"])
           "python" "Python" "Python" []).
  - reflexivity.
  - intros j [E | []]. subst j. exists "python".
    split; [simpl; left; reflexivity | reflexivity].
  - vm_compute. discriminate.
Defined.

End PipelineProps.
